(** * Control / document / selection catalogs and the graph assembler

    A shallow embedding of the Python modules
      app/visual/controls.py, app/visual/documents.py,
      app/visual/selected_documents.py, app/visual/presenter.py,
      app/visual/presenter_layout.py,
      app/selector/document_selector_utils.py,
      app/selector/DocumentSelector_class.py,
      app/selector/execute_control.py and
      DocumentKeywordsGenerator_class.py
    together with the properties stated about them.

    Conventions of the embedding.
    - A Python [str] is a list of characters; characters are the code points
      0..255 (Latin-1).  On that range [\d] is exactly [0-9], [\s] and
      [str.isspace] are exactly the twelve code points listed in [isspace],
      and [str.lower] only moves A-Z and the accented capitals.
    - The file system is an explicit argument: a map from a directory path to
      the entries [Path.glob] enumerates, in enumeration order.
    - [print] appends a line to an explicit output log.
    - A raised exception is a value of [outcome].
    - The iteration order of a Python [set] is not fixed by the language; it
      is an explicit argument [set_iter] wherever the source iterates a set.
    - Integers are unbounded, and [int] refuses a run of more than 4300
      digits with ValueError: the interpreter's default limit, which the
      program does not change.  A [float] made from a run of digits is the
      nearest binary64 value, kept as the integer it stands for, or [inf];
      [float] has no such limit. *)

From Stdlib Require Import List Ascii String ZArith Lia Bool Arith.
From Stdlib Require Import Permutation Sorted.
Import ListNotations.

(** [length] is the length of a list throughout. *)
Abbreviation length := Datatypes.length (only parsing).

Set Implicit Arguments.

(* ================================================================== *)
(** ** Python strings *)
(* ================================================================== *)

Module Py.

Abbreviation str := (list ascii) (only parsing).

(** String literal. *)
Definition py (s : string) : str := list_ascii_of_string s.

(** [len(s)]. *)
Definition len (s : str) : nat := Datatypes.length s.

Definition str_eq_dec : forall a b : str, {a = b} + {a <> b} :=
  list_eq_dec ascii_dec.

Definition str_eqb (a b : str) : bool :=
  if str_eq_dec a b then true else false.

Definition code (c : ascii) : N := N_of_ascii c.

Definition chr_eqb (a b : ascii) : bool := (code a =? code b)%N.

(** [\d] / [str.isdigit] on Latin-1. *)
Definition isdigit (c : ascii) : bool :=
  ((48 <=? code c) && (code c <=? 57))%N.

(** [\s] / [str.isspace] on Latin-1: TAB LF VT FF CR, FS GS RS US, SPACE,
    NEL (0x85) and NBSP (0xA0). *)
Definition isspace (c : ascii) : bool :=
  (((9 <=? code c) && (code c <=? 13))
   || ((28 <=? code c) && (code c <=? 32))
   || (code c =? 133) || (code c =? 160))%N.

Definition newline : ascii := ascii_of_N 10.

(** [.] of a regular expression without DOTALL. *)
Definition notnewline (c : ascii) : bool := negb (chr_eqb c newline).

(** [[^\s]]. *)
Definition notspace (c : ascii) : bool := negb (isspace c).

(** [str.lower] on one Latin-1 character. *)
Definition lower_char (c : ascii) : ascii :=
  let n := code c in
  if (((65 <=? n) && (n <=? 90))
      || ((192 <=? n) && (n <=? 222) && negb (n =? 215)))%N
  then ascii_of_N (n + 32) else c.

Definition lower (s : str) : str := map lower_char s.

(** [s.startswith(p)]. *)
Fixpoint startswith (s p : str) {struct p} : bool :=
  match p, s with
  | [], _ => true
  | _ :: _, [] => false
  | a :: p', b :: s' => chr_eqb a b && startswith s' p'
  end.

(** [s.endswith(p)]. *)
Definition endswith (s p : str) : bool := startswith (rev s) (rev p).

(** [s.lstrip()] with a character class. *)
Fixpoint lstrip_class (cls : ascii -> bool) (s : str) : str :=
  match s with
  | c :: s' => if cls c then lstrip_class cls s' else s
  | [] => []
  end.

Definition rstrip_class (cls : ascii -> bool) (s : str) : str :=
  rev (lstrip_class cls (rev s)).

(** [s.strip()]. *)
Definition strip (s : str) : str :=
  rstrip_class isspace (lstrip_class isspace s).

(** [s.lstrip(chars)]. *)
Definition lstrip_chars (chars s : str) : str :=
  lstrip_class (fun c => existsb (chr_eqb c) chars) s.

(** [s.split(sep)] for a one-character separator: never the empty list. *)
Fixpoint split (sep : ascii) (s : str) : list str :=
  match s with
  | [] => [[]]
  | c :: s' =>
      if chr_eqb c sep then [] :: split sep s'
      else match split sep s' with
           | w :: ws => (c :: w) :: ws
           | [] => [[c]]
           end
  end.

(** Value of a run of decimal digits, most significant first; [None] when
    the string is empty or holds another character.  This is the part of
    [int(s)] and of [float(s)] that the catalogs use: every argument they
    pass was matched by [\d+]. *)
Fixpoint digits_value_from (acc : Z) (s : str) : option Z :=
  match s with
  | [] => Some acc
  | c :: s' =>
      if isdigit c
      then digits_value_from (10 * acc + (Z.of_N (code c) - 48)) s'
      else None
  end.

Definition int (s : str) : option Z :=
  match s with
  | [] => None
  | _ => digits_value_from 0 s
  end.

(** A Python [float] that is a non-negative integer or [inf]: the only
    values [float] returns on a run of digits. *)
Inductive pyfloat : Type :=
| Finite (v : Z)
| Infinity.

(** Round a non-negative integer to the nearest binary64 value, ties to
    even; an integer of 2^1024 - 2^970 or more gives [inf]. *)
Definition round_to_double (n : Z) : pyfloat :=
  if (n <? 2 ^ 53)%Z then Finite n
  else
    let e := (Z.log2 n - 52)%Z in
    let q := (n / 2 ^ e)%Z in
    let r := (n mod 2 ^ e)%Z in
    let half := (2 ^ (e - 1))%Z in
    let q' := if (r <? half)%Z then q
              else if (half <? r)%Z then (q + 1)%Z
              else if Z.even q then q else (q + 1)%Z in
    let v := (q' * 2 ^ e)%Z in
    if (2 ^ 1024 <=? v)%Z then Infinity else Finite v.

Definition float (s : str) : option pyfloat :=
  option_map round_to_double (int s).

Definition float_ltb (a b : pyfloat) : bool :=
  match a, b with
  | Finite x, Finite y => (x <? y)%Z
  | Finite _, Infinity => true
  | Infinity, _ => false
  end.

Definition float_eqb (a b : pyfloat) : bool :=
  match a, b with
  | Finite x, Finite y => (x =? y)%Z
  | Infinity, Infinity => true
  | _, _ => false
  end.

(** [<] on a pair of floats: the first differing component decides. *)
Definition float_pair_ltb (a b : pyfloat * pyfloat) : bool :=
  if float_eqb (fst a) (fst b) then float_ltb (snd a) (snd b)
  else float_ltb (fst a) (fst b).

(** Exceptions the modelled code can raise, and the result of a call. *)
Inductive exn : Type :=
| FileNotFoundError (msg : str)
| ValueError (msg : str)
| IndexError.

Inductive outcome (A : Type) : Type :=
| Raise (e : exn)
| Return (a : A).

Arguments Raise {A} e.
Arguments Return {A} a.

(** [list.sort(key=...)]: the keys are computed first (any failure is
    raised before the list changes), then the list is sorted stably using
    only [<] on keys.  A stable sort has one possible result, so insertion
    from the right stands for the interpreter's merge sort. *)
Section Sort.
Variables (A K : Type) (ltb : K -> K -> bool).

Fixpoint insert_keyed (x : K * A) (l : list (K * A)) : list (K * A) :=
    match l with
    | [] => [x]
    | y :: l' =>
        if ltb (fst y) (fst x) then y :: insert_keyed x l'
        else x :: y :: l'
    end.

Definition sort_keyed (l : list (K * A)) : list (K * A) :=
    fold_right insert_keyed [] l.

Fixpoint decorate (key : A -> outcome K) (l : list A)
    : outcome (list (K * A)) :=
    match l with
    | [] => Return []
    | x :: l' =>
        match key x with
        | Raise e => Raise e
        | Return k =>
            match decorate key l' with
            | Raise e => Raise e
            | Return d => Return ((k, x) :: d)
            end
        end
    end.

Definition sort (key : A -> outcome K) (l : list A) : outcome (list A) :=
    match decorate key l with
    | Return d => Return (map snd (sort_keyed d))
    | Raise e => Raise e
    end.
End Sort.

(** [str(n)] for a natural number. *)
Fixpoint digits_of (fuel n : nat) (acc : str) : str :=
  match fuel with
  | O => acc
  | S k =>
      let acc' := ascii_of_nat (48 + n mod 10) :: acc in
      if n / 10 =? 0 then acc' else digits_of k (n / 10) acc'
  end.

Definition str_of_nat (n : nat) : str := digits_of (S n) n [].

(** [sys.get_int_max_str_digits()]: the interpreter's default, which the
    program leaves as it is. *)
Definition int_max_str_digits : nat := 4300.

(** [str(e)] of the ValueError with which [int] refuses a run of [digits]
    digits. *)
Definition int_limit_text (digits : nat) : str :=
  py "Exceeds the limit (" ++ str_of_nat int_max_str_digits
    ++ py " digits) for integer string conversion: value has "
    ++ str_of_nat digits
    ++ py " digits; use sys.set_int_max_str_digits() to increase the limit".

(** [int(s)] and [float(s)] as calls on what the program converts, runs of
    decimal digits.  [int] refuses a run of more than [int_max_str_digits]
    digits, leading zeros counted; [float] has no such limit and returns
    [inf] on a long run.  Outside the digit runs the calls are given as
    raising ValueError, with the interpreter's text for a string that
    [repr] shows between single quotes as it is. *)
Definition int_call (s : str) : outcome Z :=
  match int s with
  | Some n =>
      if int_max_str_digits <? len s
      then Raise (ValueError (int_limit_text (len s)))
      else Return n
  | None =>
      Raise (ValueError
               (py "invalid literal for int() with base 10: '" ++ s
                  ++ py "'"))
  end.

Definition float_call (s : str) : outcome pyfloat :=
  match float s with
  | Some x => Return x
  | None =>
      Raise (ValueError
               (py "could not convert string to float: '" ++ s ++ py "'"))
  end.

(** [l[i]]. *)
Definition index {A : Type} (l : list A) (i : nat) : outcome A :=
  match nth_error l i with Some x => Return x | None => Raise IndexError end.

(** [l.rfind(c)] for one character: the last index, or -1. *)
Fixpoint rfind_from (c : ascii) (s : str) (i last : Z) : Z :=
  match s with
  | [] => last
  | x :: s' => rfind_from c s' (i + 1)%Z (if chr_eqb x c then i else last)
  end.

Definition rfind (c : ascii) (s : str) : Z := rfind_from c s 0%Z (-1)%Z.

(** The values the graph elements are made of: strings and dictionaries
    (keys in insertion order). *)
#[warnings="-register-all"]
Inductive pyval : Type :=
| VStr (s : str)
| VDict (items : list (str * pyval)).

(** [d.get(k)] on the items of a dictionary. *)
Fixpoint dict_get {V : Type} (items : list (str * V)) (k : str) : option V :=
  match items with
  | [] => None
  | (k', v) :: items' => if str_eqb k' k then Some v else dict_get items' k
  end.

(** [list(d.keys())]. *)
Definition keys {V : Type} (items : list (str * V)) : list str :=
  map fst items.

(** [x in s] for a set of strings given by its elements. *)
Definition mem (x : str) (s : list str) : bool := existsb (str_eqb x) s.

(** [str(e)] as it is interpolated into a warning. *)
Definition exn_text (e : exn) : str :=
  match e with
  | FileNotFoundError msg => msg
  | ValueError msg => msg
  | IndexError => py "list index out of range"
  end.

End Py.

Import Py.

(* ================================================================== *)
(** ** Regular expressions as backtracking matchers *)
(* ================================================================== *)

Module Re.

(** A pattern takes the text at the current position and lists every way
    to match there, as (value, remaining text), in the order in which the
    backtracking matcher of [re] tries them.  The match that [re] reports
    is the first one. *)
Definition pattern (A : Type) : Type := str -> list (A * str).

Definition ret {A : Type} (a : A) : pattern A := fun s => [(a, s)].

Definition bind {A B : Type} (p : pattern A) (f : A -> pattern B)
  : pattern B :=
  fun s => flat_map (fun ar => f (fst ar) (snd ar)) (p s).

(** A literal. *)
Definition lit (l : str) : pattern str :=
  fun s => if startswith s l then [(l, skipn (len l) s)] else [].

(** [c*], greedy: longest run first. *)
Fixpoint star_greedy (cls : ascii -> bool) (s : str) : list (str * str) :=
  match s with
  | c :: s' =>
      if cls c
      then map (fun mr => (c :: fst mr, snd mr)) (star_greedy cls s')
             ++ [([], s)]
      else [([], s)]
  | [] => [([], [])]
  end.

(** [c+], greedy. *)
Definition plus_greedy (cls : ascii -> bool) : pattern str :=
  fun s =>
    match s with
    | c :: s' =>
        if cls c
        then map (fun mr => (c :: fst mr, snd mr)) (star_greedy cls s')
        else []
    | [] => []
    end.

(** [c*?], lazy: shortest run first. *)
Fixpoint star_lazy (cls : ascii -> bool) (s : str) : list (str * str) :=
  ([], s) ::
  match s with
  | c :: s' =>
      if cls c
      then map (fun mr => (c :: fst mr, snd mr)) (star_lazy cls s')
      else []
  | [] => []
  end.

(** [c+?], lazy. *)
Definition plus_lazy (cls : ascii -> bool) : pattern str :=
  fun s =>
    match s with
    | c :: s' =>
        if cls c
        then map (fun mr => (c :: fst mr, snd mr)) (star_lazy cls s')
        else []
    | [] => []
    end.

(** [l?], greedy: with the literal first, then without. *)
Definition opt (l : str) : pattern str :=
  fun s => lit l s ++ [([], s)].

(** [$] without MULTILINE: at the end, or before a final newline. *)
Definition eos : pattern unit :=
  fun s =>
    match s with
    | [] => [(tt, s)]
    | [c] => if chr_eqb c newline then [(tt, s)] else []
    | _ => []
    end.

(** The first way to match at the current position. *)
Definition first_match {A : Type} (p : pattern A) (s : str)
  : option (A * str) :=
  hd_error (p s).

(** [p.match(s)]: the groups of the match at the start of [s]. *)
Definition re_match {A : Type} (p : pattern A) (s : str) : option A :=
  option_map fst (first_match p s).

(** [p.search(s)]: the match at the leftmost position that has one. *)
Fixpoint search {A : Type} (p : pattern A) (s : str) : option A :=
  match re_match p s with
  | Some g => Some g
  | None =>
      match s with
      | [] => None
      | _ :: s' => search p s'
      end
  end.

(** [p.findall(s)] for a pattern with one group: matches are taken left to
    right and do not overlap.  [skip] counts the characters of the last
    match that are still to be stepped over. *)
Fixpoint findall_from {A : Type} (p : pattern A) (skip : nat) (s : str)
  {struct s} : list A :=
  match s with
  | [] =>
      match skip, first_match p [] with
      | O, Some (g, _) => [g]
      | _, _ => []
      end
  | _ :: s' =>
      match skip with
      | S k => findall_from p k s'
      | O =>
          match first_match p s with
          | Some (g, rest) =>
              g :: findall_from p (len s' - len rest) s'
          | None => findall_from p 0 s'
          end
      end
  end.

Definition findall {A : Type} (p : pattern A) (s : str) : list A :=
  findall_from p 0 s.

End Re.

Declare Scope re_scope.
Delimit Scope re_scope with re.
Notation "x <- p ;; q" := (Re.bind p (fun x => q))
  (at level 61, p at next level, right associativity) : re_scope.

(* ================================================================== *)
(** ** The file system seen by the loaders *)
(* ================================================================== *)

Module FS.

(** What [open(...).read()] does on an entry: the decoded text, or an
    exception with its message. *)
Inductive read_result : Type :=
| ReadError (msg : str)
| Content (text : str).

Record file : Type := { name : str; read : read_result }.

(** [exists] and the directory listing: [None] when the path does not
    exist, else the entries in the order the directory scan yields them. *)
Definition filesystem : Type := str -> option (list file).

(** [Path.glob("*.md")]. *)
Definition glob_md (entries : list file) : list file :=
  filter (fun f => endswith (name f) (py ".md")) entries.

End FS.

(* ================================================================== *)
(** ** app/visual/controls.py *)
(* ================================================================== *)

Module controls.

Record Control : Type := { id : str; name : str; content : str }.

(** [^(\d+\.\d+)\s+(.+?)\.md$], returning groups 1 and 2. *)
Definition pattern : Re.pattern (str * str) :=
  (major <- Re.plus_greedy isdigit ;;
   dot <- Re.lit (py ".") ;;
   minor <- Re.plus_greedy isdigit ;;
   _ <- Re.plus_greedy isspace ;;
   rest <- Re.plus_lazy notnewline ;;
   _ <- Re.lit (py ".md") ;;
   _ <- Re.eos ;;
   Re.ret (major ++ dot ++ minor, rest))%re.

(** [(float(x.split(".")[0]), float(x.split(".")[1]))]. *)
Definition sort_key (x_id : str) : outcome (pyfloat * pyfloat) :=
  match index (split "."%char x_id) 0 with
  | Raise e => Raise e
  | Return a =>
      match float_call a with
      | Raise e => Raise e
      | Return fa =>
          match index (split "."%char x_id) 1 with
          | Raise e => Raise e
          | Return b =>
              match float_call b with
              | Raise e => Raise e
              | Return fb => Return (fa, fb)
              end
          end
      end
  end.

(** One iteration of the loop over the globbed files; the state is the
    list being built and the printed lines. *)
Definition loop_body (st : list Control * list str) (file_path : FS.file)
  : list Control * list str :=
  let (controls, out) := st in
  let filename := FS.name file_path in
  match Re.re_match pattern filename with
  | Some (control_id, control_name) =>
      match FS.read file_path with
      | FS.Content text =>
          (controls ++ [Build_Control control_id control_name text], out)
      | FS.ReadError e =>
          (controls,
           out ++ [py "Warning: Could not read file " ++ filename
                     ++ py ": " ++ e])
      end
  | None =>
      (controls,
       out ++ [py "Warning: Filename '" ++ filename
                 ++ py "' does not match expected pattern (ID Name.md)"])
  end.

(** Returns the printed lines and the result of the call. *)
Definition load_controls (fs : FS.filesystem) (controls_dir : str)
  : list str * outcome (list Control) :=
  match fs controls_dir with
  | None =>
      ([], Raise (FileNotFoundError
                    (py "Controls directory not found: " ++ controls_dir)))
  | Some entries =>
      let (controls, out) :=
        fold_left loop_body (FS.glob_md entries) ([], []) in
      (out, Py.sort float_pair_ltb (fun x => sort_key (id x)) controls)
  end.

Fixpoint get_control_by_id (controls : list Control) (control_id : str)
  : option Control :=
  match controls with
  | [] => None
  | control :: rest =>
      if str_eqb (id control) control_id then Some control
      else get_control_by_id rest control_id
  end.

(** The call as an operation on the caller's list object: its result and
    the list as the call leaves it. *)
Definition call_get_control_by_id (controls : list Control) (control_id : str)
  : outcome (option Control) * list Control :=
  (Return (get_control_by_id controls control_id), controls).

End controls.

(* ================================================================== *)
(** ** app/visual/documents.py *)
(* ================================================================== *)

Module documents.

Record Document : Type := { id : str; name : str; content : str }.

(** The instance dictionary that [__init__] fills: [vars(document)]. *)
Definition vars (d : Document) : list (str * str) :=
  [(py "id", id d); (py "name", name d); (py "content", content d)].

(** [^(\d+)\.md$], returning group 1. *)
Definition pattern : Re.pattern str :=
  (digits <- Re.plus_greedy isdigit ;;
   _ <- Re.lit (py ".md") ;;
   _ <- Re.eos ;;
   Re.ret digits)%re.

(** The name computed between reading the file and building the record. *)
Definition document_name (text document_id : str) : str :=
  let lines := split newline text in
  let document_name :=
    match lines with
    | [] => []
    | line0 :: _ =>
        let first_line := strip line0 in
        if startswith first_line (py "#")
        then strip (lstrip_chars (py "#") first_line)
        else first_line
    end in
  match document_name with
  | [] => document_id
  | _ => document_name
  end.

Definition loop_body (st : list Document * list str) (file_path : FS.file)
  : list Document * list str :=
  let (documents, out) := st in
  let filename := FS.name file_path in
  match Re.re_match pattern filename with
  | Some document_id =>
      match FS.read file_path with
      | FS.Content text =>
          (documents ++
             [Build_Document document_id (document_name text document_id)
                text],
           out)
      | FS.ReadError e =>
          (documents,
           out ++ [py "Warning: Could not read file " ++ filename
                     ++ py ": " ++ e])
      end
  | None =>
      (documents,
       out ++ [py "Warning: Filename '" ++ filename
                 ++ py "' does not match expected pattern (numeric ID.md)"])
  end.

Definition load_documents (fs : FS.filesystem) (documents_dir : str)
  : list str * outcome (list Document) :=
  match fs documents_dir with
  | None =>
      ([], Raise (FileNotFoundError
                    (py "Documents directory not found: " ++ documents_dir)))
  | Some entries =>
      let (documents, out) :=
        fold_left loop_body (FS.glob_md entries) ([], []) in
      (out, Py.sort Z.ltb (fun x => int_call (id x)) documents)
  end.

Fixpoint get_document_by_id (documents : list Document) (document_id : str)
  : option Document :=
  match documents with
  | [] => None
  | document :: rest =>
      if str_eqb (id document) document_id then Some document
      else get_document_by_id rest document_id
  end.

Definition call_get_document_by_id (documents : list Document)
  (document_id : str) : outcome (option Document) * list Document :=
  (Return (get_document_by_id documents document_id), documents).

End documents.

(* ================================================================== *)
(** ** app/visual/selected_documents.py *)
(* ================================================================== *)

Module selected_documents.

Record SelectedControl : Type :=
  { id : str; name : str; relevant_document_ids : list str }.

(** [/pages/(\d+)], returning group 1. *)
Definition pattern : Re.pattern str :=
  (_ <- Re.lit (py "/pages/") ;;
   digits <- Re.plus_greedy isdigit ;;
   Re.ret digits)%re.

Section WithSetOrder.
  (** [set_iter l] lists the elements of [set(l)] in the order in which the
      interpreter iterates that set. *)
Variable set_iter : list str -> list str.

Definition extract_document_ids_from_content
    (text : str) (available_document_ids : list str) : outcome (list str) :=
    let matches := Re.findall pattern text in
    let found_ids := set_iter matches in
    let relevant_ids :=
      filter (fun doc_id => mem doc_id available_document_ids) found_ids in
    Py.sort Z.ltb int_call relevant_ids.

  (** [^(\d+\.\d+)\s+(.+?)\.md$], the pattern of controls.py again. *)
Definition filename_pattern : Re.pattern (str * str) :=
    (major <- Re.plus_greedy isdigit ;;
     dot <- Re.lit (py ".") ;;
     minor <- Re.plus_greedy isdigit ;;
     _ <- Re.plus_greedy isspace ;;
     rest <- Re.plus_lazy notnewline ;;
     _ <- Re.lit (py ".md") ;;
     _ <- Re.eos ;;
     Re.ret (major ++ dot ++ minor, rest))%re.

Definition loop_body (available_document_ids : list str)
    (st : list SelectedControl * list str) (file_path : FS.file)
    : list SelectedControl * list str :=
    let (selected_controls, out) := st in
    let filename := FS.name file_path in
    if str_eqb (lower filename) (py "template.md") then st
    else
      match Re.re_match filename_pattern filename with
      | Some (control_id, control_name) =>
          match FS.read file_path with
          | FS.Content text =>
              match extract_document_ids_from_content
                      text available_document_ids with
              | Return ids =>
                  (selected_controls
                     ++ [Build_SelectedControl control_id control_name ids],
                   out)
              | Raise e =>
                  (selected_controls,
                   out ++ [py "Warning: Could not read file " ++ filename
                             ++ py ": " ++ exn_text e])
              end
          | FS.ReadError e =>
              (selected_controls,
               out ++ [py "Warning: Could not read file " ++ filename
                         ++ py ": " ++ e])
          end
      | None =>
          if negb (str_eqb (lower filename) (py "template.md"))
          then
            (selected_controls,
             out ++ [py "Warning: Filename '" ++ filename
                       ++ py "' does not match expected pattern (ID Name.md)"])
          else st
      end.

Definition load_selected_controls (fs : FS.filesystem)
    (selected_documents_dir : str) (docs : list documents.Document)
    : list str * outcome (list SelectedControl) :=
    match fs selected_documents_dir with
    | None =>
        ([], Raise (FileNotFoundError
                      (py "Selected documents directory not found: "
                         ++ selected_documents_dir)))
    | Some entries =>
        let available_document_ids := map documents.id docs in
        let (selected_controls, out) :=
          fold_left (loop_body available_document_ids)
            (FS.glob_md entries) ([], []) in
        (out,
         Py.sort float_pair_ltb (fun x => controls.sort_key (id x))
           selected_controls)
    end.
End WithSetOrder.

End selected_documents.

(* ================================================================== *)
(** ** app/visual/presenter.py and app/visual/presenter_layout.py *)
(* ================================================================== *)

Module presenter_layout.

Definition create_elements
  (ctrls : list controls.Control)
  (docs : list documents.Document)
  (selected_controls : list selected_documents.SelectedControl)
  : list pyval :=
  let elements := [] in
  let elements :=
    fold_left
      (fun elements control =>
         elements ++
           [VDict
              [(py "data",
                VDict
                  [(py "id", VStr (controls.id control));
                   (py "label",
                    VStr (controls.id control ++ py " "
                            ++ controls.name control));
                   (py "classes", VStr (py "Control"))])]])
      ctrls elements in
  let elements :=
    fold_left
      (fun elements document =>
         elements ++
           [VDict
              [(py "data",
                VDict
                  [(py "id", VStr (documents.id document));
                   (py "label", VStr (documents.name document))]);
               (py "classes", VStr (py "Document"))]])
      docs elements in
  let elements :=
    fold_left
      (fun elements selected_control =>
         fold_left
           (fun elements relevant_document_id =>
              elements ++
                [VDict
                   [(py "data",
                     VDict
                       [(py "source",
                         VStr (selected_documents.id selected_control));
                        (py "target", VStr relevant_document_id)])]])
           (selected_documents.relevant_document_ids selected_control)
           elements)
      selected_controls elements in
  elements.

End presenter_layout.

Module presenter.

Definition CONTROLS_DIR : str := py "controls".
Definition DOCUMENTS_DIR : str := py "documents".
Definition SELECTED_DOCUMENTS_DIR : str := py "selected_documents_agent".

Definition create_elements
  (ctrls : list controls.Control)
  (docs : list documents.Document)
  (selected_controls : list selected_documents.SelectedControl)
  : list pyval :=
  let elements := [] in
  let elements :=
    fold_left
      (fun elements control =>
         elements ++
           [VDict
              [(py "data",
                VDict
                  [(py "id", VStr (controls.id control));
                   (py "label",
                    VStr (controls.id control ++ py " "
                            ++ controls.name control));
                   (py "classes", VStr (py "Control"))])]])
      ctrls elements in
  let elements :=
    fold_left
      (fun elements document =>
         elements ++
           [VDict
              [(py "data",
                VDict
                  [(py "id", VStr (documents.id document));
                   (py "label", VStr (documents.name document))]);
               (py "classes", VStr (py "Document"))]])
      docs elements in
  let elements :=
    fold_left
      (fun elements selected_control =>
         fold_left
           (fun elements relevant_document_id =>
              elements ++
                [VDict
                   [(py "data",
                     VDict
                       [(py "source",
                         VStr (selected_documents.id selected_control));
                        (py "target", VStr relevant_document_id)])]])
           (selected_documents.relevant_document_ids selected_control)
           elements)
      selected_controls elements in
  elements.

(** [main] up to the element list it hands to the layout: the three loads,
    the three indexings done for logging, and the assembly.  Returns the
    printed lines and the elements, or the exception that ends the run. *)
Definition main (set_iter : list str -> list str) (fs : FS.filesystem)
  : list str * outcome (list pyval) :=
  let (out1, r1) := controls.load_controls fs CONTROLS_DIR in
  match r1 with
  | Raise e => (out1, Raise e)
  | Return ctrls =>
      match index ctrls 0 with
      | Raise e => (out1, Raise e)
      | Return _ =>
          let (out2, r2) := documents.load_documents fs DOCUMENTS_DIR in
          match r2 with
          | Raise e => (out1 ++ out2, Raise e)
          | Return docs =>
              match index docs 0 with
              | Raise e => (out1 ++ out2, Raise e)
              | Return _ =>
                  let (out3, r3) :=
                    selected_documents.load_selected_controls
                      set_iter fs SELECTED_DOCUMENTS_DIR docs in
                  match r3 with
                  | Raise e => (out1 ++ out2 ++ out3, Raise e)
                  | Return selected_controls =>
                      match index selected_controls 2 with
                      | Raise e => (out1 ++ out2 ++ out3, Raise e)
                      | Return _ =>
                          (out1 ++ out2 ++ out3,
                           Return (create_elements ctrls docs
                                     selected_controls))
                      end
                  end
              end
          end
      end
  end.

End presenter.

(* ================================================================== *)
(** ** More of Python's [str], [os.path] and the environment *)
(* ================================================================== *)

Module PyText.

Definition dq : ascii := ascii_of_nat 34.

(** [sub in s]. *)
Fixpoint contains (s sub : str) : bool :=
  startswith s sub
  || match s with
     | [] => false
     | _ :: s' => contains s' sub
     end.

(** [s.find(c)] for one character: the first index, or -1. *)
Fixpoint find_from (c : ascii) (s : str) (i : Z) : Z :=
  match s with
  | [] => (-1)%Z
  | x :: s' => if chr_eqb x c then i else find_from c s' (i + 1)%Z
  end.

Definition find (c : ascii) (s : str) : Z := find_from c s 0%Z.

(** [s.replace(old, new)] for a non-empty [old]: occurrences are taken
    left to right and do not overlap.  [skip] counts the characters of the
    last occurrence that are still to be stepped over. *)
Fixpoint replace_from (old new : str) (skip : nat) (s : str) : str :=
  match s with
  | [] => []
  | c :: s' =>
      match skip with
      | S k => replace_from old new k s'
      | O =>
          if startswith s old
          then new ++ replace_from old new (len old - 1) s'
          else c :: replace_from old new 0 s'
      end
  end.

Definition replace (s old new : str) : str := replace_from old new 0 s.

(** [sep.join(l)]. *)
Fixpoint join (sep : str) (l : list str) : str :=
  match l with
  | [] => []
  | [x] => x
  | x :: l' => x ++ sep ++ join sep l'
  end.

(** Truth value of an optional string: [None] and the empty string are
    false. *)
Definition truthy (s : option str) : bool :=
  match s with
  | Some (_ :: _) => true
  | _ => false
  end.

Definition text (s : option str) : str :=
  match s with
  | Some x => x
  | None => []
  end.

End PyText.

Module posixpath.

(** [os.path.join(a, b)]. *)
Definition join (a b : str) : str :=
  if startswith b (py "/") then b
  else
    match a with
    | [] => a ++ b
    | _ => if endswith a (py "/") then a ++ b else a ++ py "/" ++ b
    end.

(** [os.path.basename(p)]. *)
Definition basename (p : str) : str :=
  skipn (Z.to_nat (rfind "/"%char p + 1)) p.

End posixpath.

Module Env.

(** A raised exception: its class and [str(e)]. *)
Record exception : Type := { cls : str; message : str }.

Inductive result (A : Type) : Type :=
| Raised (e : exception)
| Returned (a : A).

Arguments Raised {A} e.
Arguments Returned {A} a.

(** What the operating system answers: [os.path.exists], [os.path.isdir],
    [os.path.isfile], [os.listdir] and [open(p, "r").read()]. *)
Record os : Type :=
  { path_exists : str -> bool;
    path_isdir : str -> bool;
    path_isfile : str -> bool;
    listdir : str -> result (list str);
    read_text : str -> result str }.

(** An agent: the prompt it is called with, and [str] of what it returns,
    or the exception of the call. *)
Definition agent : Type := str -> result str.

End Env.

(* ================================================================== *)
(** ** app/selector/document_selector_utils.py *)
(* ================================================================== *)

Module document_selector_utils.

(** [\*\*Source URL:\*\*\s*(https?://[^\s]+)], returning group 1. *)
Definition url_pattern : Re.pattern str :=
  (_ <- Re.lit (py "**Source URL:**") ;;
   _ <- Re.star_greedy isspace ;;
   http <- Re.lit (py "http") ;;
   s <- Re.opt (py "s") ;;
   colon <- Re.lit (py "://") ;;
   tail <- Re.plus_greedy notspace ;;
   Re.ret (http ++ s ++ colon ++ tail))%re.

(** The loop over the lines that looks for the first heading. *)
Fixpoint first_heading (lines : list str) : str :=
  match lines with
  | [] => []
  | line :: rest =>
      let line_stripped := strip line in
      if startswith line_stripped (py "# ")
      then strip (skipn 2 line_stripped)
      else if startswith line_stripped (py "#")
           then strip (skipn 1 line_stripped)
           else first_heading rest
  end.

(** [os.path.splitext(p)[0]] on a POSIX path: cut at the last dot of the
    last component unless only dots precede it there. *)
Definition splitext_root (p : str) : str :=
  let sepIndex := rfind "/"%char p in
  let dotIndex := rfind "."%char p in
  if (sepIndex <? dotIndex)%Z
  then
    let between :=
      firstn (Z.to_nat (dotIndex - (sepIndex + 1)))
        (skipn (Z.to_nat (sepIndex + 1)) p) in
    if existsb (fun c => negb (chr_eqb c "."%char)) between
    then firstn (Z.to_nat dotIndex) p
    else p
  else p.

Definition extract_document_metadata (document_content filename : str)
  : list (str * str) :=
  let lines := split newline document_content in
  let title := first_heading lines in
  let url :=
    match Re.search url_pattern document_content with
    | Some group1 => strip group1
    | None => []
    end in
  let title :=
    match title with
    | [] => splitext_root filename
    | _ => title
    end in
  [(py "filename", filename);
   (py "content", document_content);
   (py "title", title);
   (py "url", url)].

(** Logging calls are not modelled; an exception that an [except] clause
    logs and raises again is the exception of the call. *)
Definition read_control_file (os : Env.os) (control_path : str)
  : Env.result str :=
  if negb (Env.path_exists os control_path)
  then Env.Raised
         (Env.Build_exception (py "FileNotFoundError")
            (py "Control file not found: " ++ control_path))
  else Env.read_text os control_path.

(** The loop over the listed files: a file that cannot be read is left
    out. *)
Definition read_documents_loop (os : Env.os) (documents_dir : str)
  (files : list str) : list (list (str * str)) :=
  fold_left
    (fun documents filename =>
       let file_path := posixpath.join documents_dir filename in
       match Env.read_text os file_path with
       | Env.Returned text =>
           documents ++ [extract_document_metadata text filename]
       | Env.Raised _ => documents
       end)
    files [].

Definition read_all_documents (os : Env.os) (documents_dir : str)
  : Env.result (list (list (str * str))) :=
  if negb (Env.path_exists os documents_dir)
  then Env.Raised
         (Env.Build_exception (py "FileNotFoundError")
            (py "Documents directory not found: " ++ documents_dir))
  else if negb (Env.path_isdir os documents_dir)
  then Env.Raised
         (Env.Build_exception (py "ValueError")
            (py "Path is not a directory: " ++ documents_dir))
  else
    match Env.listdir os documents_dir with
    | Env.Raised e => Env.Raised e
    | Env.Returned names =>
        let files :=
          filter
            (fun f =>
               endswith f (py ".md")
               && Env.path_isfile os (posixpath.join documents_dir f))
            names in
        match files with
        | [] => Env.Returned []
        | _ => Env.Returned (read_documents_loop os documents_dir files)
        end
    end.

Definition get_control_name_from_path (control_path : str) : str :=
  let filename := posixpath.basename control_path in
  splitext_root filename.

End document_selector_utils.

(* ================================================================== *)
(** ** app/selector/DocumentSelector_class.py *)
(* ================================================================== *)

Module DocumentSelector_class.
Import PyText.

Definition OUTPUT_FORMAT : str :=
  py "
# Selected Documents for ISO 27001 Control [CONTROL_NAME]

## 1. [DOCUMENT_TITLE]
**Confluence URL:** [URL]

[2-3 lines explaining why this document was selected and how it relates to the ISO control]

## 2. [DOCUMENT_TITLE]
**Confluence URL:** [URL]

[2-3 lines explaining why this document was selected and how it relates to the ISO control]

[Continue for 3-8 documents total]
".

Record DocumentSelector : Type :=
  { documents_dir : str; _agent : option Env.agent }.

Definition _list_documents_tool (os : Env.os) (self : DocumentSelector)
  : list str :=
  if negb (Env.path_exists os (documents_dir self)) then []
  else
    match Env.listdir os (documents_dir self) with
    | Env.Raised _ => []
    | Env.Returned names =>
        filter
          (fun f =>
             endswith f (py ".md")
             && Env.path_isfile os (posixpath.join (documents_dir self) f))
          names
    end.

Definition _read_document_tool (os : Env.os) (self : DocumentSelector)
  (filename : str) : list (str * str) :=
  let file_path := posixpath.join (documents_dir self) filename in
  if negb (Env.path_exists os file_path)
  then [(py "filename", filename); (py "content", []);
        (py "title", filename); (py "url", [])]
  else
    match Env.read_text os file_path with
    | Env.Returned text =>
        document_selector_utils.extract_document_metadata text filename
    | Env.Raised _ =>
        [(py "filename", filename); (py "content", []);
         (py "title", filename); (py "url", [])]
    end.

Definition _read_control_tool (os : Env.os) (control_path : str) : str :=
  match document_selector_utils.read_control_file os control_path with
  | Env.Returned text => text
  | Env.Raised _ => []
  end.

(** [doc[key]]. *)
Definition getitem (doc : list (str * str)) (key : str) : Env.result str :=
  match dict_get doc key with
  | Some v => Env.Returned v
  | None =>
      Env.Raised (Env.Build_exception (py "KeyError")
                    (py "'" ++ key ++ py "'"))
  end.

(** One iteration of the loop that prepares the summaries. *)
Definition summary (i : nat) (doc : list (str * str)) : Env.result str :=
  match getitem doc (py "content") with
  | Env.Raised e => Env.Raised e
  | Env.Returned content =>
      let content_preview :=
        firstn 500 content
          ++ (if 500 <? len content then py "..." else []) in
      match getitem doc (py "title") with
      | Env.Raised e => Env.Raised e
      | Env.Returned title =>
          match getitem doc (py "filename") with
          | Env.Raised e => Env.Raised e
          | Env.Returned filename =>
              match getitem doc (py "url") with
              | Env.Raised e => Env.Raised e
              | Env.Returned url =>
                  Env.Returned
                    (py "
Document " ++ str_of_nat i ++ py ":
Title: " ++ title ++ py "
Filename: " ++ filename ++ py "
Confluence URL: " ++ url ++ py "
Content Preview:
" ++ content_preview ++ py "
---
")
              end
          end
      end
  end.

(** [enumerate(documents, i)] run through the loop body. *)
Fixpoint summaries (i : nat) (documents : list (list (str * str)))
  : Env.result (list str) :=
  match documents with
  | [] => Env.Returned []
  | doc :: rest =>
      match summary i doc with
      | Env.Raised e => Env.Raised e
      | Env.Returned s =>
          match summaries (S i) rest with
          | Env.Raised e => Env.Raised e
          | Env.Returned l => Env.Returned (s :: l)
          end
      end
  end.

Definition prompt (control_content documents_text : str) : str :=
  (py "You are a helpful assistant specialized in ISO 27001 compliance and information security. Your task is to select the most relevant documents for an ISO 27001 control.

You have access to tools that can:
- List all documents in the documents directory (_list_documents_tool)
- Read full content of any document (_read_document_tool)
- Read control files (_read_control_tool)

You are given:
1. An ISO 27001 control description
2. A list of available documents with their titles, URLs, and content previews

If you need more detailed information about any document, you can use the _read_document_tool to read its full content.

Your task:
- Select 3-8 most important documents that are relevant to the ISO 27001 control
- The number of documents should be based on how many documents are actually relevant (use fewer if there are fewer relevant documents)
- Focus on documents that directly address the control requirements or support compliance with the control
- Prioritize documents that are policies, procedures, or standards related to the control topic
- Omit general documents that are not specifically relevant to this control

Output format:
The output must be in markdown format exactly matching this structure:

")
  ++ OUTPUT_FORMAT
  ++ (py "

Requirements:
- Start with the header: "
   ++ [dq]
   ++ py "# Selected Documents for ISO 27001 Control [CONTROL_NAME]"
   ++ [dq]
   ++ py "
- Make sure you have inclued [CONTROL_NAME] in the header of the file in OUTPUT_FORMAT.
- For each selected document, include:
  - A numbered heading: "
   ++ [dq]
   ++ py "## [NUMBER]. [DOCUMENT_TITLE]"
   ++ [dq]
   ++ py "
  - The Confluence URL: "
   ++ [dq]
   ++ py "**Confluence URL:** [URL]"
   ++ [dq]
   ++ py "
  - 2-3 lines explaining why this document was selected and how it relates to the ISO control
- Use the exact document titles and URLs provided
- Number the documents sequentially starting from 1
- Select between 3-8 documents (use fewer if fewer are relevant)
- Focus on relevance to ISO 27001 compliance and security

ISO Control:
")
  ++ control_content
  ++ (py "

Available Documents:
")
  ++ documents_text
  ++ (py "

Now select the 3-8 most relevant documents and provide your output in the specified markdown format. Return only the markdown content, no additional text or explanations.").

(** What [select_documents] makes of the text that the agent returned
    (the value of [pure_agent_response] at the [return]). *)
Definition pure_agent_response (raw control_name : str) : str :=
  let r := strip raw in
  let r :=
    strip (replace (replace (replace r (py "```markdown") []) (py "```md") [])
             (py "```") []) in
  if negb (startswith r (py "# Selected Documents"))
  then
    if contains r (py "Selected Documents")
    then
      let start_idx := find "#"%char r in
      if (0 <=? start_idx)%Z then strip (skipn (Z.to_nat start_idx) r) else r
    else
      py "# Selected Documents for ISO 27001 Control " ++ control_name
        ++ py "

" ++ r
  else r.

(** [initialize_agent] is the outcome that [_initialize_agent] has when it
    is called.  The result of the call comes with the selector as the call
    leaves it. *)
Definition select_documents (os : Env.os)
  (initialize_agent : Env.result Env.agent) (self : DocumentSelector)
  (control_content control_name control_path : option str)
  (documents : option (list (list (str * str))))
  : Env.result str * DocumentSelector :=
  match (match _agent self with
         | Some a => Env.Returned a
         | None => initialize_agent
         end) with
  | Env.Raised e => (Env.Raised e, self)
  | Env.Returned agent =>
      let self := Build_DocumentSelector (documents_dir self) (Some agent) in
      match (if truthy control_path && negb (truthy control_content)
             then
               match document_selector_utils.read_control_file
                       os (text control_path) with
               | Env.Raised e => Env.Raised e
               | Env.Returned content =>
                   Env.Returned
                     (Some content,
                      if negb (truthy control_name)
                      then Some (document_selector_utils.get_control_name_from_path
                                   (text control_path))
                      else control_name)
               end
             else Env.Returned (control_content, control_name)) with
      | Env.Raised e => (Env.Raised e, self)
      | Env.Returned (control_content, control_name) =>
          if negb (truthy control_content)
          then (Env.Raised
                  (Env.Build_exception (py "ValueError")
                     (py "Either control_content or control_path must be provided")),
                self)
          else if negb (truthy control_name)
          then (Env.Raised
                  (Env.Build_exception (py "ValueError")
                     (py "control_name must be provided")),
                self)
          else
            match (match documents with
                   | None =>
                       document_selector_utils.read_all_documents
                         os (documents_dir self)
                   | Some l => Env.Returned l
                   end) with
            | Env.Raised e => (Env.Raised e, self)
            | Env.Returned [] =>
                (Env.Raised
                   (Env.Build_exception (py "ValueError")
                      (py "Documents list cannot be empty. No documents found in "
                         ++ documents_dir self)),
                 self)
            | Env.Returned documents =>
                match summaries 1 documents with
                | Env.Raised e => (Env.Raised e, self)
                | Env.Returned document_summaries =>
                    let documents_text :=
                      join [newline] document_summaries in
                    match agent (prompt (text control_content)
                                   documents_text) with
                    | Env.Raised e => (Env.Raised e, self)
                    | Env.Returned raw =>
                        (Env.Returned
                           (pure_agent_response raw (text control_name)),
                         self)
                    end
                end
            end
      end
  end.

End DocumentSelector_class.

(* ================================================================== *)
(** ** app/selector/execute_control.py *)
(* ================================================================== *)

Module execute_control.

(** The test of the loop over the globbed paths. *)
Definition matches_id (control_id file_path : str) : bool :=
  let filename := posixpath.basename file_path in
  startswith filename (control_id ++ py " ")
  || str_eqb filename (control_id ++ py ".md").

(** [glob_glob] is [glob.glob] on the file system of the call and
    [list_repr] the interpreter's [str] of a list of strings. *)
Definition find_control_file (glob_glob : str -> list str)
  (list_repr : list str -> str) (control_id controls_dir : str)
  : Env.result str :=
  let pattern := posixpath.join controls_dir (py "*.md") in
  let all_files := glob_glob pattern in
  let matching_files :=
    fold_left
      (fun matching_files file_path =>
         if matches_id control_id file_path
         then matching_files ++ [file_path]
         else matching_files)
      all_files [] in
  match matching_files with
  | [] =>
      Env.Raised
        (Env.Build_exception (py "FileNotFoundError")
           (py "No control file found matching ID '" ++ control_id
              ++ py "' in " ++ controls_dir ++ py "/"))
  | [control_path] => Env.Returned control_path
  | _ =>
      Env.Raised
        (Env.Build_exception (py "ValueError")
           (py "Multiple control files found matching ID '" ++ control_id
              ++ py "': " ++ list_repr matching_files))
  end.

(** The name under which [main] saves the selection of a control. *)
Definition output_filename (control_path : str) : str :=
  document_selector_utils.get_control_name_from_path control_path
    ++ py ".md".

End execute_control.

(* ================================================================== *)
(** ** DocumentKeywordsGenerator_class.py *)
(* ================================================================== *)

Module DocumentKeywordsGenerator_class.
Import PyText.

Definition JSON_FORMAT : str :=
  py "
[
    {
        "
   ++ [dq]
   ++ py "word"
   ++ [dq]
   ++ py ": "
   ++ [dq]
   ++ py "keyword1"
   ++ [dq]
   ++ py ",
        "
   ++ [dq]
   ++ py "matching"
   ++ [dq]
   ++ py ": 0.95
    },
    {
        "
   ++ [dq]
   ++ py "word"
   ++ [dq]
   ++ py ": "
   ++ [dq]
   ++ py "keyword2"
   ++ [dq]
   ++ py ",
        "
   ++ [dq]
   ++ py "matching"
   ++ [dq]
   ++ py ": 0.90
    }
]
".

Definition prompt (document : str) : str :=
  (py "You are a helpful assistant that generates list of keywords from the document. Your expertise is in security and ISO 27001 compliance.
                You are given a document and you need to generate a list of keywords that are relevant to the document.    
                The list will be used to assing appriopriate controls to the document.
                The list you will return will be in JSON format.
                The JSON format will be like thi
                ")
  ++ JSON_FORMAT
  ++ (py "
                The keywords should be one word keywords. THe percentage matching should be a number between 0 and 1. 
                The percentage is your serteninty how keyword matches the document.
                Return up to 50 keywords but focus on the relevant keywords to security and ISO 27001 compliance and ommit general keywords.
                Do not repeat keywords.

                Return the JSON format only, no other text.
            
            Generate a list of keywords from the following document:
            The document is:
            ")
  ++ document.

Definition generate_keywords (agent : Env.agent) (document : str)
  : Env.result str :=
  match agent (prompt document) with
  | Env.Raised e => Env.Raised e
  | Env.Returned raw =>
      Env.Returned
        (replace (replace (strip raw) (py "```json") []) (py "```") [])
  end.

End DocumentKeywordsGenerator_class.

(* ================================================================== *)
(** ** Words of the specification, as definitions *)
(* ================================================================== *)

Module Spec.

(** Longest prefix whose characters all satisfy [cls], and what follows. *)
Fixpoint span (cls : ascii -> bool) (s : str) : str * str :=
  match s with
  | c :: s' =>
      if cls c then (c :: fst (span cls s'), snd (span cls s')) else ([], s)
  | [] => ([], [])
  end.

(** The text does not go on with a character of the class. *)
Definition stops (cls : ascii -> bool) (rest : str) : Prop :=
  match rest with
  | [] => True
  | c :: _ => cls c = false
  end.

(** [x] is a digit run that occurs immediately after a literal [/pages/]:
    one or more digits, not followed by a further digit. *)
Definition follows_pages (text x : str) : Prop :=
  exists before rest,
    text = before ++ py "/pages/" ++ x ++ rest
    /\ x <> [] /\ forallb isdigit x = true /\ stops isdigit rest.

(** [a] and [b] are digit runs and the integer of [a] is at most that of
    [b]. *)
Definition int_le (a b : str) : Prop :=
  exists m n, int a = Some m /\ int b = Some n /\ (m <= n)%Z.

(** [x] has no more digits than [int] converts. *)
Definition within_int_limit (x : str) : Prop :=
  len x <= int_max_str_digits.

(** The text links, right after a literal [/pages/], a known id that has
    more digits than [int] converts. *)
Definition links_long_id (available : list str) (text : str) : bool :=
  existsb (fun x => mem x available && (int_max_str_digits <? len x))
    (Re.findall selected_documents.pattern text).

(** What the language promises about iterating [set(l)]: every element of
    [l] once, in some order. *)
Definition set_order (set_iter : list str -> list str) : Prop :=
  forall l, NoDup (set_iter l) /\ (forall x, In x (set_iter l) <-> In x l).

(** The extraction sentence as it is worded: for every content and every
    set of known ids the call returns the known digit runs that follow
    [/pages/], each once, in ascending integer order. *)
Definition extract_as_stated : Prop :=
  forall set_iter text known,
    set_order set_iter ->
    exists ids,
      selected_documents.extract_document_ids_from_content
        set_iter text known = Return ids
      /\ NoDup ids
      /\ StronglySorted int_le ids
      /\ (forall x, In x ids <-> In x known /\ follows_pages text x).

(** "The substring of the filename before the first space". *)
Definition before_first_space (filename : str) : str :=
  fst (span (fun c => negb (chr_eqb c " "%char)) filename).

(** "The substring between that first space and the '.md' suffix". *)
Definition between_first_space_and_md (filename : str) : str :=
  let after := skipn 1 (snd (span (fun c => negb (chr_eqb c " "%char))
                               filename)) in
  firstn (len after - 3) after.

(** The substring before the first whitespace character. *)
Definition before_first_whitespace (filename : str) : str :=
  fst (span notspace filename).

(** [a] is not after [b] in the order whose [<] is [ltb]. *)
Definition lek {K : Type} (ltb : K -> K -> bool) (a b : K) : Prop :=
  ltb b a = false.

(** The same on elements decorated with their keys. *)
Definition keys_le {A K : Type} (ltb : K -> K -> bool) (x y : K * A) : Prop :=
  lek ltb (fst x) (fst y).

(** Two elements compare through their computed keys. *)
Definition key_le {A K : Type} (ltb : K -> K -> bool) (key : A -> outcome K)
  (x y : A) : Prop :=
  exists kx ky, key x = Return kx /\ key y = Return ky /\ lek ltb kx ky.

(** [p] matches with group [x] at some position of [s]. *)
Definition occurs {A : Type} (p : Re.pattern A) (s : str) (x : A) : Prop :=
  exists before here rest,
    s = before ++ here /\ Re.first_match p here = Some (x, rest).

(** The shape of an id the control pattern captures. *)
Definition is_control_id (x : str) : Prop :=
  exists major minor,
    x = major ++ py "." ++ minor
    /\ major <> [] /\ forallb isdigit major = true
    /\ minor <> [] /\ forallb isdigit minor = true.

(** A file can be opened and decoded. *)
Definition readable (f : FS.file) : bool :=
  match FS.read f with
  | FS.Content _ => true
  | FS.ReadError _ => false
  end.

(** The name of a file matches a filename pattern. *)
Definition well_named {A : Type} (p : Re.pattern A) (f : FS.file) : bool :=
  match Re.re_match p (FS.name f) with
  | Some _ => true
  | None => false
  end.

(** The name of a file is the reserved template name, in any case. *)
Definition is_template (f : FS.file) : bool :=
  str_eqb (lower (FS.name f)) (py "template.md").

(** Valid file: well named and readable.  Faulty file: the contrary. *)
Definition valid {A : Type} (p : Re.pattern A) (f : FS.file) : bool :=
  well_named p f && readable f.

Definition faulty {A : Type} (p : Re.pattern A) (f : FS.file) : bool :=
  negb (valid p f).

(** The ids that a report links can be converted: a report that can be read
    links no known id beyond the limit of [int]. *)
Definition convertible (available : list str) (f : FS.file) : bool :=
  match FS.read f with
  | FS.Content text => negb (links_long_id available text)
  | FS.ReadError _ => true
  end.

(** The same for selection reports, where the template is set aside and
    the linked ids are converted while the file is read. *)
Definition valid_selected (available : list str) (f : FS.file) : bool :=
  negb (is_template f)
  && (valid selected_documents.filename_pattern f && convertible available f).

Definition faulty_selected (available : list str) (f : FS.file) : bool :=
  negb (is_template f)
  && negb (valid selected_documents.filename_pattern f
           && convertible available f).

(** No entry of the directory has a name of more than [n] characters. *)
Definition names_within (n : nat) (dir : option (list FS.file)) : Prop :=
  match dir with
  | Some entries => Forall (fun f => len (FS.name f) <= n) entries
  | None => True
  end.

(** Some readable document file of the directory has an id that [int]
    refuses for its length. *)
Definition long_document_id (dir : option (list FS.file)) : Prop :=
  exists entries f i,
    dir = Some entries /\ In f (FS.glob_md entries)
    /\ readable f = true
    /\ Re.re_match documents.pattern (FS.name f) = Some i
    /\ ~ within_int_limit i.

(** The record a valid file is parsed into. *)
Definition yields_control (f : FS.file) (c : controls.Control) : Prop :=
  Re.re_match controls.pattern (FS.name f)
    = Some (controls.id c, controls.name c)
  /\ FS.read f = FS.Content (controls.content c).

Definition yields_document (f : FS.file) (d : documents.Document) : Prop :=
  Re.re_match documents.pattern (FS.name f) = Some (documents.id d)
  /\ FS.read f = FS.Content (documents.content d)
  /\ documents.name d
     = documents.document_name (documents.content d) (documents.id d).

Definition yields_selected (set_iter : list str -> list str)
  (available : list str) (f : FS.file)
  (s : selected_documents.SelectedControl) : Prop :=
  Re.re_match selected_documents.filename_pattern (FS.name f)
    = Some (selected_documents.id s, selected_documents.name s)
  /\ exists text,
       FS.read f = FS.Content text
       /\ selected_documents.extract_document_ids_from_content
            set_iter text available
          = Return (selected_documents.relevant_document_ids s).

(** The split between the fatal and the tolerated failures of a load:
    a missing directory raises and nothing is printed or returned; in an
    existing directory the globbed files that are valid give one record
    each, the faulty ones one printed warning each, and the call returns. *)
Definition resilient {R : Type}
  (result : list str * outcome (list R)) (dir : option (list FS.file))
  (validb faultyb : FS.file -> bool) (yields : FS.file -> R -> Prop)
  : Prop :=
  match dir with
  | None => exists msg, result = ([], Raise (FileNotFoundError msg))
  | Some entries =>
      exists out records,
        result = (out, Return records)
        /\ Datatypes.length records
           = Datatypes.length (filter validb (FS.glob_md entries))
        /\ Datatypes.length out
           = Datatypes.length (filter faultyb (FS.glob_md entries))
        /\ (forall f, In f (FS.glob_md entries) -> validb f = true ->
                      exists r, In r records /\ yields f r)
        /\ (forall r, In r records ->
                      exists f, In f (FS.glob_md entries)
                                /\ validb f = true /\ yields f r)
  end.

(** "One node per control with label <id> <name> and kind Control". *)
Definition control_node (c : controls.Control) : pyval :=
  VDict
    [(py "data",
      VDict [(py "id", VStr (controls.id c));
             (py "label",
              VStr (controls.id c ++ py " " ++ controls.name c));
             (py "classes", VStr (py "Control"))])].

(** "One node per reference document with label equal to the document
    name and kind Document". *)
Definition document_node (d : documents.Document) : pyval :=
  VDict
    [(py "data",
      VDict [(py "id", VStr (documents.id d));
             (py "label", VStr (documents.name d))]);
     (py "classes", VStr (py "Document"))].

(** "One edge with source controlId and target documentId per documentId
    in the record's relevantDocumentIds". *)
Definition edge (source target : str) : pyval :=
  VDict [(py "data",
          VDict [(py "source", VStr source); (py "target", VStr target)])].

Definition edges_of (s : selected_documents.SelectedControl) : list pyval :=
  map (edge (selected_documents.id s))
    (selected_documents.relevant_document_ids s).

(** The kind marker sits under [classes] inside the [data] dictionary,
    which is the only top-level key. *)
Definition kind_inside_data (e : pyval) (kind : str) : Prop :=
  exists data,
    e = VDict [(py "data", VDict data)]
    /\ dict_get data (py "classes") = Some (VStr kind).

(** The kind marker sits under a top-level [classes] key next to [data],
    and [data] has the keys [id] and [label] only. *)
Definition kind_beside_data (e : pyval) (kind : str) : Prop :=
  exists data,
    e = VDict [(py "data", VDict data); (py "classes", VStr kind)]
    /\ keys data = [py "id"; py "label"].

(** [r] is the first element of [l] with property [P], or [None] when no
    element has it. *)
Definition first_with {A : Type} (P : A -> Prop) (l : list A)
  (r : option A) : Prop :=
  match r with
  | Some x =>
      exists l1 l2, l = l1 ++ x :: l2 /\ P x /\ Forall (fun y => ~ P y) l1
  | None => Forall (fun y => ~ P y) l
  end.

(** The resilience sentence as it is worded: every file of the directory
    that is not valid costs one warning, every valid one gives a record. *)
Definition resilient_as_stated {R : Type}
  (result : list str * outcome (list R)) (dir : option (list FS.file))
  (validb : FS.file -> bool) : Prop :=
  match dir with
  | None => exists e, snd result = Raise e
  | Some entries =>
      exists out records,
        result = (out, Return records)
        /\ length records = length (filter validb entries)
        /\ length out = length (filter (fun f => negb (validb f)) entries)
  end.

(** No line of the text starts with a heading marker, leading white space
    aside. *)
Definition no_heading_line (text : str) : bool :=
  forallb (fun line => negb (startswith (strip line) (py "#")))
    (split newline text).

(** The fallback-naming sentence as it is worded. *)
Definition fallback_naming_as_stated : Prop :=
  forall fs dir out docs d,
    documents.load_documents fs dir = (out, Return docs) ->
    In d docs ->
    no_heading_line (documents.content d) = true ->
    documents.name d = documents.id d.

(** The source-URL sentence as it is worded, whatever the field is called:
    some attribute of every loaded document holds the URL that the marker
    line of its content gives. *)
Definition source_url_as_stated : Prop :=
  forall fs dir out docs d,
    documents.load_documents fs dir = (out, Return docs) ->
    In d docs ->
    exists field url,
      dict_get (documents.vars d) field = Some url
      /\ dict_get
           (document_selector_utils.extract_document_metadata
              (documents.content d) (documents.id d ++ py ".md"))
           (py "url")
         = Some url.

(** The name as the pattern takes it: what stands between the id and the
    ".md" suffix, without its leading white space; when only white space
    stands there, its last character. *)
Definition name_after_whitespace (filename : str) : str :=
  let rest := snd (span notspace filename) in
  let middle := firstn (len rest - 3) rest in
  match snd (span isspace middle) with
  | [] => skipn (len middle - 1) middle
  | name => name
  end.

(** The warning for a name that does not match the control pattern. *)
Definition mismatch_warning (filename : str) : str :=
  py "Warning: Filename '" ++ filename
    ++ py "' does not match expected pattern (ID Name.md)".

(** The filename sentence as it is worded. *)
Definition filename_parse_as_stated : Prop :=
  forall f i n,
    Re.re_match controls.pattern f = Some (i, n) ->
    i = before_first_space f /\ n = between_first_space_and_md f.

(** An http or https URL: the scheme, then one or more characters that are
    not white space. *)
Definition is_http_url (u : str) : Prop :=
  exists tail,
    (u = py "http://" ++ tail \/ u = py "https://" ++ tail)
    /\ tail <> [] /\ forallb notspace tail = true.

(** [here] starts with the source-URL marker, white space and the URL [u]
    followed by [rest]. *)
Definition marker_at (here u rest : str) : Prop :=
  exists ws,
    here = py "**Source URL:**" ++ ws ++ u ++ rest
    /\ forallb isspace ws = true /\ is_http_url u.

(** [u] is the URL of the first source-URL marker of [text], taken up to
    the next white space. *)
Definition first_source_url (text u : str) : Prop :=
  exists before here rest,
    text = before ++ here
    /\ marker_at here u rest /\ stops notspace rest
    /\ (forall before' here' u' rest',
          text = before' ++ here' -> length before' < length before ->
          ~ marker_at here' u' rest').

(** [text] has no source-URL marker followed by a URL. *)
Definition no_source_url (text : str) : Prop :=
  forall before here u rest, text = before ++ here -> ~ marker_at here u rest.

(** The pair (major, minor) of an id, each part read as its own integer. *)
Definition id_pair (x : str) : option (Z * Z) :=
  match split "."%char x with
  | [a; b] =>
      match int a, int b with
      | Some m, Some n => Some (m, n)
      | _, _ => None
      end
  | _ => None
  end.

(** Ascending order of integer pairs. *)
Definition pair_le (p q : Z * Z) : Prop :=
  (fst p < fst q)%Z \/ (fst p = fst q /\ (snd p <= snd q)%Z).

Definition pair_lt (p q : Z * Z) : Prop :=
  (fst p < fst q)%Z \/ (fst p = fst q /\ (snd p < snd q)%Z).

(** Two ids in ascending order of their integer pairs. *)
Definition id_le (x y : str) : Prop :=
  exists p q, id_pair x = Some p /\ id_pair y = Some q /\ pair_le p q.

(** Both parts of an id are below 2^53, where every integer is a double. *)
Definition exact_id (x : str) : Prop :=
  exists m n,
    id_pair x = Some (m, n) /\ (m < 2 ^ 53)%Z /\ (n < 2 ^ 53)%Z.

(** No two of the given ids have the same integer value. *)
Definition int_injective (ids : list str) : Prop :=
  forall a b, In a ids -> In b ids -> int a = int b -> a = b.

End Spec.

Import Spec.

(* ================================================================== *)
(** ** Concrete inputs *)
(* ================================================================== *)

Module Examples.

Definition file (name text : string) : FS.file :=
  FS.Build_file (py name) (FS.Content (py text)).

(** A directory tree given by the entries of the three directories the
    presenter reads. *)
Definition tree (ctrls docs selected : list FS.file) : FS.filesystem :=
  fun dir =>
    if str_eqb dir presenter.CONTROLS_DIR then Some ctrls
    else if str_eqb dir presenter.DOCUMENTS_DIR then Some docs
    else if str_eqb dir presenter.SELECTED_DOCUMENTS_DIR then Some selected
    else None.

(** A selection report with one known page twice and an unknown page. *)
Definition report_text : str :=
  py "- https://wiki.example/spaces/ISO/pages/123456 policy; see also https://wiki.example/spaces/ISO/pages/123456 and https://wiki.example/spaces/ISO/pages/999999".

(** Three controls listed out of order, with a misnamed file and a file
    the glob does not see. *)
Definition controls_dir : list FS.file :=
  [file "5.10 Threat intelligence.md" "c";
   file "5.2 Roles.md" "b";
   file "notes.md" "x";
   file "README.txt" "x";
   file "5.1 Policies.md" "a"].

(** A selection directory with the reserved template and one report. *)
Definition selected_with_template : list FS.file :=
  [file "template.md" "# Control"; file "5.1 Policies.md" "/pages/7"].

(** A controls directory with a text file and one control. *)
Definition controls_with_readme : list FS.file :=
  [file "README.txt" "about"; file "5.1 Policies.md" "a"].

(** A reference document without any heading. *)
Definition plain_document : list FS.file :=
  [file "42.md" "Overview of access rules
no headings anywhere"].

(** A reference document with a heading and a source-URL marker. *)
Definition marked_text : string :=
  "# Seven
**Source URL:** https://wiki.example/pages/7
Body".

Definition marked_document : list FS.file := [file "7.md" marked_text].

(** The three ids of the sorting law. *)
Definition law_files : list FS.file :=
  [file "5.1 Policies.md" "a"; file "5.2 Roles.md" "b";
   file "5.10 Threat intelligence.md" "c"].

(** Two ids whose major parts are 2^53 and 2^53 + 1. *)
Definition wide_ids : list FS.file :=
  [file "9007199254740992.9 Earlier.md" "/pages/7";
   file "9007199254740993.1 Later.md" "/pages/7"].

(** Two reference documents whose ids have the same integer value, and
    three reports, one of which links to both. *)
Definition padded_tree : FS.filesystem :=
  tree
    [file "5.1 Policies.md" "a"]
    [file "7.md" "# Seven"; file "007.md" "# Padded seven"]
    [file "5.1 Policies.md" "/pages/7 and /pages/007";
     file "5.2 Roles.md" "none";
     file "5.3 Duties.md" "none"].

(** An id of one digit more than [int] converts, and a text that links
    it. *)
Definition long_id : str := repeat "1"%char (S int_max_str_digits).

Definition long_link : str := py "/pages/" ++ long_id.

(** The reference documents 7, 12 and 100. *)
Definition three_documents : list documents.Document :=
  [documents.Build_Document (py "7") (py "Seven") (py "# Seven");
   documents.Build_Document (py "12") (py "Twelve") (py "# Twelve");
   documents.Build_Document (py "100") (py "Hundred") (py "# Hundred")].

(** Three reports listed out of order; the first links known pages out of
    order, one of them twice, and a page that is not known. *)
Definition three_reports : list FS.file :=
  [file "5.10 Threat intelligence.md"
     "/pages/100 and /pages/7, again /pages/100, also /pages/999 and /pages/12";
   file "5.2 Roles.md" "/pages/12";
   file "5.1 Policies.md" "/pages/7 /pages/100"].

(** A tree on which [main] builds its elements: three controls, three
    documents and three reports. *)
Definition full_tree : FS.filesystem :=
  tree law_files
    [file "100.md" "# Hundred"; file "7.md" "# Seven";
     file "12.md" "# Twelve"]
    three_reports.

(** A controls directory and a selection directory with the template. *)
Definition with_template : list FS.file :=
  [file "Template.md" "# Control"; file "5.1 Policies.md" "/pages/7"].

(** A selection directory with the template, a misnamed file, a report
    and a report that links the long id; the documents 7 and the long
    id. *)
Definition long_reports : list FS.file :=
  [file "template.md" "# Control"; file "notes.md" "x";
   file "5.1 Policies.md" "/pages/7";
   FS.Build_file (py "5.2 Roles.md") (FS.Content long_link)].

Definition long_documents : list documents.Document :=
  [documents.Build_Document (py "7") (py "Seven") (py "# Seven");
   documents.Build_Document long_id (py "Long") (py "# Long")].

(** A second admissible iteration order of a set. *)
Definition reversed_order (l : list str) : list str :=
  rev (nodup str_eq_dec l).

End Examples.

(* ================================================================== *)
(** * Terms for the selector and the keyword generator *)
(* ================================================================== *)

Module SelectorSpec.

(** The fence of a markdown code block. *)
Definition fence : str := py "```".

(** [open(path).read()] succeeds. *)
Definition opens (os : Env.os) (path : str) : bool :=
  match Env.read_text os path with
  | Env.Returned _ => true
  | Env.Raised _ => false
  end.

(** A listed name that ends in ".md", is a regular file of the directory
    and can be read. *)
Definition picked (os : Env.os) (dir f : str) : bool :=
  endswith f (py ".md")
  && Env.path_isfile os (posixpath.join dir f)
  && opens os (posixpath.join dir f).


(** The control name that a call of [select_documents] works with: the
    one given or, when only a path is given, the one read off the path. *)
Definition name_in_use (control_content control_name control_path : option str)
  : str :=
  if PyText.truthy control_path && negb (PyText.truthy control_content)
     && negb (PyText.truthy control_name)
  then document_selector_utils.get_control_name_from_path
         (PyText.text control_path)
  else PyText.text control_name.


(** The number of backticks at the start of a text. *)
Fixpoint ticks (s : str) : nat :=
  match s with
  | c :: s' => if chr_eqb "`"%char c then S (ticks s') else 0
  | [] => 0
  end.

End SelectorSpec.

Module SelectorExamples.

Definition io_error : Env.exception :=
  Env.Build_exception (py "PermissionError") (py "denied").

(** A documents directory with a readable document, an unreadable one, a
    text file and a directory whose name ends in ".md". *)
Definition disk : Env.os :=
  {| Env.path_exists := fun p =>
       str_eqb p (py "documents") || str_eqb p (py "documents/7.md")
       || str_eqb p (py "documents/8.md")
       || str_eqb p (py "documents/notes.txt")
       || str_eqb p (py "documents/old.md");
     Env.path_isdir := fun p =>
       str_eqb p (py "documents") || str_eqb p (py "documents/old.md");
     Env.path_isfile := fun p =>
       str_eqb p (py "documents/7.md") || str_eqb p (py "documents/8.md")
       || str_eqb p (py "documents/notes.txt");
     Env.listdir := fun p =>
       if str_eqb p (py "documents")
       then Env.Returned
              [py "old.md"; py "8.md"; py "notes.txt"; py "7.md"]
       else Env.Raised io_error;
     Env.read_text := fun p =>
       if str_eqb p (py "documents/7.md")
       then Env.Returned (py Examples.marked_text)
       else Env.Raised io_error |}.

(** An agent that wraps its answer in a code block. *)
Definition fenced_agent : Env.agent :=
  fun _ => Env.Returned (py "```markdown
# Selected Documents for ISO 27001 Control 5.1 Policies
```").

Definition selector : DocumentSelector_class.DocumentSelector :=
  DocumentSelector_class.Build_DocumentSelector (py "documents")
    (Some fenced_agent).

End SelectorExamples.

Unset Implicit Arguments.

(* ================================================================== *)
(** * Facts about characters and strings *)
(* ================================================================== *)

Section StringFacts.

Lemma chr_eqb_eq (a b : ascii) : chr_eqb a b = true <-> a = b.
Proof.
  unfold chr_eqb, code. rewrite N.eqb_eq. split.
  - intro H. rewrite <- (ascii_N_embedding a), <- (ascii_N_embedding b).
    now rewrite H.
  - now intros ->.
Qed.

Lemma chr_eqb_refl (a : ascii) : chr_eqb a a = true.
Proof. now apply chr_eqb_eq. Qed.

Lemma chr_eqb_neq (a b : ascii) : chr_eqb a b = false <-> a <> b.
Proof.
  rewrite <- chr_eqb_eq. destruct (chr_eqb a b); intuition congruence.
Qed.

Lemma str_eqb_eq (a b : str) : str_eqb a b = true <-> a = b.
Proof.
  unfold str_eqb. destruct (str_eq_dec a b); intuition congruence.
Qed.

Lemma str_eqb_refl (a : str) : str_eqb a a = true.
Proof. now apply str_eqb_eq. Qed.

Lemma str_eqb_neq (a b : str) : str_eqb a b = false <-> a <> b.
Proof.
  unfold str_eqb. destruct (str_eq_dec a b); intuition congruence.
Qed.

Lemma mem_In (x : str) (s : list str) : mem x s = true <-> In x s.
Proof.
  unfold mem. rewrite existsb_exists. split.
  - intros [y [Hy He]]. apply str_eqb_eq in He. now subst.
  - intro H. exists x. split; [assumption | apply str_eqb_refl].
Qed.

Lemma startswith_app (p r : str) : startswith (p ++ r) p = true.
Proof.
  induction p as [|a p IH]; simpl; [reflexivity|].
  now rewrite chr_eqb_refl.
Qed.

Lemma startswith_spec (s p : str) :
  startswith s p = true <-> s = p ++ skipn (len p) s.
Proof.
  split.
  - revert s. induction p as [|a p IH]; intros s H; simpl in *.
    + reflexivity.
    + destruct s as [|b s]; [discriminate|].
      apply andb_true_iff in H as [Hc Hs].
      apply chr_eqb_eq in Hc. subst b. f_equal. now apply IH.
  - intros ->. apply startswith_app.
Qed.

Lemma startswith_inv (s p : str) :
  startswith s p = true -> exists r, s = p ++ r.
Proof. intro H. apply startswith_spec in H. eauto. Qed.

Lemma skipn_len_app (p r : str) : skipn (len p) (p ++ r) = r.
Proof. unfold len. induction p; simpl; auto. Qed.

Lemma endswith_spec (s p : str) :
  endswith s p = true <-> exists q, s = q ++ p.
Proof.
  unfold endswith. split.
  - intro H. apply startswith_inv in H as [r Hr].
    exists (rev r). rewrite <- (rev_involutive s), Hr, rev_app_distr.
    now rewrite rev_involutive.
  - intros [q ->]. rewrite rev_app_distr. apply startswith_app.
Qed.

(** No character is both a digit and white space, and the characters the
    patterns use as literals fall in the expected classes. *)
Lemma isdigit_not_isspace (c : ascii) : isdigit c = true -> isspace c = false.
Proof.
  destruct c as [[] [] [] [] [] [] [] []]; vm_compute; congruence.
Qed.

Lemma isdigit_code (c : ascii) :
  isdigit c = true -> (0 <= Z.of_N (code c) - 48 <= 9)%Z.
Proof.
  unfold isdigit. rewrite andb_true_iff, !N.leb_le. lia.
Qed.

Lemma isdigit_not_dot (c : ascii) : isdigit c = true -> c <> "."%char.
Proof. intros H ->. vm_compute in H. discriminate. Qed.

End StringFacts.

(* ================================================================== *)
(** * Facts about [span] *)
(* ================================================================== *)

Section SpanFacts.
Variable cls : ascii -> bool.

Lemma span_app (s : str) : fst (span cls s) ++ snd (span cls s) = s.
Proof.
    induction s as [|c s IH]; simpl; [reflexivity|].
    destruct (cls c); simpl; [now rewrite IH | reflexivity].
Qed.

Lemma span_all (s : str) : forallb cls (fst (span cls s)) = true.
Proof.
    induction s as [|c s IH]; simpl; [reflexivity|].
    destruct (cls c) eqn:E; simpl; [now rewrite E | reflexivity].
Qed.

Lemma span_stops (s : str) : stops cls (snd (span cls s)).
Proof.
    induction s as [|c s IH]; simpl; [exact I|].
    destruct (cls c) eqn:E; simpl; assumption.
Qed.

  (** A split into a run of the class and a rest that stops is the span. *)
Lemma span_unique (m r : str) :
    forallb cls m = true -> stops cls r -> span cls (m ++ r) = (m, r).
Proof.
    induction m as [|c m IH]; simpl; intros Hm Hr.
    - destruct r as [|c r]; simpl in *; [reflexivity | now rewrite Hr].
    - apply andb_true_iff in Hm as [Hc Hm]. rewrite Hc.
      now rewrite (IH Hm Hr).
Qed.

Lemma span_spec (s m r : str) :
    span cls s = (m, r) <->
    s = m ++ r /\ forallb cls m = true /\ stops cls r.
Proof.
    split.
    - intro H. pose proof (span_app s) as Ha.
      pose proof (span_all s) as Hb. pose proof (span_stops s) as Hc.
      rewrite H in *. simpl in *. now subst.
    - intros (-> & Hm & Hr). now apply span_unique.
Qed.
End SpanFacts.

(* ================================================================== *)
(** * Facts about the matchers *)
(* ================================================================== *)

Module ReFacts.
Import Re.

Lemma hd_error_map {A B : Type} (f : A -> B) (l : list A) :
  hd_error (map f l) = option_map f (hd_error l).
Proof. now destruct l. Qed.

Lemma hd_error_app_cons {A : Type} (l l' : list A) (x : A) :
  hd_error l = Some x -> hd_error (l ++ l') = Some x.
Proof. destruct l; simpl; [discriminate | auto]. Qed.

Lemma In_bind {A B : Type} (p : pattern A) (f : A -> pattern B)
  (s : str) (b : B) (r : str) :
  In (b, r) (bind p f s) <->
  exists a r', In (a, r') (p s) /\ In (b, r) (f a r').
Proof.
  unfold bind. rewrite in_flat_map. split.
  - intros [[a r'] [H1 H2]]. now exists a, r'.
  - intros (a & r' & H1 & H2). now exists (a, r').
Qed.

Lemma In_ret {A : Type} (a b : A) (s r : str) :
  In (b, r) (ret a s) <-> b = a /\ r = s.
Proof.
  unfold ret. simpl. split.
  - intros [[= -> ->] | []]. now split.
  - intros [-> ->]. now left.
Qed.

Lemma In_lit (l s m r : str) :
  In (m, r) (lit l s) <-> m = l /\ s = l ++ r.
Proof.
  unfold lit. destruct (startswith s l) eqn:E.
  - apply startswith_spec in E. simpl. split.
    + intros [[= <- <-] | []]. now split.
    + intros [-> Hs]. left. f_equal. rewrite Hs at 1.
      now rewrite skipn_len_app.
  - split; [intros [] |]. intros [-> Hs]. rewrite Hs in E.
    now rewrite startswith_app in E.
Qed.

Lemma In_opt (l s m r : str) :
  In (m, r) (opt l s) <-> (m = l /\ s = l ++ r) \/ (m = [] /\ r = s).
Proof.
  unfold opt. rewrite in_app_iff, In_lit. simpl. split.
  - intros [H | [[= <- <-] | []]]; auto.
  - intros [H | [-> ->]]; auto.
Qed.

Lemma In_eos (s r : str) (u : unit) :
  In (u, r) (eos s) <-> r = s /\ (s = [] \/ s = [newline]).
Proof.
  unfold eos. destruct s as [|c [|d s]]; simpl.
  - split; [intros [[= <-] | []]; auto | intros [-> _]; destruct u; auto].
  - destruct (chr_eqb c newline) eqn:E; simpl.
    + apply chr_eqb_eq in E. subst c.
      split; [intros [[= <-] | []]; auto | intros [-> _]; destruct u; auto].
    + apply chr_eqb_neq in E.
      split; [intros [] | intros [_ [H | [= H]]]; [discriminate | tauto]].
  - split; [intros [] | intros [_ [H | H]]; discriminate].
Qed.

Section Repetition.
Variable cls : ascii -> bool.

Lemma In_map_cons (c : ascii) (L : list (str * str)) (m r : str) :
    In (m, r) (map (fun mr => (c :: fst mr, snd mr)) L) <->
    exists m', m = c :: m' /\ In (m', r) L.
Proof.
    rewrite in_map_iff. split.
    - intros [[m' r'] [[= <- <-] H]]. now exists m'.
    - intros (m' & -> & H). now exists (m', r).
Qed.

Lemma In_star_greedy (s m r : str) :
    In (m, r) (star_greedy cls s) <-> s = m ++ r /\ forallb cls m = true.
Proof.
    revert m. induction s as [|c s IH]; intro m; simpl.
    - split.
      + intros [[= <- <-] | []]. now split.
      + intros [H _]. symmetry in H. apply app_eq_nil in H as [-> ->].
        now left.
    - destruct (cls c) eqn:E.
      + rewrite in_app_iff, In_map_cons. simpl. split.
        * intros [(m' & -> & H) | [[= <- <-] | []]].
          -- apply IH in H as [-> Hm]. simpl. now rewrite E.
          -- now split.
        * intros [Hs Hm]. destruct m as [|d m].
          -- right. left. simpl in Hs. now subst.
          -- left. simpl in *. injection Hs as <- Hs.
             apply andb_true_iff in Hm as [_ Hm].
             exists m. split; [reflexivity | now apply IH].
      + simpl. split.
        * intros [[= <- <-] | []]. now split.
        * intros [Hs Hm]. destruct m as [|d m].
          -- left. simpl in Hs. now subst.
          -- simpl in *. injection Hs as <- Hs. now rewrite E in Hm.
Qed.

Lemma In_plus_greedy (s m r : str) :
    In (m, r) (plus_greedy cls s) <->
    s = m ++ r /\ m <> [] /\ forallb cls m = true.
Proof.
    unfold plus_greedy. destruct s as [|c s].
    - split; [intros [] |]. intros (H & Hn & _). symmetry in H.
      apply app_eq_nil in H as [-> _]. congruence.
    - destruct (cls c) eqn:E.
      + rewrite In_map_cons. split.
        * intros (m' & -> & H). apply In_star_greedy in H as [-> Hm].
          simpl. rewrite E. repeat split; [congruence | assumption].
        * intros (Hs & Hn & Hm). destruct m as [|d m]; [congruence|].
          simpl in *. injection Hs as <- Hs.
          apply andb_true_iff in Hm as [_ Hm].
          exists m. split; [reflexivity | now apply In_star_greedy].
      + split; [intros [] |]. intros (Hs & Hn & Hm).
        destruct m as [|d m]; [congruence|]. simpl in *.
        injection Hs as <- Hs. now rewrite E in Hm.
Qed.

Lemma In_star_lazy (s m r : str) :
    In (m, r) (star_lazy cls s) <-> s = m ++ r /\ forallb cls m = true.
Proof.
    revert m. induction s as [|c s IH]; intro m; simpl.
    - split.
      + intros [[= <- <-] | []]. now split.
      + intros [H _]. symmetry in H. apply app_eq_nil in H as [-> ->].
        now left.
    - destruct (cls c) eqn:E.
      + rewrite In_map_cons. split.
        * intros [[= <- <-] | (m' & -> & H)].
          -- now split.
          -- apply IH in H as [-> Hm]. simpl. now rewrite E.
        * intros [Hs Hm]. destruct m as [|d m].
          -- left. simpl in Hs. now subst.
          -- right. simpl in *. injection Hs as <- Hs.
             apply andb_true_iff in Hm as [_ Hm].
             exists m. split; [reflexivity | now apply IH].
      + simpl. split.
        * intros [[= <- <-] | []]. now split.
        * intros [Hs Hm]. destruct m as [|d m].
          -- left. simpl in Hs. now subst.
          -- simpl in *. injection Hs as <- Hs. now rewrite E in Hm.
Qed.

Lemma In_plus_lazy (s m r : str) :
    In (m, r) (plus_lazy cls s) <->
    s = m ++ r /\ m <> [] /\ forallb cls m = true.
Proof.
    unfold plus_lazy. destruct s as [|c s].
    - split; [intros [] |]. intros (H & Hn & _). symmetry in H.
      apply app_eq_nil in H as [-> _]. congruence.
    - destruct (cls c) eqn:E.
      + rewrite In_map_cons. split.
        * intros (m' & -> & H). apply In_star_lazy in H as [-> Hm].
          simpl. rewrite E. repeat split; [congruence | assumption].
        * intros (Hs & Hn & Hm). destruct m as [|d m]; [congruence|].
          simpl in *. injection Hs as <- Hs.
          apply andb_true_iff in Hm as [_ Hm].
          exists m. split; [reflexivity | now apply In_star_lazy].
      + split; [intros [] |]. intros (Hs & Hn & Hm).
        destruct m as [|d m]; [congruence|]. simpl in *.
        injection Hs as <- Hs. now rewrite E in Hm.
Qed.

  (** The greedy star tries the longest run first. *)
Lemma hd_star_greedy (s : str) :
    hd_error (star_greedy cls s) = Some (span cls s).
Proof.
    induction s as [|c s IH]; [reflexivity|].
    cbn [star_greedy span]. destruct (cls c); [|reflexivity].
    apply hd_error_app_cons. rewrite hd_error_map, IH. reflexivity.
Qed.

Lemma hd_plus_greedy (s : str) :
    first_match (plus_greedy cls) s =
    match s with
    | c :: _ => if cls c then Some (span cls s) else None
    | [] => None
    end.
Proof.
    unfold first_match, plus_greedy. destruct s as [|c s]; [reflexivity|].
    destruct (cls c) eqn:E; [|reflexivity].
    rewrite hd_error_map, hd_star_greedy. cbn [option_map span].
    now rewrite E.
Qed.
End Repetition.

(** A match that is reported is one of the ways to match. *)
Lemma re_match_In {A : Type} (p : pattern A) (s : str) (g : A) :
  re_match p s = Some g -> exists r, In (g, r) (p s).
Proof.
  unfold re_match, first_match. destruct (p s) as [|[g' r] l] eqn:E; simpl.
  - discriminate.
  - intros [= <-]. exists r. now left.
Qed.

(** No way to match means no match is reported, and conversely. *)
Lemma re_match_None {A : Type} (p : pattern A) (s : str) :
  re_match p s = None <-> p s = [].
Proof.
  unfold re_match, first_match. destruct (p s); simpl; split; congruence.
Qed.

Lemma hd_error_app_inv {A : Type} (l1 l2 : list A) (x : A) :
  hd_error (l1 ++ l2) = Some x ->
  hd_error l1 = Some x \/ (l1 = [] /\ hd_error l2 = Some x).
Proof. destruct l1; simpl; auto. Qed.

(** The first match of a sequence goes through one way to match its first
    part and is the first match of what follows there. *)
Lemma first_match_bind {A B : Type} (p : pattern A) (f : A -> pattern B)
  (s : str) (b : B) (r : str) :
  first_match (bind p f) s = Some (b, r) ->
  exists a r', In (a, r') (p s) /\ first_match (f a) r' = Some (b, r).
Proof.
  unfold first_match, bind. induction (p s) as [|[a r'] l IH]; simpl.
  - discriminate.
  - intro H. apply hd_error_app_inv in H as [H | [_ H]].
    + exists a, r'. split; [now left | assumption].
    + destruct (IH H) as (a0 & r0 & Hin & Hm).
      exists a0, r0. split; [now right | assumption].
Qed.

End ReFacts.

(* ================================================================== *)
(** * Facts about [list.sort] *)
(* ================================================================== *)

Module SortFacts.

Section Keyed.
Variables (A K : Type) (ltb : K -> K -> bool).

Lemma insert_keyed_perm (x : K * A) (l : list (K * A)) :
    Permutation (x :: l) (insert_keyed ltb x l).
Proof.
    induction l as [|y l IH]; simpl; [reflexivity|].
    destruct (ltb (fst y) (fst x)); [|reflexivity].
    rewrite perm_swap. now apply perm_skip.
Qed.

Lemma sort_keyed_perm (l : list (K * A)) :
    Permutation l (sort_keyed ltb l).
Proof.
    induction l as [|x l IH]; simpl; [reflexivity|].
    rewrite <- insert_keyed_perm. now apply perm_skip.
Qed.

Lemma decorate_snd (key : A -> outcome K) (l : list A) (d : list (K * A)) :
    decorate key l = Return d ->
    map snd d = l /\ Forall (fun kx => key (snd kx) = Return (fst kx)) d.
Proof.
    revert d. induction l as [|x l IH]; simpl; intros d H.
    - injection H as <-. split; constructor.
    - destruct (key x) as [e|k] eqn:Ek; [discriminate|].
      destruct (decorate key l) as [e|d'] eqn:Ed; [discriminate|].
      injection H as <-. destruct (IH d' eq_refl) as [Hm Hf].
      split; [simpl; now rewrite Hm | constructor; assumption].
Qed.

Lemma decorate_total (key : A -> outcome K) (l : list A) :
    Forall (fun x => exists k, key x = Return k) l ->
    exists d, decorate key l = Return d.
Proof.
    induction 1 as [|x l [k Hk] _ [d Hd]]; simpl.
    - now exists [].
    - rewrite Hk, Hd. now eexists.
Qed.

  (** The sort returns a rearrangement of its argument whenever every key
      can be computed. *)
Lemma sort_perm (key : A -> outcome K) (l : list A) :
    Forall (fun x => exists k, key x = Return k) l ->
    exists l', sort ltb key l = Return l' /\ Permutation l l'.
Proof.
    intro H. destruct (decorate_total key l H) as [d Hd].
    unfold sort. rewrite Hd. eexists. split; [reflexivity|].
    apply decorate_snd in Hd as [<- _].
    apply Permutation_map, sort_keyed_perm.
Qed.

Lemma sort_Return_perm (key : A -> outcome K) (l l' : list A) :
    sort ltb key l = Return l' -> Permutation l l'.
Proof.
    unfold sort. destruct (decorate key l) as [e|d] eqn:Hd; [discriminate|].
    intros [= <-]. apply decorate_snd in Hd as [<- _].
    apply Permutation_map, sort_keyed_perm.
Qed.

  (** Keys are computed from left to right; the first failure is the
      failure of the sort. *)
Lemma decorate_Raise (key : A -> outcome K) (l : list A) (e : exn) :
    decorate key l = Raise e <->
    exists l1 x l2,
      l = l1 ++ x :: l2 /\ key x = Raise e
      /\ Forall (fun y => exists k, key y = Return k) l1.
Proof.
    revert e. induction l as [|x l IH]; intro e; cbn [decorate].
    - split; [discriminate|].
      intros (l1 & y & l2 & H & _). now destruct l1.
    - destruct (key x) as [e'|k] eqn:Ek.
      + split.
        * intros [= ->]. now exists [], x, l.
        * intros ([|y l1] & z & l2 & H & Hz & Hl1).
          -- injection H as -> _. congruence.
          -- injection H as -> _. inversion Hl1 as [|? ? [k Hk] _].
             congruence.
      + destruct (decorate key l) as [e'|d] eqn:Ed.
        * split.
          -- intros [= ->].
             destruct (proj1 (IH e) eq_refl) as (l1 & z & l2 & -> & Hz & Hl1).
             exists (x :: l1), z, l2. repeat split; try assumption.
             constructor; [now exists k | assumption].
          -- intros ([|y l1] & z & l2 & H & Hz & Hl1).
             ++ injection H as -> _. congruence.
             ++ injection H as _ ->. inversion Hl1 as [|? ? _ Hl1'].
                f_equal. assert (Raise (A := list (K * A)) e' = Raise e) as [= ->].
                { apply IH. now exists l1, z, l2. }
                reflexivity.
        * split; [discriminate|].
          intros ([|y l1] & z & l2 & H & Hz & Hl1).
          -- injection H as -> _. congruence.
          -- injection H as _ ->. inversion Hl1 as [|? ? _ Hl1'].
             assert (Return d = Raise e) as [=].
             apply IH. now exists l1, z, l2.
Qed.

Lemma sort_Raise (key : A -> outcome K) (l : list A) (e : exn) :
    sort ltb key l = Raise e <->
    exists l1 x l2,
      l = l1 ++ x :: l2 /\ key x = Raise e
      /\ Forall (fun y => exists k, key y = Return k) l1.
Proof.
    rewrite <- decorate_Raise. unfold sort.
    destruct (decorate key l); split; congruence.
Qed.

Lemma sort_Return_keys (key : A -> outcome K) (l l' : list A) :
    sort ltb key l = Return l' ->
    Forall (fun x => exists k, key x = Return k) l.
Proof.
    unfold sort. destruct (decorate key l) as [e|d] eqn:Hd; [discriminate|].
    intros _. apply decorate_snd in Hd as [<- Hk].
    apply Forall_map. eapply Forall_impl; [|exact Hk].
    intros kx H. now exists (fst kx).
Qed.

  (** Some key fails: the sort fails. *)
Lemma sort_fails (key : A -> outcome K) (l : list A) (x : A) (e : exn) :
    In x l -> key x = Raise e -> exists e', sort ltb key l = Raise e'.
Proof.
    intros Hx Hk. destruct (sort ltb key l) as [e'|l'] eqn:E;
      [now exists e'|].
    apply sort_Return_keys in E. rewrite Forall_forall in E.
    destruct (E x Hx) as [k Hk']. congruence.
Qed.

Hypothesis ltb_asym : forall a b, ltb a b = true -> ltb b a = false.
Hypothesis lek_trans : forall a b c, lek ltb a b -> lek ltb b c -> lek ltb a c.

Lemma insert_keyed_sorted (x : K * A) (l : list (K * A)) :
    StronglySorted (keys_le ltb) l -> StronglySorted (keys_le ltb) (insert_keyed ltb x l).
Proof.
    induction 1 as [|y l Hs IH Hy]; simpl.
    - repeat constructor.
    - destruct (ltb (fst y) (fst x)) eqn:E.
      + constructor; [assumption|].
        apply (Permutation_Forall (insert_keyed_perm x l)).
        constructor; [|assumption]. now apply ltb_asym.
      + constructor; [now constructor|].
        constructor; [exact E|].
        eapply Forall_impl; [|exact Hy]. intros z Hz.
        unfold keys_le in *. eapply lek_trans; [exact E | exact Hz].
Qed.

Lemma sort_keyed_sorted (l : list (K * A)) :
    StronglySorted (keys_le ltb) (sort_keyed ltb l).
Proof.
    induction l as [|x l IH]; simpl; [constructor|].
    now apply insert_keyed_sorted.
Qed.

Lemma StronglySorted_map_snd (key : A -> outcome K) (d : list (K * A)) :
    Forall (fun kx => key (snd kx) = Return (fst kx)) d ->
    StronglySorted (keys_le ltb) d ->
    StronglySorted (key_le ltb key) (map snd d).
Proof.
    intros Hk Hs. induction Hs as [|y d Hs IH Hy]; simpl; [constructor|].
    inversion Hk as [|? ? Hy0 Hk']; subst. constructor; [now apply IH|].
    apply Forall_map. rewrite Forall_forall in *. intros z Hz.
    exists (fst y), (fst z). repeat split; auto. now apply Hy.
Qed.

Lemma sort_Return_sorted (key : A -> outcome K) (l l' : list A) :
    sort ltb key l = Return l' -> StronglySorted (key_le ltb key) l'.
Proof.
    unfold sort. destruct (decorate key l) as [e|d] eqn:Hd; [discriminate|].
    intros [= <-]. apply decorate_snd in Hd as [_ Hk].
    apply StronglySorted_map_snd.
    - apply (Permutation_Forall (sort_keyed_perm d)). exact Hk.
    - apply sort_keyed_sorted.
Qed.
End Keyed.

(** The two orders the catalogs sort by. *)
Lemma Zltb_asym (a b : Z) : (a <? b)%Z = true -> (b <? a)%Z = false.
Proof. rewrite Z.ltb_lt, Z.ltb_ge. lia. Qed.

Lemma Zlek_trans (a b c : Z) :
  lek Z.ltb a b -> lek Z.ltb b c -> lek Z.ltb a c.
Proof. unfold lek. rewrite !Z.ltb_ge. lia. Qed.

Lemma float_pair_ltb_asym (a b : pyfloat * pyfloat) :
  float_pair_ltb a b = true -> float_pair_ltb b a = false.
Proof.
  destruct a as [[a1|] [a2|]], b as [[b1|] [b2|]];
    unfold float_pair_ltb; simpl; try congruence;
    repeat match goal with
           | |- context [(?x =? ?y)%Z] => destruct (Z.eqb_spec x y)
           end; simpl; rewrite ?Z.ltb_lt, ?Z.ltb_ge; try congruence; lia.
Qed.

Lemma float_pair_lek_trans (a b c : pyfloat * pyfloat) :
  lek float_pair_ltb a b -> lek float_pair_ltb b c ->
  lek float_pair_ltb a c.
Proof.
  unfold lek.
  destruct a as [[a1|] [a2|]], b as [[b1|] [b2|]], c as [[c1|] [c2|]];
    unfold float_pair_ltb; simpl; try congruence;
    repeat match goal with
           | |- context [(?x =? ?y)%Z] => destruct (Z.eqb_spec x y)
           end; simpl; rewrite ?Z.ltb_lt, ?Z.ltb_ge; try congruence; try lia.
Qed.

End SortFacts.

(* ================================================================== *)
(** * Facts about [findall] *)
(* ================================================================== *)

Module FindallFacts.
Import Re ReFacts.

Section Findall.
Variables (A : Type) (p : pattern A).

Lemma occurs_cons (c : ascii) (s : str) (x : A) :
    occurs p (c :: s) x <->
    (exists rest, first_match p (c :: s) = Some (x, rest)) \/ occurs p s x.
Proof.
    split.
    - intros (before & here & rest & Hs & Hm). destruct before as [|b before].
      + left. exists rest. simpl in Hs. now subst.
      + right. simpl in Hs. injection Hs as _ Hs.
        now exists before, here, rest.
    - intros [[rest Hm] | (before & here & rest & Hs & Hm)].
      + now exists [], (c :: s), rest.
      + exists (c :: before), here, rest. split; [simpl; now f_equal|assumption].
Qed.

  (** Inside the text of a match no other match starts. *)
Hypothesis no_overlap : forall s g rest j,
    first_match p s = Some (g, rest) ->
    0 < j -> j < len s - len rest ->
    first_match p (skipn j s) = None.

Lemma findall_from_spec (s : str) :
    forall k,
      (forall i, i < k -> first_match p (skipn i s) = None) ->
      forall x, In x (findall_from p k s) <-> occurs p s x.
Proof.
    induction s as [|c s IH]; intros k Hk x.
    - simpl. split.
      + destruct k; [|intros []].
        destruct (first_match p []) as [[g r]|] eqn:E; [|intros []].
        intros [<- | []]. now exists [], [], r.
      + intros (before & here & rest & Hs & Hm).
        symmetry in Hs. apply app_eq_nil in Hs as [-> ->].
        destruct k.
        * rewrite Hm. now left.
        * specialize (Hk 0 (Nat.lt_0_succ _)). simpl in Hk. congruence.
    - rewrite occurs_cons. cbn [findall_from]. destruct k as [|k].
      + destruct (first_match p (c :: s)) as [[g rest]|] eqn:E.
        * simpl. rewrite (IH (len s - len rest)).
          -- split.
             ++ intros [<- | H]; [left; now exists rest | now right].
             ++ intros [[r [= <- _]] | H]; [now left | now right].
          -- intros i Hi.
             apply (no_overlap (c :: s) g rest (S i) E); unfold len in *;
               cbn [Datatypes.length]; lia.
        * rewrite (IH 0); [|intros i Hi; lia].
          split; [now right | intros [[r H] | H]; [discriminate | assumption]].
      + rewrite (IH k).
        * split; [now right|]. intros [[r H] | H]; [|assumption].
          specialize (Hk 0 (Nat.lt_0_succ _)). simpl in Hk. congruence.
        * intros i Hi. apply (Hk (S i)). lia.
Qed.

Lemma findall_spec (s : str) (x : A) : In x (findall p s) <-> occurs p s x.
Proof. apply findall_from_spec. intros i Hi. lia. Qed.
End Findall.

End FindallFacts.

(* ================================================================== *)
(** * The cross-reference pattern and [extract_document_ids_from_content] *)
(* ================================================================== *)

Module ExtractFacts.
Import Re ReFacts FindallFacts SortFacts selected_documents.

Lemma flat_map_ret_id (L : list (str * str)) :
  flat_map (fun ar => ret (fst ar) (snd ar)) L = L.
Proof.
  induction L as [|[m r] L IH]; simpl; [reflexivity | now rewrite IH].
Qed.

(** The pattern at one position: the literal, then the longest digit run. *)
Lemma pages_first_match (s : str) :
  first_match pattern s =
  if startswith s (py "/pages/")
  then first_match (plus_greedy isdigit) (skipn 7 s)
  else None.
Proof.
  unfold first_match, pattern, bind, lit.
  destruct (startswith s (py "/pages/")); [|reflexivity].
  cbn [flat_map fst snd]. rewrite app_nil_r. now rewrite flat_map_ret_id.
Qed.

Lemma pages_match_spec (s x rest : str) :
  first_match pattern s = Some (x, rest) <->
  s = py "/pages/" ++ x ++ rest
  /\ x <> [] /\ forallb isdigit x = true /\ stops isdigit rest.
Proof.
  rewrite pages_first_match. split.
  - destruct (startswith s (py "/pages/")) eqn:E; [|discriminate].
    apply startswith_spec in E. change (len (py "/pages/")) with 7 in E.
    rewrite hd_plus_greedy.
    destruct (skipn 7 s) as [|c t] eqn:Et; [discriminate|].
    destruct (isdigit c) eqn:Ec; [|discriminate].
    intros [= H]. apply (span_spec isdigit (c :: t)) in H as (Hs & Hx & Hr).
    repeat split; try assumption.
    + rewrite E. now rewrite Hs.
    + intros ->. simpl in Hs. subst rest. simpl in Hr. congruence.
  - intros (-> & Hn & Hx & Hr). rewrite startswith_app.
    change 7 with (len (py "/pages/")). rewrite skipn_len_app.
    rewrite hd_plus_greedy. destruct x as [|c x]; [congruence|].
    simpl in Hx. apply andb_true_iff in Hx as [Hc Hx].
    cbn [app]. rewrite Hc. f_equal.
    change (c :: x ++ rest) with ((c :: x) ++ rest).
    apply span_unique; [simpl; now rewrite Hc | assumption].
Qed.

Lemma digit_not_literal (c d : ascii) :
  isdigit c = false -> isdigit d = true -> chr_eqb c d = false.
Proof.
  intros Hc Hd. destruct (chr_eqb c d) eqn:E; [|reflexivity].
  apply chr_eqb_eq in E. congruence.
Qed.

Lemma skipn_in_run (g rest : str) (i : nat) :
  i < len g -> forallb isdigit g = true ->
  exists d t, skipn i (g ++ rest) = d :: t /\ isdigit d = true.
Proof.
  revert i. induction g as [|c g IH]; intros i Hi Hg; simpl in *; [lia|].
  apply andb_true_iff in Hg as [Hc Hg]. destruct i as [|i].
  - now exists c, (g ++ rest).
  - apply IH; [lia | assumption].
Qed.

(** No cross-reference starts inside another one. *)
Lemma pages_no_overlap (s g rest : str) (j : nat) :
  first_match pattern s = Some (g, rest) ->
  0 < j -> j < len s - len rest ->
  first_match pattern (skipn j s) = None.
Proof.
  intros H Hj Hlt. apply pages_match_spec in H as (-> & Hn & Hg & _).
  rewrite pages_first_match.
  assert (Hlen : j < 7 + len g).
  { unfold len in *. rewrite !length_app in Hlt.
    change (Datatypes.length (py "/pages/")) with 7 in Hlt. lia. }
  destruct g as [|d g]; [congruence|].
  simpl in Hg. apply andb_true_iff in Hg as [Hd Hg].
  do 7 (destruct j as [|j]; [first [lia | reflexivity | idtac]|]).
  - cbn [skipn app py list_ascii_of_string startswith].
    rewrite (digit_not_literal "p" d eq_refl Hd), andb_false_r.
    reflexivity.
  - change (skipn (S (S (S (S (S (S (S j)))))))
              (py "/pages/" ++ (d :: g) ++ rest))
      with (skipn j ((d :: g) ++ rest)).
    destruct (skipn_in_run (d :: g) rest j) as (d' & t & -> & Hd').
    + simpl in *. lia.
    + simpl. now rewrite Hd, Hg.
    + cbn [py list_ascii_of_string startswith].
      now rewrite (digit_not_literal "/" d' eq_refl Hd').
Qed.

(** What [findall] collects: the digit runs right after [/pages/]. *)
Lemma findall_pages (text x : str) :
  In x (findall pattern text) <-> follows_pages text x.
Proof.
  rewrite (findall_spec _ pattern pages_no_overlap). split.
  - intros (before & here & rest & -> & H).
    apply pages_match_spec in H as (-> & Hn & Hx & Hr).
    now exists before, rest.
  - intros (before & rest & -> & Hn & Hx & Hr).
    exists before, (py "/pages/" ++ x ++ rest), rest.
    split; [reflexivity | now apply pages_match_spec].
Qed.

(** [int] is defined on every non-empty run of digits. *)
Lemma digits_value_from_digits (s : str) (acc : Z) :
  forallb isdigit s = true -> (0 <= acc)%Z ->
  exists n, digits_value_from acc s = Some n /\ (0 <= n)%Z.
Proof.
  revert acc. induction s as [|c s IH]; intros acc Hs Hacc;
    cbn [digits_value_from forallb] in *.
  - now exists acc.
  - apply andb_true_iff in Hs as [Hc Hs]. rewrite Hc.
    apply IH; [assumption|]. pose proof (isdigit_code c Hc). lia.
Qed.

Lemma int_digits (s : str) :
  s <> [] -> forallb isdigit s = true ->
  exists n, int s = Some n /\ (0 <= n)%Z.
Proof.
  intros Hn Hs. destruct s as [|c s]; [congruence|].
  unfold int. apply digits_value_from_digits; [assumption | lia].
Qed.

(** [int] converts a run of digits that is within its limit, and refuses a
    longer one. *)
Lemma int_call_digits (s : str) :
  s <> [] -> forallb isdigit s = true -> within_int_limit s ->
  exists n, int_call s = Return n.
Proof.
  intros Hn Hs Hl. destruct (int_digits s Hn Hs) as (n & Hi & _).
  exists n. unfold int_call. rewrite Hi.
  apply Nat.ltb_ge in Hl. now rewrite Hl.
Qed.

Lemma int_call_long (s : str) :
  s <> [] -> forallb isdigit s = true -> ~ within_int_limit s ->
  int_call s = Raise (ValueError (int_limit_text (len s))).
Proof.
  intros Hn Hs Hl. destruct (int_digits s Hn Hs) as (n & Hi & _).
  unfold int_call. rewrite Hi.
  destruct (int_max_str_digits <? len s) eqn:E; [reflexivity|].
  apply Nat.ltb_ge in E. contradiction.
Qed.

Lemma int_call_Return (s : str) (n : Z) :
  int_call s = Return n -> int s = Some n /\ within_int_limit s.
Proof.
  unfold int_call. destruct (int s) as [m|]; [|discriminate].
  destruct (int_max_str_digits <? len s) eqn:E; [discriminate|].
  intros [= ->]. split; [reflexivity|]. now apply Nat.ltb_ge in E.
Qed.

Lemma int_call_Raise (s : str) (e : exn) :
  int_call s = Raise e -> exists msg, e = ValueError msg.
Proof.
  unfold int_call. destruct (int s) as [m|].
  - destruct (int_max_str_digits <? len s); [|discriminate].
    intros [= <-]. now eexists.
  - intros [= <-]. now eexists.
Qed.

Lemma key_le_int_le (a b : str) : key_le Z.ltb int_call a b -> int_le a b.
Proof.
  intros (ka & kb & Ha & Hb & Hle).
  apply int_call_Return in Ha as [Ha _]. apply int_call_Return in Hb as [Hb _].
  exists ka, kb. repeat split; try assumption. unfold lek in Hle.
  apply Z.ltb_ge in Hle. exact Hle.
Qed.

Lemma StronglySorted_impl {A : Type} (R S : A -> A -> Prop) (l : list A) :
  (forall a b, R a b -> S a b) -> StronglySorted R l -> StronglySorted S l.
Proof.
  intros H. induction 1 as [|x l Hs IH Hx]; constructor; [assumption|].
  eapply Forall_impl; [|exact Hx]. intros b. apply H.
Qed.

Lemma NoDup_only (a : str) (l : list str) :
  NoDup l -> (forall x, In x l <-> x = a) -> l = [a].
Proof.
  intros Hnd Hin. destruct l as [|x l].
  - destruct (proj2 (Hin a) eq_refl).
  - assert (x = a) by (apply Hin; now left). subst x.
    destruct l as [|y l]; [reflexivity|].
    assert (y = a) by (apply Hin; right; now left). subst y.
    inversion Hnd as [|? ? Hna _]. destruct Hna. now left.
Qed.

Section WithSetOrder.
Variable set_iter : list str -> list str.
Hypothesis Hset : set_order set_iter.

  (** The list that is sorted: the known digit runs that follow
      [/pages/], each once. *)
Lemma relevant_spec (text : str) (known : list str) (x : str) :
    In x (filter (fun doc_id => mem doc_id known)
            (set_iter (findall pattern text)))
    <-> In x known /\ follows_pages text x.
Proof.
    rewrite filter_In, mem_In, (proj2 (Hset _) x), findall_pages. tauto.
Qed.

  (** What the function returns, when it returns: the known digit runs
      that follow [/pages/], each once, in ascending integer order. *)
Lemma extract_Return (text : str) (known ids : list str) :
    extract_document_ids_from_content set_iter text known = Return ids ->
    NoDup ids
    /\ StronglySorted int_le ids
    /\ (forall x, In x ids <-> In x known /\ follows_pages text x).
Proof.
    unfold extract_document_ids_from_content. intro Hs.
    pose proof (sort_Return_perm _ _ Z.ltb int_call _ _ Hs) as Hp.
    split; [|split].
    - apply (Permutation_NoDup Hp). apply NoDup_filter, Hset.
    - apply (StronglySorted_impl _ _ _ key_le_int_le).
      apply (sort_Return_sorted _ _ Z.ltb Zltb_asym Zlek_trans _ _ _ Hs).
    - intro x. rewrite <- relevant_spec. split; intro H.
      + now apply (Permutation_in _ (Permutation_sym Hp)).
      + now apply (Permutation_in _ Hp).
Qed.

  (** It returns when every id to be sorted is within the limit of [int]. *)
Lemma extract_total (text : str) (known : list str) :
    (forall x, In x known -> follows_pages text x -> within_int_limit x) ->
    exists ids,
      extract_document_ids_from_content set_iter text known = Return ids.
Proof.
    intro Hshort. unfold extract_document_ids_from_content.
    destruct (sort_perm _ _ Z.ltb int_call
                (filter (fun doc_id => mem doc_id known)
                   (set_iter (findall pattern text))))
      as (ids & Hs & _); [|now exists ids].
    apply Forall_forall. intros x Hx. apply relevant_spec in Hx as [Hk Hx].
    pose proof (Hshort x Hk Hx) as Hl.
    destruct Hx as (_ & _ & _ & Hn & Hd & _).
    now apply int_call_digits.
Qed.

  (** It raises ValueError when one of them is beyond the limit. *)
Lemma extract_long (text : str) (known : list str) (x : str) :
    In x known -> follows_pages text x -> ~ within_int_limit x ->
    exists msg,
      extract_document_ids_from_content set_iter text known
      = Raise (ValueError msg).
Proof.
    intros Hk Hx Hl. unfold extract_document_ids_from_content.
    assert (Hin := proj2 (relevant_spec text known x) (conj Hk Hx)).
    destruct Hx as (_ & _ & _ & Hn & Hd & _).
    destruct (sort_fails _ _ Z.ltb int_call _ x _ Hin
                (int_call_long x Hn Hd Hl)) as [e He].
    rewrite He. apply sort_Raise in He as (_ & z & _ & _ & Hz & _).
    apply int_call_Raise in Hz as [msg ->]. now exists msg.
Qed.

Lemma extract_spec (text : str) (known : list str) :
    (forall x, In x known -> follows_pages text x -> within_int_limit x) ->
    exists ids,
      extract_document_ids_from_content set_iter text known = Return ids
      /\ NoDup ids
      /\ StronglySorted int_le ids
      /\ (forall x, In x ids <-> In x known /\ follows_pages text x).
Proof.
    intro Hshort. destruct (extract_total text known Hshort) as [ids Hs].
    exists ids. split; [exact Hs | now apply extract_Return].
Qed.
End WithSetOrder.

(** The test for a linked id beyond the limit, in the terms of the text. *)
Lemma links_long_id_spec (available : list str) (text : str) :
  links_long_id available text = true <->
  exists x, In x available /\ follows_pages text x /\ ~ within_int_limit x.
Proof.
  unfold links_long_id, within_int_limit. rewrite existsb_exists. split.
  - intros (x & Hx & H). apply andb_true_iff in H as [Hm Hl].
    exists x. rewrite <- mem_In, <- findall_pages.
    apply Nat.ltb_lt in Hl. repeat split; try assumption. lia.
  - intros (x & Hk & Hx & Hl). exists x.
    rewrite findall_pages, andb_true_iff, mem_In, Nat.ltb_lt.
    repeat split; try assumption. lia.
Qed.

(** Removing duplicates in order of first occurrence is one admissible
    iteration order. *)
Lemma set_order_nodup : set_order (nodup str_eq_dec).
Proof.
  intro l. split; [apply NoDup_nodup | intro x; apply nodup_In].
Defined.

End ExtractFacts.

(* ================================================================== *)
(** * The filename patterns *)
(* ================================================================== *)

Module PatternFacts.
Import Re ReFacts ExtractFacts.

(** Every way the control pattern matches splits the filename into id,
    white space, name, the extension and at most a final newline. *)
Lemma control_pattern_In (f x n r : str) :
  In ((x, n), r) (controls.pattern f) ->
  is_control_id x
  /\ exists ws,
       ws <> [] /\ forallb isspace ws = true
       /\ n <> [] /\ forallb notnewline n = true
       /\ f = x ++ ws ++ n ++ py ".md" ++ r
       /\ (r = [] \/ r = [newline]).
Proof.
  unfold controls.pattern. intro H.
  apply In_bind in H as (major & r1 & H1 & H).
  apply In_bind in H as (dot & r2 & H2 & H).
  apply In_bind in H as (minor & r3 & H3 & H).
  apply In_bind in H as (ws & r4 & H4 & H).
  apply In_bind in H as (rest & r5 & H5 & H).
  apply In_bind in H as (ext & r6 & H6 & H).
  apply In_bind in H as (u & r7 & H7 & H).
  apply In_ret in H as [[= -> ->] ->].
  apply In_plus_greedy in H1 as (-> & Hmaj & Hmajd).
  apply In_lit in H2 as (-> & ->).
  apply In_plus_greedy in H3 as (-> & Hmin & Hmind).
  apply In_plus_greedy in H4 as (-> & Hws & Hwss).
  apply In_plus_lazy in H5 as (-> & Hrest & Hrestn).
  apply In_lit in H6 as (-> & ->).
  apply In_eos in H7 as (-> & Hend).
  split.
  - now exists major, minor.
  - exists ws. repeat split; try assumption.
    now rewrite <- !app_assoc.
Qed.

Lemma control_match_shape (f x n : str) :
  Re.re_match controls.pattern f = Some (x, n) ->
  is_control_id x
  /\ exists ws tail,
       ws <> [] /\ forallb isspace ws = true
       /\ n <> [] /\ forallb notnewline n = true
       /\ f = x ++ ws ++ n ++ py ".md" ++ tail
       /\ (tail = [] \/ tail = [newline]).
Proof.
  intro H. apply re_match_In in H as [r H].
  apply control_pattern_In in H as [Hid (ws & H)].
  split; [assumption | now exists ws, r].
Qed.

(** A name that the glob yields does not end in a newline. *)
Lemma glob_tail (f body tail : str) :
  endswith f (py ".md") = true ->
  f = body ++ py ".md" ++ tail ->
  tail = [] \/ tail = [newline] -> tail = [].
Proof.
  intros He Hf [-> | ->]; [reflexivity|].
  apply endswith_spec in He as [q Hq]. rewrite Hq in Hf.
  change (py ".md") with (py ".m" ++ ["d"%char]) in Hf at 1.
  rewrite !app_assoc in Hf. apply app_inj_tail in Hf as [_ Hf].
  discriminate Hf.
Qed.

(** The document pattern: digits, the extension, at most a final newline. *)
Lemma document_pattern_In (f x r : str) :
  In (x, r) (documents.pattern f) ->
  x <> [] /\ forallb isdigit x = true
  /\ f = x ++ py ".md" ++ r /\ (r = [] \/ r = [newline]).
Proof.
  unfold documents.pattern. intro H.
  apply In_bind in H as (digits & r1 & H1 & H).
  apply In_bind in H as (ext & r2 & H2 & H).
  apply In_bind in H as (u & r3 & H3 & H).
  apply In_ret in H as [-> ->].
  apply In_plus_greedy in H1 as (-> & Hn & Hd).
  apply In_lit in H2 as (-> & ->).
  apply In_eos in H3 as (-> & Hend).
  repeat split; assumption.
Qed.

Lemma document_match_shape (f x : str) :
  Re.re_match documents.pattern f = Some x ->
  x <> [] /\ forallb isdigit x = true
  /\ exists tail, f = x ++ py ".md" ++ tail /\ (tail = [] \/ tail = [newline]).
Proof.
  intro H. apply re_match_In in H as [r H].
  apply document_pattern_In in H as (Hn & Hd & Hf & Hr).
  repeat split; try assumption. now exists r.
Qed.

(** [split] on a dot between two digit runs. *)
Lemma split_no_sep (sep : ascii) (s : str) :
  Forall (fun c => c <> sep) s -> split sep s = [s].
Proof.
  induction 1 as [|c s Hc _ IH]; simpl; [reflexivity|].
  apply chr_eqb_neq in Hc. now rewrite Hc, IH.
Qed.

Lemma split_at_sep (sep : ascii) (a b : str) :
  Forall (fun c => c <> sep) a ->
  split sep (a ++ sep :: b) = a :: split sep b.
Proof.
  induction 1 as [|c s Hc _ IH]; simpl.
  - now rewrite chr_eqb_refl.
  - apply chr_eqb_neq in Hc. now rewrite Hc, IH.
Qed.

Lemma digits_no_dot (s : str) :
  forallb isdigit s = true -> Forall (fun c => c <> "."%char) s.
Proof.
  rewrite forallb_forall, Forall_forall. intros H c Hc.
  apply isdigit_not_dot. now apply H.
Qed.

Lemma float_call_digits (s : str) :
  s <> [] -> forallb isdigit s = true -> exists x, float_call s = Return x.
Proof.
  intros Hn Hs. destruct (int_digits s Hn Hs) as (n & Hi & _).
  unfold float_call, float. rewrite Hi. simpl. now eexists.
Qed.

(** The sort key is defined on every id the control pattern captures. *)
Lemma sort_key_defined (x : str) :
  is_control_id x -> exists k, controls.sort_key x = Return k.
Proof.
  intros (major & minor & -> & Hmaj & Hmajd & Hmin & Hmind).
  unfold controls.sort_key.
  change (py "." ++ minor) with ("."%char :: minor).
  rewrite (split_at_sep _ _ _ (digits_no_dot _ Hmajd)).
  rewrite (split_no_sep _ _ (digits_no_dot _ Hmind)).
  cbn [index nth_error].
  destruct (float_call_digits major Hmaj Hmajd) as [fa ->].
  destruct (float_call_digits minor Hmin Hmind) as [fb ->].
  now eexists.
Qed.

Lemma selected_pattern_same :
  selected_documents.filename_pattern = controls.pattern.
Proof. reflexivity. Qed.

End PatternFacts.

(* ================================================================== *)
(** * The three load operations *)
(* ================================================================== *)

Module LoadFacts.
Import Re ReFacts SortFacts ExtractFacts PatternFacts.

Section Loop.
Variables (R : Type)
          (body : list R * list str -> FS.file -> list R * list str)
          (validb faultyb : FS.file -> bool)
          (yields : FS.file -> R -> Prop).

(** One iteration: a valid file adds its record, a faulty one adds a
    printed line, any other file changes nothing. *)
Hypothesis step : forall rs out f,
  (validb f = true /\ faultyb f = false
   /\ exists r, yields f r /\ body (rs, out) f = (rs ++ [r], out))
  \/ (validb f = false /\ faultyb f = true
      /\ exists w, body (rs, out) f = (rs, out ++ [w]))
  \/ (validb f = false /\ faultyb f = false /\ body (rs, out) f = (rs, out)).

Lemma loop_spec (files : list FS.file) :
  forall rs out,
  exists rs' out',
    fold_left body files (rs, out) = (rs ++ rs', out ++ out')
    /\ length rs' = length (filter validb files)
    /\ length out' = length (filter faultyb files)
    /\ (forall f, In f files -> validb f = true ->
                  exists r, In r rs' /\ yields f r)
    /\ (forall r, In r rs' ->
                  exists f, In f files /\ validb f = true /\ yields f r).
Proof.
  induction files as [|f files IH]; intros rs out.
  - exists [], []. simpl. rewrite !app_nil_r.
    repeat split; try reflexivity; intros ? [].
  - cbn [fold_left filter].
    destruct (step rs out f)
      as [(Hv & Hf & r & Hy & ->) | [(Hv & Hf & w & ->) | (Hv & Hf & ->)]];
      rewrite Hv, Hf;
      [destruct (IH (rs ++ [r]) out) as (rs' & out' & -> & Hl & Hw & Hin & Hfrom)
      |destruct (IH rs (out ++ [w])) as (rs' & out' & -> & Hl & Hw & Hin & Hfrom)
      |destruct (IH rs out) as (rs' & out' & -> & Hl & Hw & Hin & Hfrom)].
    + exists (r :: rs'), out'. rewrite <- app_assoc. simpl.
      repeat split; try congruence.
      * intros g [<- | Hg] Hgv; [exists r; split; [now left | assumption]|].
        destruct (Hin g Hg Hgv) as (r' & Hr' & Hy').
        exists r'. split; [now right | assumption].
      * intros r' [<- | Hr'].
        -- exists f. repeat split; [now left | assumption | assumption].
        -- destruct (Hfrom r' Hr') as (g & Hg & Hgv & Hy').
           exists g. repeat split; [now right | assumption | assumption].
    + exists rs', (w :: out'). rewrite <- app_assoc. simpl.
      repeat split; try congruence.
      * intros g [<- | Hg] Hgv; [congruence | now apply Hin].
      * intros r' Hr'. destruct (Hfrom r' Hr') as (g & Hg & Hgv & Hy').
        exists g. repeat split; [now right | assumption | assumption].
    + exists rs', out'.
      repeat split; try congruence.
      * intros g [<- | Hg] Hgv; [congruence | now apply Hin].
      * intros r' Hr'. destruct (Hfrom r' Hr') as (g & Hg & Hgv & Hy').
        exists g. repeat split; [now right | assumption | assumption].
Qed.

(** The loop followed by the final sort, when the sort returns. *)
Lemma loop_sorted (K : Type) (ltb : K -> K -> bool)
  (key : R -> outcome K) (entries : list FS.file) :
  (exists records,
     snd (let (rs, out) := fold_left body (FS.glob_md entries) ([], []) in
          (out, Py.sort ltb key rs)) = Return records) ->
  resilient
    (let (rs, out) := fold_left body (FS.glob_md entries) ([], []) in
     (out, Py.sort ltb key rs))
    (Some entries) validb faultyb yields.
Proof.
  unfold resilient.
  destruct (loop_spec (FS.glob_md entries) [] [])
    as (rs & out & -> & Hl & Hw & Hin & Hfrom).
  cbn [app snd]. intros [records Hs].
  pose proof (sort_Return_perm _ _ ltb key _ _ Hs) as Hp.
  exists out, records. rewrite Hs. split; [reflexivity|].
  split; [now rewrite <- (Permutation_length Hp)|].
  split; [assumption|]. split.
  - intros f Hf Hv. destruct (Hin f Hf Hv) as (r & Hr & Hy).
    exists r. split; [now apply (Permutation_in _ Hp) | assumption].
  - intros r Hr. apply Hfrom.
    now apply (Permutation_in _ (Permutation_sym Hp)).
Qed.

(** The same, when every record has a key: the sort returns. *)
Lemma loop_then_sort (K : Type) (ltb : K -> K -> bool)
  (key : R -> outcome K) (entries : list FS.file) :
  (forall f r, In f (FS.glob_md entries) -> yields f r ->
               exists k, key r = Return k) ->
  resilient
    (let (rs, out) := fold_left body (FS.glob_md entries) ([], []) in
     (out, Py.sort ltb key rs))
    (Some entries) validb faultyb yields.
Proof.
  intro Hkey. apply loop_sorted.
  destruct (loop_spec (FS.glob_md entries) [] [])
    as (rs & out & -> & _ & _ & _ & Hfrom).
  cbn [app snd].
  destruct (sort_perm _ _ ltb key rs) as (records & Hs & _);
    [|now exists records].
  apply Forall_forall. intros r Hr.
  destruct (Hfrom r Hr) as (f & Hf & _ & Hy). now apply (Hkey f).
Qed.

(** The final sort raises only for the key of a record, and does raise
    when a valid file gives records without a key. *)
Lemma loop_sort_Raise (K : Type) (ltb : K -> K -> bool)
  (key : R -> outcome K) (entries : list FS.file) (e : exn) :
  snd (let (rs, out) := fold_left body (FS.glob_md entries) ([], []) in
       (out, Py.sort ltb key rs)) = Raise e ->
  exists f r,
    In f (FS.glob_md entries) /\ validb f = true /\ yields f r
    /\ key r = Raise e.
Proof.
  destruct (loop_spec (FS.glob_md entries) [] [])
    as (rs & out & -> & _ & _ & _ & Hfrom).
  cbn [app snd]. intro He.
  apply sort_Raise in He as (l1 & x & l2 & -> & Hx & _).
  destruct (Hfrom x) as (f & Hf & Hv & Hy); [apply in_elt|].
  now exists f, x.
Qed.

Lemma loop_sort_fails (K : Type) (ltb : K -> K -> bool)
  (key : R -> outcome K) (entries : list FS.file) (f : FS.file) :
  In f (FS.glob_md entries) -> validb f = true ->
  (forall r, yields f r -> exists e, key r = Raise e) ->
  exists e,
    snd (let (rs, out) := fold_left body (FS.glob_md entries) ([], []) in
         (out, Py.sort ltb key rs)) = Raise e.
Proof.
  destruct (loop_spec (FS.glob_md entries) [] [])
    as (rs & out & -> & _ & _ & Hin & _).
  cbn [app snd]. intros Hf Hv Hk.
  destruct (Hin f Hf Hv) as (r & Hr & Hy). destruct (Hk r Hy) as [e He].
  exact (sort_fails _ _ ltb key rs r e Hr He).
Qed.
End Loop.

Lemma controls_step (rs : list controls.Control) (out : list str)
  (f : FS.file) :
  (valid controls.pattern f = true /\ faulty controls.pattern f = false
   /\ exists r, yields_control f r
                /\ controls.loop_body (rs, out) f = (rs ++ [r], out))
  \/ (valid controls.pattern f = false /\ faulty controls.pattern f = true
      /\ exists w, controls.loop_body (rs, out) f = (rs, out ++ [w]))
  \/ (valid controls.pattern f = false /\ faulty controls.pattern f = false
      /\ controls.loop_body (rs, out) f = (rs, out)).
Proof.
  unfold faulty, valid, well_named, readable, controls.loop_body,
    yields_control.
  destruct (Re.re_match controls.pattern (FS.name f)) as [[i n]|] eqn:Em.
  - destruct (FS.read f) as [e|t] eqn:Er.
    + right; left. repeat split. now eexists.
    + left. repeat split.
      exists (controls.Build_Control i n t). now repeat split.
  - right; left. repeat split. now eexists.
Qed.

Lemma documents_step (rs : list documents.Document) (out : list str)
  (f : FS.file) :
  (valid documents.pattern f = true /\ faulty documents.pattern f = false
   /\ exists r, yields_document f r
                /\ documents.loop_body (rs, out) f = (rs ++ [r], out))
  \/ (valid documents.pattern f = false /\ faulty documents.pattern f = true
      /\ exists w, documents.loop_body (rs, out) f = (rs, out ++ [w]))
  \/ (valid documents.pattern f = false /\ faulty documents.pattern f = false
      /\ documents.loop_body (rs, out) f = (rs, out)).
Proof.
  unfold faulty, valid, well_named, readable, documents.loop_body,
    yields_document.
  destruct (Re.re_match documents.pattern (FS.name f)) as [i|] eqn:Em.
  - destruct (FS.read f) as [e|t] eqn:Er.
    + right; left. repeat split. now eexists.
    + left. repeat split.
      exists (documents.Build_Document i (documents.document_name t i) t).
      now repeat split.
  - right; left. repeat split. now eexists.
Qed.

Lemma selected_step (set_iter : list str -> list str)
  (Hset : set_order set_iter) (available : list str)
  (rs : list selected_documents.SelectedControl) (out : list str)
  (f : FS.file) :
  (valid_selected available f = true /\ faulty_selected available f = false
   /\ exists r, yields_selected set_iter available f r
                /\ selected_documents.loop_body set_iter available (rs, out) f
                   = (rs ++ [r], out))
  \/ (valid_selected available f = false
      /\ faulty_selected available f = true
      /\ exists w, selected_documents.loop_body set_iter available (rs, out) f
                   = (rs, out ++ [w]))
  \/ (valid_selected available f = false
      /\ faulty_selected available f = false
      /\ selected_documents.loop_body set_iter available (rs, out) f
         = (rs, out)).
Proof.
  unfold faulty_selected, valid_selected, convertible, valid, well_named,
    readable, is_template, selected_documents.loop_body, yields_selected.
  destruct (str_eqb (lower (FS.name f)) (py "template.md")) eqn:Et.
  - right; right. now repeat split.
  - cbn [negb andb].
    destruct (Re.re_match selected_documents.filename_pattern (FS.name f))
      as [[i n]|] eqn:Em.
    + destruct (FS.read f) as [e|t] eqn:Er.
      * right; left. repeat split. now eexists.
      * cbn [andb]. destruct (links_long_id available t) eqn:El.
        -- right; left. cbn [negb]. split; [reflexivity|].
           split; [reflexivity|].
           apply links_long_id_spec in El as (x & Hk & Hx & Hl).
           destruct (extract_long set_iter Hset t available x Hk Hx Hl)
             as [msg ->].
           now eexists.
        -- left. cbn [negb]. split; [reflexivity|].
           split; [reflexivity|].
           destruct (extract_total set_iter Hset t available) as [ids He].
           { intros x Hk Hx. unfold within_int_limit.
             destruct (Nat.le_gt_cases (len x) int_max_str_digits)
               as [Hle | Hgt]; [assumption|].
             assert (Hlong : links_long_id available t = true).
             { apply links_long_id_spec. exists x.
               unfold within_int_limit. repeat split; try assumption. lia. }
             congruence. }
           exists (selected_documents.Build_SelectedControl i n ids).
           rewrite He. split; [|reflexivity].
           split; [reflexivity|]. now exists t.
    + right; left. repeat split. now eexists.
Qed.

Lemma yields_control_key (f : FS.file) (c : controls.Control) :
  yields_control f c -> exists k, controls.sort_key (controls.id c) = Return k.
Proof.
  intros [Hm _]. apply control_match_shape in Hm as [Hid _].
  now apply sort_key_defined.
Qed.

(** The key of a document is computed exactly when its id is within the
    limit of [int], as it is when the name of its file is. *)
Lemma yields_document_key (f : FS.file) (d : documents.Document) :
  yields_document f d -> within_int_limit (documents.id d) ->
  exists k, int_call (documents.id d) = Return k.
Proof.
  intros [Hm _] Hl. apply document_match_shape in Hm as (Hn & Hd & _).
  now apply int_call_digits.
Qed.

Lemma yields_document_long (f : FS.file) (d : documents.Document) :
  yields_document f d -> ~ within_int_limit (documents.id d) ->
  exists e, int_call (documents.id d) = Raise e.
Proof.
  intros [Hm _] Hl. apply document_match_shape in Hm as (Hn & Hd & _).
  rewrite (int_call_long _ Hn Hd Hl). now eexists.
Qed.

Lemma document_id_shorter (f : FS.file) (i : str) :
  Re.re_match documents.pattern (FS.name f) = Some i ->
  len i <= len (FS.name f).
Proof.
  intro Hm. apply document_match_shape in Hm as (_ & _ & tail & -> & _).
  unfold len. rewrite length_app. lia.
Qed.

Lemma yields_selected_key (set_iter : list str -> list str)
  (available : list str) (f : FS.file)
  (s : selected_documents.SelectedControl) :
  yields_selected set_iter available f s ->
  exists k, controls.sort_key (selected_documents.id s) = Return k.
Proof.
  intros [Hm _]. rewrite selected_pattern_same in Hm.
  apply control_match_shape in Hm as [Hid _].
  now apply sort_key_defined.
Qed.

Lemma load_controls_resilient (fs : FS.filesystem) (dir : str) :
  resilient (controls.load_controls fs dir) (fs dir)
    (valid controls.pattern) (faulty controls.pattern) yields_control.
Proof.
  unfold controls.load_controls. destruct (fs dir) as [entries|].
  - apply (loop_then_sort _ _ _ _ _ controls_step).
    intros f c _. apply yields_control_key.
  - simpl. now eexists.
Qed.

(** The document loader is resilient whenever it returns, and it returns
    when the names of the directory are within the limit of [int]. *)
Lemma load_documents_returned (fs : FS.filesystem) (dir : str)
  (out : list str) (docs : list documents.Document) :
  documents.load_documents fs dir = (out, Return docs) ->
  resilient (documents.load_documents fs dir) (fs dir)
    (valid documents.pattern) (faulty documents.pattern) yields_document.
Proof.
  unfold documents.load_documents. destruct (fs dir) as [entries|].
  - intro H. apply (loop_sorted _ _ _ _ _ documents_step).
    exists docs. now rewrite H.
  - discriminate.
Qed.

Lemma load_documents_resilient (fs : FS.filesystem) (dir : str) :
  names_within int_max_str_digits (fs dir) ->
  resilient (documents.load_documents fs dir) (fs dir)
    (valid documents.pattern) (faulty documents.pattern) yields_document.
Proof.
  unfold documents.load_documents, names_within.
  destruct (fs dir) as [entries|].
  - intro Hnames. apply (loop_then_sort _ _ _ _ _ documents_step).
    intros f d Hf Hy. apply (yields_document_key f d Hy).
    unfold within_int_limit.
    rewrite Forall_forall in Hnames.
    apply filter_In in Hf as [Hf _]. specialize (Hnames f Hf).
    destruct Hy as [Hm _]. apply document_id_shorter in Hm. lia.
  - intros _. simpl. now eexists.
Qed.

(** It raises for a missing directory and for an id beyond the limit of
    [int], and in no other case. *)
Lemma load_documents_raises (fs : FS.filesystem) (dir : str) :
  (exists e, snd (documents.load_documents fs dir) = Raise e)
  <-> fs dir = None \/ long_document_id (fs dir).
Proof.
  unfold documents.load_documents, long_document_id.
  destruct (fs dir) as [entries|].
  - split.
    + intros [e He]. right.
      apply (loop_sort_Raise _ _ _ _ _ documents_step) in He
        as (f & d & Hf & Hv & Hy & Hk).
      exists entries, f, (documents.id d).
      unfold valid in Hv. apply andb_true_iff in Hv as [_ Hr].
      destruct Hy as [Hm Hy]. repeat split; try assumption.
      intro Hl. destruct (yields_document_key f d (conj Hm Hy) Hl) as [k Hk'].
      congruence.
    + intros [[=] | (entries' & f & i & [= <-] & Hf & Hr & Hm & Hl)].
      apply (loop_sort_fails _ _ _ _ _ documents_step _ _ _ _ f Hf).
      * unfold valid, well_named. now rewrite Hm, Hr.
      * intros d Hy. apply (yields_document_long f d Hy).
        destruct Hy as [Hm' _]. rewrite Hm in Hm'. now injection Hm' as <-.
  - split; [now left|]. intros _. simpl. now eexists.
Qed.

Lemma load_selected_controls_resilient (set_iter : list str -> list str)
  (Hset : set_order set_iter) (fs : FS.filesystem) (dir : str)
  (docs : list documents.Document) :
  resilient (selected_documents.load_selected_controls set_iter fs dir docs)
    (fs dir) (valid_selected (map documents.id docs))
    (faulty_selected (map documents.id docs))
    (yields_selected set_iter (map documents.id docs)).
Proof.
  unfold selected_documents.load_selected_controls.
  destruct (fs dir) as [entries|].
  - apply (loop_then_sort _ _ _ _ _
             (selected_step set_iter Hset (map documents.id docs))).
    intros f s _. apply yields_selected_key.
  - simpl. now eexists.
Qed.

(** A resilient load raises exactly when the directory is missing. *)
Lemma resilient_raise_iff (R : Type)
  (result : list str * outcome (list R)) (dir : option (list FS.file))
  (validb faultyb : FS.file -> bool) (yields : FS.file -> R -> Prop) :
  resilient result dir validb faultyb yields ->
  ((exists e, snd result = Raise e) <-> dir = None).
Proof.
  unfold resilient. destruct dir as [entries|].
  - intros (out & records & -> & _). simpl.
    split; [intros [e H]; discriminate | discriminate].
  - intros (msg & ->). simpl. split; [reflexivity | now eexists].
Qed.

End LoadFacts.

(* ================================================================== *)
(** * The graph assembler *)
(* ================================================================== *)

Module AssembleFacts.

Lemma fold_left_append_map {A B : Type} (f : A -> B) (l : list A)
  (acc : list B) :
  fold_left (fun elements x => elements ++ [f x]) l acc = acc ++ map f l.
Proof.
  revert acc. induction l as [|x l IH]; intro acc; simpl.
  - now rewrite app_nil_r.
  - rewrite IH, <- app_assoc. reflexivity.
Qed.

Lemma fold_left_append_flat_map {A B C : Type} (ids : A -> list B)
  (g : A -> B -> C) (l : list A) (acc : list C) :
  fold_left
    (fun elements s =>
       fold_left (fun elements t => elements ++ [g s t]) (ids s) elements)
    l acc
  = acc ++ flat_map (fun s => map (g s) (ids s)) l.
Proof.
  revert acc. induction l as [|s l IH]; intro acc; simpl.
  - now rewrite app_nil_r.
  - rewrite fold_left_append_map, IH, <- app_assoc. reflexivity.
Qed.

(** The three loops build the three segments one after the other. *)
Lemma create_elements_segments
  (ctrls : list controls.Control) (docs : list documents.Document)
  (sel : list selected_documents.SelectedControl) :
  presenter.create_elements ctrls docs sel
  = map control_node ctrls ++ map document_node docs
      ++ flat_map edges_of sel.
Proof.
  unfold presenter.create_elements.
  rewrite (fold_left_append_map control_node).
  rewrite (fold_left_append_map document_node).
  rewrite (fold_left_append_flat_map
             selected_documents.relevant_document_ids
             (fun s t => edge (selected_documents.id s) t)).
  cbn [app]. now rewrite <- app_assoc.
Qed.

Lemma create_elements_same :
  presenter_layout.create_elements = presenter.create_elements.
Proof. reflexivity. Qed.

Lemma length_flat_map_edges
  (sel : list selected_documents.SelectedControl) :
  length (flat_map edges_of sel)
  = list_sum (map (fun s => length
                              (selected_documents.relevant_document_ids s))
                sel).
Proof.
  induction sel as [|s sel IH]; simpl; [reflexivity|].
  rewrite length_app, IH. unfold edges_of. now rewrite length_map.
Qed.

End AssembleFacts.

(* ================================================================== *)
(** * The stated properties *)
(* ================================================================== *)

(** C1 as worded fails: when the content links a known id of 4301 digits,
    the call does not return.  The ids are sorted by [int], which refuses a
    run of more than 4300 digits with ValueError. *)
Lemma C1_extract_as_stated_fails : ~ extract_as_stated.
Proof.
  intro H.
  destruct (H (nodup str_eq_dec) Examples.long_link [Examples.long_id]
              ExtractFacts.set_order_nodup) as (ids & He & _).
  vm_compute in He. discriminate He.
Qed.

(** C1, amended.  For every content string and every set of known
    identifiers in which each known id that follows a literal [/pages/] in
    the content has at most 4300 digits, the limit of [int],
    [extract_document_ids_from_content] returns, and what it returns is
    exactly the digit runs that follow [/pages/] in the content and belong
    to the known set, each once, in ascending order of their integer
    values; when one of those ids has more digits, the call raises
    ValueError.  This holds whatever order the interpreter iterates the
    intermediate set in.  In particular, with known ids {"123456"} and a
    content that holds [/pages/123456] twice and [/pages/999999] once, the
    result is ["123456"]. *)
Theorem C1_extract_document_ids (set_iter : list str -> list str) :
  set_order set_iter ->
  (forall text known,
     ((forall x, In x known -> follows_pages text x -> within_int_limit x) ->
      exists ids,
        selected_documents.extract_document_ids_from_content
          set_iter text known = Return ids
        /\ NoDup ids
        /\ StronglySorted int_le ids
        /\ (forall x, In x ids <-> In x known /\ follows_pages text x))
     /\ (forall x,
           In x known -> follows_pages text x -> ~ within_int_limit x ->
           exists msg,
             selected_documents.extract_document_ids_from_content
               set_iter text known = Raise (ValueError msg)))
  /\ selected_documents.extract_document_ids_from_content
       set_iter Examples.report_text [py "123456"]
     = Return [py "123456"].
Proof.
  intro Hset. split.
  - intros text known. split.
    + now apply ExtractFacts.extract_spec.
    + now apply ExtractFacts.extract_long.
  - destruct (ExtractFacts.extract_spec set_iter Hset
                Examples.report_text [py "123456"])
      as (ids & -> & Hnd & _ & Hin).
    { intros x [<- | []] _. apply Nat.leb_le. reflexivity. }
    f_equal. apply ExtractFacts.NoDup_only; [assumption|].
    intro x. rewrite Hin. split.
    + intros [[<- | []] _]. reflexivity.
    + intros ->. split; [now left|].
      exists (py "- https://wiki.example/spaces/ISO"),
        (py " policy; see also https://wiki.example/spaces/ISO/pages/123456 and https://wiki.example/spaces/ISO/pages/999999").
      repeat split; [discriminate].
Qed.

Lemma C1_extract_document_ids_witness :
  set_order (nodup str_eq_dec)
  /\ selected_documents.extract_document_ids_from_content
       (nodup str_eq_dec) Examples.report_text [py "123456"]
     = Return [py "123456"]
  /\ (exists msg,
        selected_documents.extract_document_ids_from_content
          (nodup str_eq_dec) Examples.long_link [Examples.long_id]
        = Raise (ValueError msg)).
Proof.
  split; [|split].
  - exact ExtractFacts.set_order_nodup.
  - exact (proj2 (C1_extract_document_ids (nodup str_eq_dec)
                    ExtractFacts.set_order_nodup)).
  - apply (proj2 (proj1 (C1_extract_document_ids (nodup str_eq_dec)
                           ExtractFacts.set_order_nodup)
                    Examples.long_link [Examples.long_id])
             Examples.long_id).
    + now left.
    + exists [], []. split; [|split; [|split]].
      * unfold Examples.long_link. now rewrite app_nil_r.
      * discriminate.
      * vm_compute. reflexivity.
      * exact I.
    + unfold within_int_limit, Examples.long_id, len.
      rewrite repeat_length. lia.
Defined.

(** C7.  For all lists of controls, documents and selection records,
    [create_elements] (in presenter.py and in presenter_layout.py alike)
    is a total function whose result is one node per control, labelled
    "<id> <name>" and marked Control, then one node per document, labelled
    with the document name and marked Document, then one edge from the
    record's id to each of its relevant document ids; the number of
    elements is the number of controls plus the number of documents plus
    the sum of the lengths of the relevant-id lists. *)
Theorem C7_create_elements
  (ctrls : list controls.Control) (docs : list documents.Document)
  (sel : list selected_documents.SelectedControl) :
  presenter.create_elements ctrls docs sel
  = map control_node ctrls ++ map document_node docs
      ++ flat_map edges_of sel
  /\ presenter_layout.create_elements ctrls docs sel
     = presenter.create_elements ctrls docs sel
  /\ length (presenter.create_elements ctrls docs sel)
     = length ctrls + length docs
       + list_sum (map (fun s => length
                                   (selected_documents.relevant_document_ids
                                      s))
                     sel).
Proof.
  split; [apply AssembleFacts.create_elements_segments|].
  split; [reflexivity|].
  rewrite AssembleFacts.create_elements_segments.
  rewrite !length_app, !length_map, AssembleFacts.length_flat_map_edges.
  lia.
Qed.

(** C9.  In the list built by [create_elements], every control node keeps
    its kind under [classes] inside its [data] dictionary, the only
    top-level key, while every document node keeps [classes] as a
    top-level key next to [data], whose keys are [id] and [label] only. *)
Theorem C9_kind_marker_placement
  (ctrls : list controls.Control) (docs : list documents.Document)
  (sel : list selected_documents.SelectedControl) :
  let elements := presenter.create_elements ctrls docs sel in
  Forall (fun e => kind_inside_data e (py "Control"))
    (firstn (length ctrls) elements)
  /\ Forall (fun e => kind_beside_data e (py "Document"))
       (firstn (length docs) (skipn (length ctrls) elements))
  /\ presenter_layout.create_elements ctrls docs sel = elements.
Proof.
  cbv zeta. rewrite AssembleFacts.create_elements_segments.
  assert (Hc : length (map control_node ctrls) = length ctrls)
    by apply length_map.
  assert (Hd : length (map document_node docs) = length docs)
    by apply length_map.
  rewrite <- Hc at 1. rewrite firstn_app, Nat.sub_diag, firstn_all.
  cbn [firstn]. rewrite app_nil_r.
  rewrite <- Hc at 1. rewrite skipn_app, Nat.sub_diag, skipn_all.
  cbn [skipn app].
  rewrite <- Hd at 1. rewrite firstn_app, Nat.sub_diag, firstn_all.
  cbn [firstn]. rewrite app_nil_r.
  split; [|split].
  - apply Forall_map, Forall_forall. intros c _. eexists.
    split; reflexivity.
  - apply Forall_map, Forall_forall. intros d _. eexists.
    split; reflexivity.
  - rewrite AssembleFacts.create_elements_same.
    apply AssembleFacts.create_elements_segments.
Qed.

(** C10.  For every list of controls (of documents) and every id,
    [get_control_by_id] ([get_document_by_id]) returns without raising,
    leaves the list as it was, and its result is the first element of the
    list whose id is the requested one, or [None] when there is none. *)
Theorem C10_get_by_id :
  (forall (ctrls : list controls.Control) (control_id : str),
     exists r,
       controls.call_get_control_by_id ctrls control_id = (Return r, ctrls)
       /\ first_with (fun c => controls.id c = control_id) ctrls r)
  /\ (forall (docs : list documents.Document) (document_id : str),
        exists r,
          documents.call_get_document_by_id docs document_id
            = (Return r, docs)
          /\ first_with (fun d => documents.id d = document_id) docs r).
Proof.
  split.
  - intros ctrls control_id. eexists. split; [reflexivity|].
    induction ctrls as [|c ctrls IH]; simpl; [constructor|].
    destruct (str_eqb (controls.id c) control_id) eqn:E.
    + apply str_eqb_eq in E. exists [], ctrls. repeat split; auto.
    + apply str_eqb_neq in E.
      destruct (controls.get_control_by_id ctrls control_id) as [x|].
      * destruct IH as (l1 & l2 & -> & Hx & Hl1).
        exists (c :: l1), l2. repeat split; auto.
      * now constructor.
  - intros docs document_id. eexists. split; [reflexivity|].
    induction docs as [|d docs IH]; simpl; [constructor|].
    destruct (str_eqb (documents.id d) document_id) eqn:E.
    + apply str_eqb_eq in E. exists [], docs. repeat split; auto.
    + apply str_eqb_neq in E.
      destruct (documents.get_document_by_id docs document_id) as [x|].
      * destruct IH as (l1 & l2 & -> & Hx & Hl1).
        exists (d :: l1), l2. repeat split; auto.
      * now constructor.
Qed.

(** C3 as worded fails: the selection loader passes over the reserved
    template without a warning, and no loader sees a file that the glob
    leaves out, so a file that fails the naming pattern need not cost a
    warning. *)
Lemma C3_resilience_as_stated_fails :
  ~ resilient_as_stated
      (selected_documents.load_selected_controls (nodup str_eq_dec)
         (Examples.tree [] [] Examples.selected_with_template)
         presenter.SELECTED_DOCUMENTS_DIR [])
      (Some Examples.selected_with_template)
      (valid selected_documents.filename_pattern)
  /\ ~ resilient_as_stated
         (controls.load_controls
            (Examples.tree Examples.controls_with_readme [] [])
            presenter.CONTROLS_DIR)
         (Some Examples.controls_with_readme)
         (valid controls.pattern).
Proof.
  split; intros (out & records & H & _ & Hw);
    vm_compute in H; injection H as <- <-;
    vm_compute in Hw; discriminate Hw.
Qed.

(** C3, amended.  Each load operation raises when the directory does not
    exist, and then prints nothing and returns no catalog; the control and
    the selection loader raise in no other case, and the document loader
    only when, besides, a readable document file has an id of more than
    4300 digits, which [int] refuses and which no directory has whose
    names are at most 4300 characters long.  When the directory exists and
    the call returns: among the files the glob "*.md" yields (and, for the
    selection loader, that are not the reserved template), each one that
    matches the naming pattern and can be read (and, for the selection
    loader, links no known id of more than 4300 digits) gives exactly one
    record, and each other one exactly one printed warning.  So a
    directory holding one such faulty file and N valid ones yields N
    records and one warning; the template and the files without the
    extension are passed over silently. *)
Theorem C3_load_resilience (set_iter : list str -> list str)
  (fs : FS.filesystem) (dir : str) (docs : list documents.Document) :
  set_order set_iter ->
  (resilient (controls.load_controls fs dir) (fs dir)
     (valid controls.pattern) (faulty controls.pattern) yields_control
   /\ ((exists e, snd (controls.load_controls fs dir) = Raise e)
       <-> fs dir = None))
  /\ ((names_within int_max_str_digits (fs dir) ->
       resilient (documents.load_documents fs dir) (fs dir)
         (valid documents.pattern) (faulty documents.pattern)
         yields_document)
      /\ ((exists e, snd (documents.load_documents fs dir) = Raise e)
          <-> fs dir = None \/ long_document_id (fs dir))
      /\ (names_within int_max_str_digits (fs dir) ->
          ~ long_document_id (fs dir)))
  /\ (resilient
        (selected_documents.load_selected_controls set_iter fs dir docs)
        (fs dir) (valid_selected (map documents.id docs))
        (faulty_selected (map documents.id docs))
        (yields_selected set_iter (map documents.id docs))
      /\ ((exists e,
             snd (selected_documents.load_selected_controls
                    set_iter fs dir docs) = Raise e)
          <-> fs dir = None)
      /\ (forall f text,
            FS.read f = FS.Content text ->
            (convertible (map documents.id docs) f = false
             <-> exists x,
                   In x (map documents.id docs)
                   /\ follows_pages text x /\ ~ within_int_limit x))).
Proof.
  intro Hset.
  pose proof (LoadFacts.load_controls_resilient fs dir) as Hc.
  pose proof (LoadFacts.load_selected_controls_resilient
                set_iter Hset fs dir docs) as Hs.
  split; [|split].
  - split; [assumption|].
    apply (LoadFacts.resilient_raise_iff _ _ _ _ _ _ Hc).
  - split; [apply LoadFacts.load_documents_resilient|].
    split; [apply LoadFacts.load_documents_raises|].
    intros Hnames (entries & f & i & Hdir & Hf & _ & Hm & Hl).
    rewrite Hdir in Hnames. cbn [names_within] in Hnames.
    rewrite Forall_forall in Hnames.
    apply filter_In in Hf as [Hf _]. specialize (Hnames f Hf).
    apply LoadFacts.document_id_shorter in Hm.
    apply Hl. unfold within_int_limit. lia.
  - split; [assumption|]. split.
    + apply (LoadFacts.resilient_raise_iff _ _ _ _ _ _ Hs).
    + intros f text Hread. unfold convertible. rewrite Hread.
      rewrite negb_false_iff. apply ExtractFacts.links_long_id_spec.
Qed.

Lemma C3_load_resilience_witness :
  set_order (nodup str_eq_dec)
  /\ resilient
       (controls.load_controls
          (Examples.tree Examples.controls_dir [] [])
          presenter.CONTROLS_DIR)
       (Some Examples.controls_dir)
       (valid controls.pattern) (faulty controls.pattern) yields_control
  /\ resilient
       (selected_documents.load_selected_controls (nodup str_eq_dec)
          (Examples.tree [] [] Examples.long_reports)
          presenter.SELECTED_DOCUMENTS_DIR Examples.long_documents)
       (Some Examples.long_reports)
       (valid_selected (map documents.id Examples.long_documents))
       (faulty_selected (map documents.id Examples.long_documents))
       (yields_selected (nodup str_eq_dec)
          (map documents.id Examples.long_documents))
  /\ selected_documents.load_selected_controls (nodup str_eq_dec)
       (Examples.tree [] [] Examples.long_reports)
       presenter.SELECTED_DOCUMENTS_DIR Examples.long_documents
     = ([mismatch_warning (py "notes.md");
         py "Warning: Could not read file 5.2 Roles.md: "
           ++ int_limit_text (S int_max_str_digits)],
        Return
          [selected_documents.Build_SelectedControl (py "5.1")
             (py "Policies") [py "7"]]).
Proof.
  split; [|split; [|split]].
  - exact ExtractFacts.set_order_nodup.
  - exact (proj1 (proj1 (C3_load_resilience (nodup str_eq_dec)
                           (Examples.tree Examples.controls_dir [] [])
                           presenter.CONTROLS_DIR []
                           ExtractFacts.set_order_nodup))).
  - exact (proj1 (proj2 (proj2
             (C3_load_resilience (nodup str_eq_dec)
                (Examples.tree [] [] Examples.long_reports)
                presenter.SELECTED_DOCUMENTS_DIR Examples.long_documents
                ExtractFacts.set_order_nodup)))).
  - vm_compute. reflexivity.
Defined.

(** C4 as worded fails: a document whose text has no heading line but a
    first line that is not blank is named after that line. *)
Lemma C4_fallback_naming_as_stated_fails : ~ fallback_naming_as_stated.
Proof.
  intro H.
  specialize (H (Examples.tree [] Examples.plain_document [])
                presenter.DOCUMENTS_DIR).
  vm_compute in H.
  specialize (H _ _ _ eq_refl (or_introl eq_refl) eq_refl).
  discriminate H.
Qed.

(** C4, amended.  For every reference-document file whose first line is
    blank once stripped of white space, the loaded document's name equals
    its id; when the first line is not blank and does not start with the
    heading marker, the name is that stripped line. *)
Theorem C4_fallback_naming (fs : FS.filesystem) (dir : str)
  (out : list str) (docs : list documents.Document)
  (d : documents.Document) :
  documents.load_documents fs dir = (out, Return docs) ->
  In d docs ->
  let first_line := strip (hd [] (split newline (documents.content d))) in
  (first_line = [] -> documents.name d = documents.id d)
  /\ (first_line <> [] -> startswith first_line (py "#") = false ->
      documents.name d = first_line).
Proof.
  intros Hload Hin.
  pose proof (LoadFacts.load_documents_returned fs dir out docs Hload) as Hr.
  rewrite Hload in Hr. unfold resilient in Hr.
  destruct (fs dir) as [entries|]; [|destruct Hr as [msg Hr]; discriminate].
  destruct Hr as (out' & records & [= <- <-] & _ & _ & _ & Hfrom).
  destruct (Hfrom d Hin) as (f & _ & _ & _ & _ & Hname).
  cbv zeta. rewrite Hname. unfold documents.document_name.
  destruct (split newline (documents.content d)) as [|line0 rest];
    cbn [hd].
  - split; [reflexivity | intros Hne; now destruct Hne].
  - split.
    + intros ->. reflexivity.
    + intros Hne ->. destruct (strip line0); [now destruct Hne | reflexivity].
Qed.

Lemma C4_fallback_naming_witness :
  In (documents.Build_Document (py "12") (py "12") (py ""))
     [documents.Build_Document (py "12") (py "12") (py "")]
  /\ documents.name (documents.Build_Document (py "12") (py "12") (py ""))
     = py "12".
Proof.
  split; [now left|].
  apply (C4_fallback_naming
           (Examples.tree [] [Examples.file "12.md" ""] [])
           presenter.DOCUMENTS_DIR []
           [documents.Build_Document (py "12") (py "12") (py "")]
           (documents.Build_Document (py "12") (py "12") (py ""))
           eq_refl (or_introl eq_refl)).
  reflexivity.
Defined.

Module NameFacts.
Import PatternFacts.

Lemma digits_notspace (s : str) :
  forallb isdigit s = true -> forallb notspace s = true.
Proof.
  rewrite !forallb_forall. intros H c Hc. unfold notspace.
  now rewrite (isdigit_not_isspace c (H c Hc)).
Qed.

Lemma control_id_notspace (i : str) :
  is_control_id i -> forallb notspace i = true.
Proof.
  intros (major & minor & -> & _ & Hmaj & _ & Hmin).
  rewrite !forallb_app, (digits_notspace _ Hmaj), (digits_notspace _ Hmin).
  reflexivity.
Qed.

Lemma notspace_not_blank (s : str) :
  forallb notspace s = true ->
  forallb (fun c => negb (chr_eqb c " "%char)) s = true.
Proof.
  rewrite !forallb_forall. intros H c Hc. specialize (H c Hc).
  destruct (chr_eqb c " "%char) eqn:E; [|reflexivity].
  apply chr_eqb_eq in E. subst c. discriminate H.
Qed.

Lemma firstn_length_app {A : Type} (a b : list A) :
  firstn (length a) (a ++ b) = a.
Proof.
  rewrite firstn_app, Nat.sub_diag, firstn_all. cbn [firstn].
  apply app_nil_r.
Qed.

(** The parse of a globbed name, from the shape of a match. *)
Lemma control_parse (f i n : str) :
  endswith f (py ".md") = true ->
  Re.re_match controls.pattern f = Some (i, n) ->
  i = before_first_whitespace f
  /\ (exists ws,
        ws <> [] /\ forallb isspace ws = true
        /\ f = i ++ ws ++ n ++ py ".md")
  /\ (forall c rest,
        f = i ++ " "%char :: c :: rest -> isspace c = false ->
        i = before_first_space f /\ n = between_first_space_and_md f).
Proof.
  intros Hglob Hm.
  apply control_match_shape in Hm
    as (Hid & ws & tail & Hws & Hwss & Hn & _ & Hf & Htail).
  assert (tail = []) as ->.
  { apply (glob_tail f (i ++ ws ++ n) tail Hglob); [|assumption].
    rewrite Hf, <- !app_assoc. reflexivity. }
  rewrite app_nil_r in Hf.
  pose proof (control_id_notspace i Hid) as Hi.
  split; [|split].
  - unfold before_first_whitespace. rewrite Hf.
    rewrite (span_unique notspace i (ws ++ n ++ py ".md") Hi); [reflexivity|].
    destruct ws as [|w ws]; [congruence|]. simpl in *.
    apply andb_true_iff in Hwss as [Hw _]. unfold notspace. now rewrite Hw.
  - now exists ws.
  - intros c rest Hf' Hc. rewrite Hf in Hf'.
    apply app_inv_head in Hf'.
    destruct ws as [|w ws]; [congruence|].
    injection Hf' as -> Hf'.
    destruct ws as [|w2 ws].
    + cbn [app] in Hf'.
      unfold before_first_space, between_first_space_and_md. rewrite Hf.
      rewrite (span_unique (fun c => negb (chr_eqb c " "%char)) i
                 ([" "%char] ++ n ++ py ".md") (notspace_not_blank i Hi) eq_refl).
      cbn [fst snd skipn app]. split; [reflexivity|].
      unfold len. rewrite length_app.
      change (length (py ".md")) with 3.
      rewrite Nat.add_sub. symmetry. apply firstn_length_app.
    + injection Hf' as -> _. simpl in Hwss.
      rewrite Hc in Hwss. discriminate Hwss.
Qed.

End NameFacts.

(* ================================================================== *)
(** * The white space between id and name is taken greedily *)
(* ================================================================== *)

Module GreedyFacts.
Import Re ReFacts PatternFacts NameFacts.

Lemma flat_map_nil {A B : Type} (f : A -> list B) (l : list A) (x : A) :
  flat_map f l = [] -> In x l -> f x = [].
Proof.
  induction l as [|y l IH]; cbn [flat_map]; intros H Hx; [destruct Hx|].
  apply app_eq_nil in H as [Hy H].
  destruct Hx as [<- | Hx]; [assumption | now apply IH].
Qed.

Lemma flat_map_map_cons {B : Type} (c : ascii) (K : str -> str -> list B)
  (L : list (str * str)) :
  flat_map (fun mr => K (fst mr) (snd mr))
    (map (fun mr => (c :: fst mr, snd mr)) L)
  = flat_map (fun mr => K (c :: fst mr) (snd mr)) L.
Proof.
  induction L as [|x L IH]; [reflexivity|]. cbn [map flat_map fst snd].
  now rewrite IH.
Qed.

(** The first way to go on after a greedy run: the run is the longest
    after which the rest of the pattern matches at all. *)
Lemma star_greedy_first {B : Type} (cls : ascii -> bool) (s : str) :
  forall (K : str -> str -> list B) (y : B),
    hd_error (flat_map (fun mr => K (fst mr) (snd mr)) (star_greedy cls s))
      = Some y ->
    exists m r,
      s = m ++ r /\ forallb cls m = true /\ hd_error (K m r) = Some y
      /\ (forall m2 r2,
            s = m2 ++ r2 -> forallb cls m2 = true ->
            length m < length m2 -> K m2 r2 = []).
Proof.
  induction s as [|x s IH]; intros K y H.
  - cbn [star_greedy flat_map fst snd] in H. rewrite app_nil_r in H.
    exists [], []. repeat split; try assumption.
    intros m2 r2 Hs _ Hlen. symmetry in Hs.
    apply app_eq_nil in Hs as [-> _]. cbn [length] in Hlen. lia.
  - cbn [star_greedy] in H. destruct (cls x) eqn:Ex.
    + rewrite flat_map_app, flat_map_map_cons in H.
      cbn [flat_map fst snd] in H. rewrite app_nil_r in H.
      apply hd_error_app_inv in H as [H | [Hnil H]].
      * destruct (IH (fun m r => K (x :: m) r) y H)
          as (m & r & -> & Hm & Hy & Hlong).
        exists (x :: m), r. cbn [forallb]. rewrite Ex.
        repeat split; try assumption.
        intros [|x2 m2] r2 Hs Hm2 Hlen; [cbn [length] in Hlen; lia|].
        injection Hs as -> Hs. cbn [forallb] in Hm2.
        apply andb_true_iff in Hm2 as [_ Hm2]. cbn [length] in Hlen.
        apply (Hlong m2 r2 Hs Hm2). lia.
      * exists [], (x :: s). repeat split; try assumption.
        intros [|x2 m2] r2 Hs Hm2 Hlen; [cbn [length] in Hlen; lia|].
        injection Hs as -> Hs. cbn [forallb] in Hm2.
        apply andb_true_iff in Hm2 as [_ Hm2].
        apply (flat_map_nil (fun mr => K (x2 :: fst mr) (snd mr)) _
                 (m2, r2) Hnil).
        apply In_star_greedy. now split.
    + cbn [flat_map fst snd] in H. rewrite app_nil_r in H.
      exists [], (x :: s). repeat split; try assumption.
      intros [|x2 m2] r2 Hs Hm2 Hlen; [cbn [length] in Hlen; lia|].
      injection Hs as -> _. cbn [forallb] in Hm2.
      rewrite Ex in Hm2. discriminate Hm2.
Qed.

Lemma plus_greedy_first {B : Type} (cls : ascii -> bool) (s : str)
  (K : str -> str -> list B) (y : B) :
  hd_error (flat_map (fun mr => K (fst mr) (snd mr)) (plus_greedy cls s))
    = Some y ->
  exists m r,
    s = m ++ r /\ forallb cls m = true /\ hd_error (K m r) = Some y
    /\ (forall m2 r2,
          s = m2 ++ r2 -> forallb cls m2 = true ->
          length m < length m2 -> K m2 r2 = []).
Proof.
  unfold plus_greedy. destruct s as [|x s]; [discriminate|].
  destruct (cls x) eqn:Ex; [|discriminate].
  rewrite flat_map_map_cons. intro H.
  destruct (star_greedy_first cls s (fun m r => K (x :: m) r) y H)
    as (m & r & -> & Hm & Hy & Hlong).
  exists (x :: m), r. cbn [forallb]. rewrite Ex.
  repeat split; try assumption.
  intros [|x2 m2] r2 Hs Hm2 Hlen; [cbn [length] in Hlen; lia|].
  injection Hs as -> Hs. cbn [forallb] in Hm2.
  apply andb_true_iff in Hm2 as [_ Hm2]. cbn [length] in Hlen.
  apply (Hlong m2 r2 Hs Hm2). lia.
Qed.

(** What follows the white space in the control pattern, for the id
    already read. *)
Lemma name_part_In (x n r here : str) :
  In ((x, n), r)
    ((rest <- plus_lazy notnewline ;;
      _ <- lit (py ".md") ;;
      _ <- eos ;;
      ret (x, rest))%re here)
  <-> here = n ++ py ".md" ++ r /\ n <> [] /\ forallb notnewline n = true
      /\ (r = [] \/ r = [newline]).
Proof.
  split.
  - intro H.
    apply In_bind in H as (rest & r5 & H5 & H).
    apply In_bind in H as (ext & r6 & H6 & H).
    apply In_bind in H as (u & r7 & H7 & H).
    apply In_ret in H as [[= ->] ->].
    apply In_plus_lazy in H5 as (-> & Hrest & Hrestn).
    apply In_lit in H6 as (-> & ->).
    apply In_eos in H7 as (-> & Hend).
    now repeat split.
  - intros (-> & Hn & Hnn & Hr).
    apply In_bind. exists n, (py ".md" ++ r). split.
    { apply In_plus_lazy. now repeat split. }
    apply In_bind. exists (py ".md"), r. split.
    { apply In_lit. now split. }
    apply In_bind. exists tt, r. split.
    { apply In_eos. now split. }
    apply In_ret. now split.
Qed.

(** The parsed name starts with a character that is not white space,
    unless it is one character long. *)
Lemma control_name_greedy (f i n : str) :
  re_match controls.pattern f = Some (i, n) ->
  stops isspace n \/ exists c, n = [c].
Proof.
  unfold re_match. destruct (first_match controls.pattern f)
    as [[[i' n'] r]|] eqn:E; [|discriminate].
  cbn [option_map fst]. intros [= -> ->]. unfold controls.pattern in E.
  apply first_match_bind in E as (major & r1 & _ & E).
  apply first_match_bind in E as (dot & r2 & _ & E).
  apply first_match_bind in E as (minor & r3 & _ & E).
  unfold first_match, bind at 1 in E.
  apply (plus_greedy_first isspace r3
           (fun _ here =>
              (rest <- plus_lazy notnewline ;;
               _ <- lit (py ".md") ;;
               _ <- eos ;;
               ret (major ++ dot ++ minor, rest))%re here)) in E
    as (ws & here & -> & Hws & Hy & Hlong).
  assert (Hin : In ((i, n), r)
                  ((rest <- plus_lazy notnewline ;;
                    _ <- lit (py ".md") ;;
                    _ <- eos ;;
                    ret (major ++ dot ++ minor, rest))%re here)).
  { destruct ((rest <- plus_lazy notnewline ;;
               _ <- lit (py ".md") ;;
               _ <- eos ;;
               ret (major ++ dot ++ minor, rest))%re here) as [|y l];
      [discriminate|].
    injection Hy as ->. now left. }
  assert (Hi : i = major ++ dot ++ minor).
  { apply In_bind in Hin as (rest & r5 & _ & H).
    apply In_bind in H as (ext & r6 & _ & H).
    apply In_bind in H as (u & r7 & _ & H).
    now apply In_ret in H as [[= -> _] _]. }
  subst i. apply name_part_In in Hin as (-> & Hn & Hnn & Hr).
  destruct n as [|c [|c' n]]; [congruence | right; now exists c |].
  left. cbn [stops]. destruct (isspace c) eqn:Ec; [exfalso | reflexivity].
  assert (Hnil := Hlong (ws ++ [c]) ((c' :: n) ++ py ".md" ++ r)).
  cbn beta in Hnil.
  assert (Hgo : In ((major ++ dot ++ minor, c' :: n), r)
                  ((rest <- plus_lazy notnewline ;;
                    _ <- lit (py ".md") ;;
                    _ <- eos ;;
                    ret (major ++ dot ++ minor, rest))%re
                     ((c' :: n) ++ py ".md" ++ r))).
  { apply name_part_In. split; [reflexivity|]. split; [discriminate|].
    split; [|assumption]. cbn [forallb] in Hnn.
    now apply andb_true_iff in Hnn as [_ Hnn]. }
  rewrite Hnil in Hgo; [destruct Hgo | | |].
  - now rewrite <- !app_assoc.
  - rewrite forallb_app, Hws. cbn [forallb]. now rewrite Ec.
  - rewrite length_app. cbn [length]. lia.
Qed.

Lemma span_app_all (cls : ascii -> bool) (a b : str) :
  forallb cls a = true ->
  span cls (a ++ b) = (a ++ fst (span cls b), snd (span cls b)).
Proof.
  induction a as [|x a IH]; cbn [forallb app]; intro H.
  - now destruct (span cls b).
  - apply andb_true_iff in H as [Hx Ha]. cbn [span]. rewrite Hx, (IH Ha).
    reflexivity.
Qed.

Lemma firstn_md (a : str) :
  firstn (len (a ++ py ".md") - 3) (a ++ py ".md") = a.
Proof.
  replace (len (a ++ py ".md") - 3) with (length a)
    by (unfold len; rewrite length_app;
        change (length (py ".md")) with 3; lia).
  apply firstn_length_app.
Qed.

(** The two substrings of the worded reading, for a text without a blank
    that is followed by a blank. *)
Lemma first_space_parts (i T : str) :
  forallb (fun c => negb (chr_eqb c " "%char)) i = true ->
  i = before_first_space (i ++ " "%char :: T)
  /\ between_first_space_and_md (i ++ " "%char :: T)
     = firstn (len T - 3) T.
Proof.
  intro Hi. unfold before_first_space, between_first_space_and_md.
  cbv zeta.
  rewrite (span_unique (fun c => negb (chr_eqb c " "%char)) i
             (" "%char :: T) Hi eq_refl).
  now split.
Qed.

Lemma before_goes_on (i : str) (w : ascii) (T : str) :
  forallb (fun c => negb (chr_eqb c " "%char)) i = true ->
  chr_eqb w " "%char = false ->
  i <> before_first_space (i ++ w :: T).
Proof.
  intros Hi Hw Heq. unfold before_first_space in Heq.
  rewrite (span_app_all _ i (w :: T) Hi) in Heq.
  cbn [span] in Heq. rewrite Hw in Heq. cbn [negb fst] in Heq.
  apply (f_equal (@length ascii)) in Heq.
  rewrite length_app in Heq. cbn [length] in Heq. lia.
Qed.

(** The parse of a globbed name in full. *)
Lemma control_parse_full (f i n : str) :
  endswith f (py ".md") = true ->
  re_match controls.pattern f = Some (i, n) ->
  i = before_first_whitespace f
  /\ n = name_after_whitespace f
  /\ (exists ws,
        ws <> [] /\ forallb isspace ws = true
        /\ f = i ++ ws ++ n ++ py ".md"
        /\ (stops isspace n \/ exists c, n = [c]))
  /\ ((i = before_first_space f /\ n = between_first_space_and_md f)
      <-> f = i ++ " "%char :: n ++ py ".md").
Proof.
  intros Hglob Hm.
  pose proof (control_name_greedy f i n Hm) as Hgreedy.
  destruct (control_parse f i n Hglob Hm) as (Hi & (ws & Hws & Hwss & Hf) & _).
  apply control_match_shape in Hm as (Hid & _ & _ & _ & _ & Hn & _).
  pose proof (control_id_notspace i Hid) as Hins.
  assert (Hspan : span notspace f = (i, ws ++ n ++ py ".md")).
  { rewrite Hf at 1. apply span_unique; [assumption|].
    destruct ws as [|w ws]; [congruence|]. cbn [forallb] in Hwss.
    apply andb_true_iff in Hwss as [Hw _]. cbn [app stops].
    unfold notspace. now rewrite Hw. }
  split; [assumption|]. split; [|split].
  - unfold name_after_whitespace. cbv zeta. rewrite Hspan. cbn [snd].
    replace (len (ws ++ n ++ py ".md") - 3) with (length (ws ++ n))
      by (unfold len; rewrite !length_app; cbn [length py
            list_ascii_of_string]; lia).
    rewrite app_assoc, firstn_length_app.
    destruct n as [|c n']; [congruence|].
    destruct (isspace c) eqn:Ec.
    + destruct Hgreedy as [Hstop | [c0 [= <- ->]]];
        [cbn [stops] in Hstop; congruence|].
      assert (Hall : forallb isspace (ws ++ [c]) = true)
        by (rewrite forallb_app, Hwss; cbn [forallb]; now rewrite Ec).
      pose proof (span_unique isspace (ws ++ [c]) [] Hall I) as Hsp.
      rewrite app_nil_r in Hsp. rewrite Hsp. cbn [snd].
      replace (len (ws ++ [c]) - 1) with (len ws)
        by (unfold len; rewrite length_app; cbn [length]; lia).
      symmetry. apply skipn_len_app.
    + rewrite (span_unique isspace ws (c :: n') Hwss Ec). reflexivity.
  - exists ws. now repeat split.
  - pose proof (notspace_not_blank i Hins) as Hblank. split.
    + intros [Hb Hbetween].
      destruct ws as [|w ws']; [congruence|].
      assert (Hf' : f = i ++ w :: (ws' ++ n) ++ py ".md")
        by (rewrite Hf; cbn [app]; now rewrite <- app_assoc).
      destruct (chr_eqb w " ") eqn:Ew.
      * apply chr_eqb_eq in Ew. subst w.
        destruct (first_space_parts i ((ws' ++ n) ++ py ".md") Hblank)
          as [_ Hbt].
        rewrite <- Hf', <- Hbetween, firstn_md in Hbt.
        assert (ws' = []) as ->.
        { apply (f_equal (@length ascii)) in Hbt.
          rewrite length_app in Hbt.
          destruct ws'; [reflexivity | cbn [length] in Hbt; lia]. }
        exact Hf.
      * exfalso.
        apply (before_goes_on i w ((ws' ++ n) ++ py ".md") Hblank Ew).
        now rewrite <- Hf'.
    + intro Hone.
      destruct (first_space_parts i (n ++ py ".md") Hblank) as [Hb Hbt].
      rewrite <- Hone, firstn_md in Hbt. rewrite <- Hone in Hb.
      now split.
Qed.

End GreedyFacts.

(** C8 as worded fails: after two blanks the name does not start with the
    second blank, although it lies between the first space and ".md". *)
Lemma C8_filename_parse_as_stated_fails : ~ filename_parse_as_stated.
Proof.
  intro H.
  destruct (H (py "5.1  Policies.md") (py "5.1") (py "Policies") eq_refl)
    as [_ Hn].
  vm_compute in Hn. discriminate Hn.
Qed.

(** C8, amended.  For every globbed filename that matches the control /
    selection pattern, the parsed id is the substring before the first
    white-space character, and the parsed name is what stands between the
    id and the ".md" suffix without its leading white space or, when only
    white space stands there, its last character: the filename is the id,
    then the longest possible run of white space, then the name, then
    ".md".  The id is the substring before the first space and the name
    the substring between that space and the ".md" suffix exactly when the
    id is followed by one space and then the name. *)
Theorem C8_filename_parse (f i n : str) :
  endswith f (py ".md") = true ->
  Re.re_match controls.pattern f = Some (i, n)
  \/ Re.re_match selected_documents.filename_pattern f = Some (i, n) ->
  i = before_first_whitespace f
  /\ n = name_after_whitespace f
  /\ (exists ws,
        ws <> [] /\ forallb isspace ws = true
        /\ f = i ++ ws ++ n ++ py ".md"
        /\ (stops isspace n \/ exists c, n = [c]))
  /\ ((i = before_first_space f /\ n = between_first_space_and_md f)
      <-> f = i ++ " "%char :: n ++ py ".md").
Proof.
  intros Hglob [Hm | Hm]; now apply GreedyFacts.control_parse_full.
Qed.

Lemma C8_filename_parse_witness :
  py "5.1" = before_first_whitespace (py "5.1  Policies.md")
  /\ py "Policies" = name_after_whitespace (py "5.1  Policies.md").
Proof.
  destruct (C8_filename_parse (py "5.1  Policies.md") (py "5.1")
              (py "Policies") eq_refl (or_introl eq_refl))
    as (Hi & Hn & _).
  split; assumption.
Defined.

(* ================================================================== *)
(** * The source-URL marker *)
(* ================================================================== *)

Module UrlFacts.
Import Re ReFacts document_selector_utils.

(** When the last part only builds the group, the first match is the
    first match of the part before it. *)
Lemma first_match_bind_ret {A B : Type} (p : pattern A) (g : A -> B)
  (s : str) :
  first_match (bind p (fun a => ret (g a))) s
  = option_map (fun ar => (g (fst ar), snd ar)) (first_match p s).
Proof.
  unfold first_match, bind, ret. destruct (p s) as [|[a r] l]; reflexivity.
Qed.

Lemma search_Some {A : Type} (p : pattern A) (s : str) (g : A) :
  search p s = Some g ->
  exists before here,
    s = before ++ here /\ re_match p here = Some g
    /\ (forall before' here',
          s = before' ++ here' -> length before' < length before ->
          re_match p here' = None).
Proof.
  induction s as [|c s IH]; cbn [search].
  - destruct (re_match p []) as [g'|] eqn:E; [|discriminate].
    intros [= <-]. exists [], []. repeat split; [assumption|].
    intros b h _ Hlt. simpl in Hlt. lia.
  - destruct (re_match p (c :: s)) as [g'|] eqn:E.
    + intros [= <-]. exists [], (c :: s). repeat split; [assumption|].
      intros b h _ Hlt. simpl in Hlt. lia.
    + intro H. destruct (IH H) as (before & here & -> & Hm & Hleft).
      exists (c :: before), here. repeat split; [assumption|].
      intros b h Hs Hlt. destruct b as [|c' b].
      * simpl in Hs. now subst h.
      * simpl in Hs. injection Hs as _ Hs.
        apply (Hleft b h Hs). simpl in Hlt. lia.
Qed.

Lemma search_None {A : Type} (p : pattern A) (s : str) :
  search p s = None ->
  forall before here, s = before ++ here -> re_match p here = None.
Proof.
  induction s as [|c s IH]; cbn [search].
  - destruct (re_match p []) eqn:E; [discriminate|].
    intros _ b h Hs. symmetry in Hs. apply app_eq_nil in Hs as [_ ->].
    assumption.
  - destruct (re_match p (c :: s)) eqn:E; [discriminate|].
    intros H b h Hs. destruct b as [|c' b].
    + simpl in Hs. now subst h.
    + simpl in Hs. injection Hs as _ Hs. now apply (IH H b h).
Qed.

(** What the URL pattern reports at a position is the URL after the marker
    there, taken up to the next white space. *)
Lemma url_match_sound (here u : str) :
  re_match url_pattern here = Some u ->
  exists rest, marker_at here u rest /\ stops notspace rest.
Proof.
  unfold re_match. destruct (first_match url_pattern here) as [[u' rest]|] eqn:E;
    [|discriminate].
  intros [= ->]. exists rest. unfold url_pattern in E.
  apply first_match_bind in E as (m & r1 & H1 & E).
  apply first_match_bind in E as (ws & r2 & H2 & E).
  apply first_match_bind in E as (http & r3 & H3 & E).
  apply first_match_bind in E as (s & r4 & H4 & E).
  apply first_match_bind in E as (colon & r5 & H5 & E).
  rewrite (first_match_bind_ret (plus_greedy notspace)
             (fun tail => http ++ s ++ colon ++ tail)) in E.
  rewrite hd_plus_greedy in E.
  destruct r5 as [|c r5']; [discriminate|].
  destruct (notspace c) eqn:Ec; [|discriminate].
  remember (span notspace (c :: r5')) as sp eqn:Hsp in E.
  destruct sp as [tail rest'].
  cbn [option_map fst snd] in E. injection E as <- <-.
  symmetry in Hsp. apply span_spec in Hsp as (Happ & Hall & Hstop).
  assert (Hne : tail <> []).
  { intros ->. cbn [app] in Happ. subst rest'. cbn [stops] in Hstop.
    congruence. }
  apply In_lit in H1 as (-> & ->).
  apply In_star_greedy in H2 as (-> & Hws).
  apply In_lit in H3 as (-> & ->).
  apply In_lit in H5 as (-> & ->).
  split; [|assumption].
  exists ws.
  apply In_opt in H4 as [(-> & ->) | (-> & <-)]; rewrite Happ.
  - split; [now rewrite <- !app_assoc | split; [assumption|]].
    exists tail. split; [right; reflexivity | split; assumption].
  - split; [now rewrite <- !app_assoc | split; [assumption|]].
    exists tail. split; [left; reflexivity | split; assumption].
Qed.

(** Wherever a marker is followed by a URL, the pattern reports a match. *)
Lemma url_match_complete (here u rest : str) :
  marker_at here u rest -> re_match url_pattern here <> None.
Proof.
  intros (ws & -> & Hws & tail & Hu & Hne & Htail).
  rewrite re_match_None. intro Hnil.
  assert (Hin : In (u, rest)
                  (url_pattern (py "**Source URL:**" ++ ws ++ u ++ rest))).
  { unfold url_pattern.
    apply In_bind. exists (py "**Source URL:**"), (ws ++ u ++ rest).
    split; [now apply In_lit|].
    apply In_bind. exists ws, (u ++ rest).
    split; [now apply In_star_greedy|].
    destruct Hu as [-> | ->].
    - apply In_bind. exists (py "http"), (py "://" ++ tail ++ rest).
      split; [now apply In_lit|].
      apply In_bind. exists [], (py "://" ++ tail ++ rest).
      split; [apply In_opt; now right|].
      apply In_bind. exists (py "://"), (tail ++ rest).
      split; [now apply In_lit|].
      apply In_bind. exists tail, rest.
      split; [now apply In_plus_greedy|].
      now apply In_ret.
    - apply In_bind. exists (py "http"), (py "s://" ++ tail ++ rest).
      split; [now apply In_lit|].
      apply In_bind. exists (py "s"), (py "://" ++ tail ++ rest).
      split; [apply In_opt; now left|].
      apply In_bind. exists (py "://"), (tail ++ rest).
      split; [now apply In_lit|].
      apply In_bind. exists tail, rest.
      split; [now apply In_plus_greedy|].
      now apply In_ret. }
  rewrite Hnil in Hin. destruct Hin.
Qed.

Lemma lstrip_notspace (s : str) :
  forallb notspace s = true -> lstrip_class isspace s = s.
Proof.
  destruct s as [|c s]; simpl; [reflexivity|].
  intro H. apply andb_true_iff in H as [Hc _].
  unfold notspace in Hc. apply negb_true_iff in Hc. now rewrite Hc.
Qed.

(** Stripping changes nothing in a text without white space. *)
Lemma strip_notspace (s : str) : forallb notspace s = true -> strip s = s.
Proof.
  intro H. unfold strip, rstrip_class. rewrite (lstrip_notspace s H).
  rewrite lstrip_notspace; [apply rev_involutive|].
  rewrite forallb_forall in *. intros c Hc. apply H. now apply in_rev.
Qed.

Lemma http_url_notspace (u : str) :
  is_http_url u -> u <> [] /\ forallb notspace u = true.
Proof.
  intros (tail & [-> | ->] & _ & Ht); split; try discriminate;
    rewrite forallb_app, Ht; reflexivity.
Qed.

(** The [url] entry of the metadata. *)
Lemma metadata_url (text filename : str) :
  exists u,
    dict_get (extract_document_metadata text filename) (py "url") = Some u
    /\ ((u = [] /\ no_source_url text)
        \/ (u <> [] /\ first_source_url text u)).
Proof.
  unfold extract_document_metadata. cbv zeta.
  destruct (search url_pattern text) as [g|] eqn:E.
  - exists (strip g). split; [reflexivity|]. right.
    destruct (search_Some _ _ _ E) as (before & here & Hs & Hm & Hleft).
    destruct (url_match_sound here g Hm) as (rest & Hat & Hstop).
    destruct Hat as (ws & Hhere & Hws & Hurl).
    destruct (http_url_notspace g Hurl) as [Hne Hns].
    rewrite (strip_notspace g Hns). split; [assumption|].
    exists before, here, rest. repeat split; try assumption.
    + now exists ws.
    + intros b' h' u' rest' Hs' Hlt Hat'.
      apply (url_match_complete h' u' rest' Hat').
      now apply (Hleft b' h').
  - exists []. split; [reflexivity|]. left. split; [reflexivity|].
    intros before here u rest Hs Hat.
    apply (url_match_complete here u rest Hat).
    now apply (search_None _ _ E before here).
Qed.

End UrlFacts.

(** C5 as worded fails: a document loaded from a file with a source-URL
    marker has the attributes id, name and content, and none of them holds
    the URL. *)
Lemma C5_source_url_as_stated_fails : ~ source_url_as_stated.
Proof.
  intro H.
  destruct (H (Examples.tree [] Examples.marked_document [])
              presenter.DOCUMENTS_DIR []
              [documents.Build_Document (py "7") (py "Seven")
                 (py Examples.marked_text)]
              (documents.Build_Document (py "7") (py "Seven")
                 (py Examples.marked_text))
              eq_refl (or_introl eq_refl))
    as (field & url & Hget & Hurl).
  vm_compute in Hurl. injection Hurl as <-.
  unfold documents.vars in Hget.
  cbn [dict_get documents.id documents.name documents.content] in Hget.
  repeat match type of Hget with
         | context [str_eqb ?k field] => destruct (str_eqb k field)
         end;
    vm_compute in Hget; discriminate Hget.
Qed.

(** C5, amended.  A document loaded by the reference catalog has the
    attributes id, name and content and no source-URL field.  The source
    URL is derived by [extract_document_metadata] of the selector: its
    [url] entry is the http or https URL that follows the first
    "**Source URL:**" marker of the content (after optional white space, up
    to the next white space), and the empty string when the content has no
    such marker. *)
Theorem C5_source_url :
  (forall d : documents.Document,
     keys (documents.vars d) = [py "id"; py "name"; py "content"])
  /\ (forall text filename : str,
        exists u,
          dict_get
            (document_selector_utils.extract_document_metadata text filename)
            (py "url") = Some u
          /\ ((u = [] /\ no_source_url text)
              \/ (u <> [] /\ first_source_url text u))).
Proof.
  split; [reflexivity | apply UrlFacts.metadata_url].
Qed.

(* ================================================================== *)
(** * The order of the catalogs *)
(* ================================================================== *)

Module OrderFacts.
Import SortFacts.

Lemma StronglySorted_impl_In {A : Type} (R S : A -> A -> Prop)
  (l : list A) :
  (forall a b, In a l -> In b l -> R a b -> S a b) ->
  StronglySorted R l -> StronglySorted S l.
Proof.
  intros H Hs. induction Hs as [|x l Hs IH Hx]; constructor.
  - apply IH. intros a b Ha Hb. apply H; now right.
  - rewrite Forall_forall in *. intros b Hb.
    apply H; [now left | now right | now apply Hx].
Qed.

(** The loaders return their records in ascending order of the float keys. *)
Lemma load_controls_sorted (fs : FS.filesystem) (dir : str)
  (out : list str) (cs : list controls.Control) :
  controls.load_controls fs dir = (out, Return cs) ->
  StronglySorted
    (key_le float_pair_ltb (fun x => controls.sort_key (controls.id x))) cs.
Proof.
  unfold controls.load_controls. destruct (fs dir) as [entries|];
    [|discriminate].
  destruct (fold_left controls.loop_body (FS.glob_md entries) ([], []))
    as [rs out'].
  intros [= _ H].
  apply (sort_Return_sorted _ _ float_pair_ltb float_pair_ltb_asym
           float_pair_lek_trans _ _ _ H).
Qed.

Lemma load_selected_controls_sorted (set_iter : list str -> list str)
  (fs : FS.filesystem) (dir : str) (docs : list documents.Document)
  (out : list str) (ss : list selected_documents.SelectedControl) :
  selected_documents.load_selected_controls set_iter fs dir docs
    = (out, Return ss) ->
  StronglySorted
    (key_le float_pair_ltb
       (fun x => controls.sort_key (selected_documents.id x))) ss.
Proof.
  unfold selected_documents.load_selected_controls.
  destruct (fs dir) as [entries|]; [|discriminate].
  destruct (fold_left _ (FS.glob_md entries) ([], [])) as [rs out'].
  intros [= _ H].
  apply (sort_Return_sorted _ _ float_pair_ltb float_pair_ltb_asym
           float_pair_lek_trans _ _ _ H).
Qed.

(** Below 2^53 the float key of an id is its integer pair. *)
Lemma sort_key_exact (x : str) (m n : Z) :
  id_pair x = Some (m, n) -> (m < 2 ^ 53)%Z -> (n < 2 ^ 53)%Z ->
  controls.sort_key x = Return (Finite m, Finite n).
Proof.
  unfold id_pair, controls.sort_key. intros H Hm Hn.
  destruct (split "."%char x) as [|a [|b [|c l]]]; try discriminate.
  cbn [index nth_error]. unfold float_call, float.
  destruct (int a) as [m'|]; [|discriminate].
  destruct (int b) as [n'|]; [|discriminate].
  injection H as -> ->. cbn [option_map]. unfold round_to_double.
  apply Z.ltb_lt in Hm, Hn. now rewrite Hm, Hn.
Qed.

Lemma key_le_exact (x y : str) :
  exact_id x -> exact_id y ->
  key_le float_pair_ltb controls.sort_key x y -> id_le x y.
Proof.
  intros (m & n & Hx & Hm & Hn) (m' & n' & Hy & Hm' & Hn')
         (kx & ky & Hkx & Hky & Hle).
  rewrite (sort_key_exact x m n Hx Hm Hn) in Hkx.
  rewrite (sort_key_exact y m' n' Hy Hm' Hn') in Hky.
  injection Hkx as <-. injection Hky as <-.
  exists (m, n), (m', n'). repeat split; try assumption.
  unfold lek, float_pair_ltb in Hle. unfold pair_le. cbn [fst snd] in *.
  cbn [float_eqb float_ltb] in Hle.
  destruct (Z.eqb_spec m' m) as [->|Hne].
  - apply Z.ltb_ge in Hle. right. now split.
  - apply Z.ltb_ge in Hle. left. lia.
Qed.

(** When every part of every id is below 2^53, the controls come out in
    ascending order of the integer pairs (major, minor). *)
Lemma load_controls_sorted_exact (fs : FS.filesystem) (dir : str)
  (out : list str) (cs : list controls.Control) :
  controls.load_controls fs dir = (out, Return cs) ->
  Forall (fun c => exact_id (controls.id c)) cs ->
  StronglySorted (fun a b => id_le (controls.id a) (controls.id b)) cs.
Proof.
  intros Hl Hex. apply load_controls_sorted in Hl.
  apply (StronglySorted_impl_In _ _ _ (fun a b Ha Hb Hk =>
           key_le_exact _ _ (proj1 (Forall_forall _ _) Hex a Ha)
                            (proj1 (Forall_forall _ _) Hex b Hb) Hk)).
  exact Hl.
Qed.

Lemma Permutation_length_3_inv {A : Type} (a b c : A) (l : list A) :
  Permutation l [a; b; c] ->
  l = [a; b; c] \/ l = [a; c; b] \/ l = [b; a; c]
  \/ l = [b; c; a] \/ l = [c; a; b] \/ l = [c; b; a].
Proof.
  intro H. pose proof (Permutation_length H) as Hlen.
  destruct l as [|x [|y [|z [|w l]]]]; try discriminate.
  assert (Hx : In x [a; b; c]) by (apply (Permutation_in _ H); now left).
  destruct Hx as [<- | [<- | [<- | []]]].
  - apply Permutation_cons_inv in H.
    apply Permutation_sym, Permutation_length_2_inv in H
      as [[= <- <-] | [= <- <-]]; auto.
  - pose proof (Permutation_trans H (perm_swap b a [c])) as H'.
    apply Permutation_cons_inv in H'.
    apply Permutation_sym, Permutation_length_2_inv in H'
      as [[= <- <-] | [= <- <-]]; auto 10.
  - assert (Hp : Permutation [a; b; c] (c :: [a; b])).
    { change [a; b; c] with ([a; b] ++ [c]).
      apply Permutation_sym, Permutation_cons_append. }
    apply (Permutation_trans H) in Hp.
    apply Permutation_cons_inv in Hp.
    apply Permutation_sym, Permutation_length_2_inv in Hp
      as [[= <- <-] | [= <- <-]]; auto 10.
Qed.

(** The sorting law: the ids 5.1, 5.2 and 5.10, listed by the directory in
    any order, are loaded in the order 5.1, 5.2, 5.10. *)
Lemma sorting_law (l : list FS.file) :
  Permutation l Examples.law_files ->
  exists out cs,
    controls.load_controls (Examples.tree l [] []) presenter.CONTROLS_DIR
      = (out, Return cs)
    /\ map controls.id cs = [py "5.1"; py "5.2"; py "5.10"].
Proof.
  intro H. apply Permutation_length_3_inv in H.
  destruct H as [-> | [-> | [-> | [-> | [-> | ->]]]]];
    eexists; eexists; (split; [vm_compute; reflexivity | reflexivity]).
Qed.

End OrderFacts.

(** C2 (sorting by float keys).  The controls and the selection records
    are sorted by the pair of doubles nearest to the two parts of the id.
    Two ids whose major parts are 2^53 and 2^53 + 1 get the same first
    key, so the minor parts alone decide and the record with the greater
    integer pair comes out first, for both loaders. *)
Theorem C2_float_keys_lose_integer_order :
  (exists out a b,
     controls.load_controls (Examples.tree Examples.wide_ids [] [])
       presenter.CONTROLS_DIR = (out, Return [a; b])
     /\ id_pair (controls.id a) = Some (9007199254740993, 1)%Z
     /\ id_pair (controls.id b) = Some (9007199254740992, 9)%Z
     /\ pair_lt (9007199254740992, 9)%Z (9007199254740993, 1)%Z)
  /\ (exists out a b,
        selected_documents.load_selected_controls (nodup str_eq_dec)
          (Examples.tree [] [] Examples.wide_ids)
          presenter.SELECTED_DOCUMENTS_DIR [] = (out, Return [a; b])
        /\ id_pair (selected_documents.id a) = Some (9007199254740993, 1)%Z
        /\ id_pair (selected_documents.id b) = Some (9007199254740992, 9)%Z).
Proof.
  split.
  - eexists; eexists; eexists.
    split; [vm_compute; reflexivity|].
    split; [vm_compute; reflexivity|].
    split; [vm_compute; reflexivity|].
    left. cbn [fst]. lia.
  - eexists; eexists; eexists.
    split; [vm_compute; reflexivity|].
    split; vm_compute; reflexivity.
Qed.

(* ================================================================== *)
(** * Dependence on the iteration order of the set *)
(* ================================================================== *)

Module SetOrderFacts.
Import ExtractFacts.

(** Two duplicate-free lists with the same elements, both sorted by a
    relation that is antisymmetric on these elements, are equal. *)
Lemma sorted_unique {A : Type} (R : A -> A -> Prop) (l1 : list A) :
  forall l2,
    (forall a b, In a l1 -> In b l1 -> R a b -> R b a -> a = b) ->
    StronglySorted R l1 -> StronglySorted R l2 ->
    NoDup l1 -> NoDup l2 ->
    (forall x, In x l1 <-> In x l2) ->
    l1 = l2.
Proof.
  induction l1 as [|a l1 IH]; intros l2 Hanti Hs1 Hs2 Hn1 Hn2 Hin.
  - destruct l2 as [|b l2]; [reflexivity|].
    destruct (proj2 (Hin b) (or_introl eq_refl)).
  - destruct l2 as [|b l2].
    { destruct (proj1 (Hin a) (or_introl eq_refl)). }
    apply StronglySorted_inv in Hs1 as [Hs1 Ha].
    apply StronglySorted_inv in Hs2 as [Hs2 Hb].
    rewrite Forall_forall in Ha, Hb.
    inversion Hn1 as [|? ? Hna Hn1']; subst.
    inversion Hn2 as [|? ? Hnb Hn2']; subst.
    assert (a = b) as <-.
    { destruct (proj1 (Hin a) (or_introl eq_refl)) as [Heq | Hal2];
        [now symmetry|].
      destruct (proj2 (Hin b) (or_introl eq_refl)) as [Heq | Hbl1];
        [assumption|].
      apply Hanti; [now left | now right | now apply Ha | now apply Hb]. }
    f_equal. apply IH; try assumption.
    + intros x y Hx Hy. apply Hanti; now right.
    + intro x. split; intro Hx.
      * destruct (proj1 (Hin x) (or_intror Hx)) as [<- | H]; [|assumption].
        contradiction.
      * destruct (proj2 (Hin x) (or_intror Hx)) as [<- | H]; [|assumption].
        contradiction.
Qed.

Lemma int_le_antisym (a b : str) :
  int_le a b -> int_le b a -> int a = int b.
Proof.
  intros (m & n & Ha & Hb & Hle) (n' & m' & Hb' & Ha' & Hle').
  rewrite Ha, Hb in *. injection Hb' as <-. injection Ha' as <-.
  f_equal. lia.
Qed.

(** When the known ids are within the limit of [int] and no two of them
    share an integer value, the extracted list does not depend on the
    iteration order. *)
Lemma extract_order_independent (o1 o2 : list str -> list str)
  (text : str) (known : list str) :
  set_order o1 -> set_order o2 ->
  Forall within_int_limit known -> int_injective known ->
  selected_documents.extract_document_ids_from_content o1 text known
  = selected_documents.extract_document_ids_from_content o2 text known.
Proof.
  intros H1 H2 Hshort Hinj. rewrite Forall_forall in Hshort.
  destruct (extract_spec o1 H1 text known) as (l1 & -> & Hn1 & Hs1 & Hi1);
    [intros x Hx _; now apply Hshort|].
  destruct (extract_spec o2 H2 text known) as (l2 & -> & Hn2 & Hs2 & Hi2);
    [intros x Hx _; now apply Hshort|].
  f_equal. apply (sorted_unique int_le); try assumption.
  - intros a b Ha Hb Hab Hba. apply Hinj.
    + now apply Hi1 in Ha as [Ha _].
    + now apply Hi1 in Hb as [Hb _].
    + now apply int_le_antisym.
  - intro x. now rewrite Hi1, Hi2.
Qed.

Lemma loop_order_independent (o1 o2 : list str -> list str)
  (available : list str) (files : list FS.file) :
  set_order o1 -> set_order o2 ->
  Forall within_int_limit available -> int_injective available ->
  forall st,
    fold_left (selected_documents.loop_body o1 available) files st
    = fold_left (selected_documents.loop_body o2 available) files st.
Proof.
  intros H1 H2 Hshort Hinj. induction files as [|f files IH]; intro st;
    [reflexivity|].
  cbn [fold_left]. rewrite IH. f_equal.
  unfold selected_documents.loop_body. destruct st as [rs out].
  destruct (str_eqb (lower (FS.name f)) (py "template.md")); [reflexivity|].
  destruct (Re.re_match selected_documents.filename_pattern (FS.name f))
    as [[i n]|]; [|reflexivity].
  destruct (FS.read f) as [e|t]; [reflexivity|].
  now rewrite (extract_order_independent o1 o2 t available H1 H2 Hshort
                 Hinj).
Qed.

(** The ids of the documents that [load_documents] returns are within the
    limit of [int]: the final sort has converted each of them. *)
Lemma loaded_ids_within_limit (fs : FS.filesystem) (dir : str)
  (out : list str) (docs : list documents.Document) :
  documents.load_documents fs dir = (out, Return docs) ->
  Forall within_int_limit (map documents.id docs).
Proof.
  unfold documents.load_documents. destruct (fs dir) as [entries|];
    [|discriminate].
  destruct (fold_left documents.loop_body (FS.glob_md entries) ([], []))
    as [rs o]. intros [= _ Hs].
  pose proof (SortFacts.sort_Return_perm _ _ _ _ _ _ Hs) as Hp.
  apply SortFacts.sort_Return_keys in Hs.
  apply Forall_map. apply (Permutation_Forall Hp).
  eapply Forall_impl; [|exact Hs].
  intros d [k Hk]. now apply int_call_Return in Hk.
Qed.

(** The whole run is independent of the iteration order as long as no two
    loaded documents have ids with the same integer value. *)
Lemma main_order_independent (o1 o2 : list str -> list str)
  (fs : FS.filesystem) :
  set_order o1 -> set_order o2 ->
  (forall out docs,
     documents.load_documents fs presenter.DOCUMENTS_DIR
       = (out, Return docs) ->
     int_injective (map documents.id docs)) ->
  presenter.main o1 fs = presenter.main o2 fs.
Proof.
  intros H1 H2 Hinj. unfold presenter.main.
  destruct (controls.load_controls fs presenter.CONTROLS_DIR)
    as [out1 [e|ctrls]]; [reflexivity|].
  destruct (index ctrls 0); [reflexivity|].
  destruct (documents.load_documents fs presenter.DOCUMENTS_DIR)
    as [out2 [e|docs]] eqn:Ed; [reflexivity|].
  destruct (index docs 0); [reflexivity|].
  specialize (Hinj out2 docs eq_refl).
  pose proof (loaded_ids_within_limit _ _ _ _ Ed) as Hshort.
  unfold selected_documents.load_selected_controls.
  destruct (fs presenter.SELECTED_DOCUMENTS_DIR) as [entries|];
    [|reflexivity].
  now rewrite (loop_order_independent o1 o2 (map documents.id docs)
                 (FS.glob_md entries) H1 H2 Hshort Hinj).
Qed.

Lemma set_order_reversed : set_order Examples.reversed_order.
Proof.
  intro l. unfold Examples.reversed_order. split.
  - apply NoDup_rev, NoDup_nodup.
  - intro x. rewrite <- in_rev. apply nodup_In.
Qed.

End SetOrderFacts.

(** C6 (dependence on the set order).  For two reference documents whose
    ids have the same integer value ("7" and "007") and a report that
    links to both, the final sort by integer value leaves the two ids in
    the order in which the set was iterated: two admissible iteration
    orders give two different element lists for the same files. *)
Theorem C6_set_order_changes_elements :
  set_order (nodup str_eq_dec)
  /\ set_order Examples.reversed_order
  /\ exists e1 e2,
       presenter.main (nodup str_eq_dec) Examples.padded_tree
         = ([], Return e1)
       /\ presenter.main Examples.reversed_order Examples.padded_tree
          = ([], Return e2)
       /\ e1 <> e2.
Proof.
  split; [exact ExtractFacts.set_order_nodup|].
  split; [exact SetOrderFacts.set_order_reversed|].
  eexists; eexists.
  split; [vm_compute; reflexivity|].
  split; [vm_compute; reflexivity|].
  intro H. discriminate H.
Qed.

(* ================================================================== *)
(** * Further properties of the catalogs *)
(* ================================================================== *)

Module CatalogFacts.
Import Re ReFacts SortFacts ExtractFacts PatternFacts LoadFacts.

(** A successful load: the directory exists and the result is resilient. *)
Lemma load_documents_Return (fs : FS.filesystem) (dir : str)
  (out : list str) (docs : list documents.Document) :
  documents.load_documents fs dir = (out, Return docs) ->
  exists entries,
    fs dir = Some entries
    /\ length docs
       = length (filter (valid documents.pattern) (FS.glob_md entries))
    /\ (forall f, In f (FS.glob_md entries) ->
                  valid documents.pattern f = true ->
                  exists d, In d docs /\ yields_document f d)
    /\ (forall d, In d docs ->
                  exists f, In f (FS.glob_md entries)
                            /\ valid documents.pattern f = true
                            /\ yields_document f d).
Proof.
  intro Hload.
  pose proof (load_documents_returned fs dir out docs Hload) as Hr.
  rewrite Hload in Hr. unfold resilient in Hr.
  destruct (fs dir) as [entries|]; [|destruct Hr as [msg Hr]; discriminate].
  destruct Hr as (out' & records & [= <- <-] & Hl & _ & Hin & Hfrom).
  exists entries. repeat split; assumption.
Qed.

Lemma load_controls_Return (fs : FS.filesystem) (dir : str)
  (out : list str) (cs : list controls.Control) :
  controls.load_controls fs dir = (out, Return cs) ->
  exists entries,
    fs dir = Some entries
    /\ (forall f, In f (FS.glob_md entries) ->
                  valid controls.pattern f = true ->
                  exists c, In c cs /\ yields_control f c)
    /\ (forall c, In c cs ->
                  exists f, In f (FS.glob_md entries)
                            /\ valid controls.pattern f = true
                            /\ yields_control f c).
Proof.
  intro Hload. pose proof (load_controls_resilient fs dir) as Hr.
  rewrite Hload in Hr. unfold resilient in Hr.
  destruct (fs dir) as [entries|]; [|destruct Hr as [msg Hr]; discriminate].
  destruct Hr as (out' & records & [= <- <-] & _ & _ & Hin & Hfrom).
  exists entries. repeat split; assumption.
Qed.

Lemma load_selected_Return (set_iter : list str -> list str)
  (Hset : set_order set_iter) (fs : FS.filesystem) (dir : str)
  (docs : list documents.Document) (out : list str)
  (ss : list selected_documents.SelectedControl) :
  selected_documents.load_selected_controls set_iter fs dir docs
    = (out, Return ss) ->
  forall s, In s ss ->
    exists f, yields_selected set_iter (map documents.id docs) f s.
Proof.
  intro Hload.
  pose proof (load_selected_controls_resilient set_iter Hset fs dir docs)
    as Hr.
  rewrite Hload in Hr. unfold resilient in Hr.
  destruct (fs dir) as [entries|]; [|destruct Hr as [msg Hr]; discriminate].
  destruct Hr as (out' & records & [= <- <-] & _ & _ & _ & Hfrom).
  intros s Hs. destruct (Hfrom s Hs) as (f & _ & _ & Hy). now exists f.
Qed.

(** The name of a globbed document file is its id followed by ".md". *)
Lemma yields_document_name (f : FS.file) (d : documents.Document) :
  endswith (FS.name f) (py ".md") = true ->
  yields_document f d ->
  f = FS.Build_file (documents.id d ++ py ".md")
        (FS.Content (documents.content d))
  /\ documents.id d <> [] /\ forallb isdigit (documents.id d) = true.
Proof.
  intros Hglob (Hm & Hread & _).
  apply document_match_shape in Hm as (Hn & Hd & tail & Hf & Htail).
  assert (tail = []) as ->
    by (apply (glob_tail (FS.name f) (documents.id d) tail Hglob Hf Htail)).
  rewrite app_nil_r in Hf. destruct f as [fname fread]. simpl in *.
  subst. repeat split; assumption.
Qed.

Lemma glob_md_In (entries : list FS.file) (f : FS.file) :
  In f (FS.glob_md entries) <->
  In f entries /\ endswith (FS.name f) (py ".md") = true.
Proof. unfold FS.glob_md. apply filter_In. Qed.

Lemma NoDup_map_filter {A B : Type} (g : A -> B) (p : A -> bool)
  (l : list A) :
  NoDup (map g l) -> NoDup (map g (filter p l)).
Proof.
  induction l as [|x l IH]; simpl; intro H; [constructor|].
  inversion H as [|? ? Hx Hl]; subst. destruct (p x); [|now apply IH].
  simpl. constructor; [|now apply IH].
  intro Hin. apply Hx. apply in_map_iff in Hin as (y & Hy & Hyin).
  apply in_map_iff. exists y. split; [assumption|].
  now apply filter_In in Hyin as [Hyin _].
Qed.

(** The document pattern accepts every "<digits>.md". *)
Lemma document_pattern_complete (i : str) :
  i <> [] -> forallb isdigit i = true ->
  re_match documents.pattern (i ++ py ".md") = Some i.
Proof.
  intros Hn Hd.
  destruct (re_match documents.pattern (i ++ py ".md")) as [x|] eqn:E.
  - pose proof E as E'.
    apply document_match_shape in E' as (Hxn & Hxd & tail & Hf & _).
    f_equal.
    assert (Hs1 : span isdigit (i ++ py ".md") = (i, py ".md"))
      by (apply span_unique; [assumption | reflexivity]).
    assert (Hs2 : span isdigit (i ++ py ".md") = (x, py ".md" ++ tail))
      by (rewrite Hf; apply span_unique; [assumption | reflexivity]).
    rewrite Hs1 in Hs2. now injection Hs2 as ->.
  - apply re_match_None in E. exfalso.
    assert (Hin : In (i, []) (documents.pattern (i ++ py ".md"))).
    { unfold documents.pattern.
      apply In_bind. exists i, (py ".md").
      split; [now apply In_plus_greedy|].
      apply In_bind. exists (py ".md"), [].
      split; [now apply In_lit|].
      apply In_bind. exists tt, [].
      split; [apply In_eos; auto|].
      now apply In_ret. }
    rewrite E in Hin. destruct Hin.
Qed.

Lemma get_document_by_id_In (docs : list documents.Document) (i : str)
  (d : documents.Document) :
  documents.get_document_by_id docs i = Some d ->
  In d docs /\ documents.id d = i.
Proof.
  induction docs as [|x docs IH]; simpl; [discriminate|].
  destruct (str_eqb (documents.id x) i) eqn:E.
  - intros [= <-]. apply str_eqb_eq in E. split; [now left | assumption].
  - intro H. destruct (IH H) as [Hin Hid]. split; [now right | assumption].
Qed.

Lemma get_document_by_id_NoDup (docs : list documents.Document)
  (d : documents.Document) :
  NoDup (map documents.id docs) -> In d docs ->
  documents.get_document_by_id docs (documents.id d) = Some d.
Proof.
  induction docs as [|x docs IH]; simpl; intros Hnd Hin; [destruct Hin|].
  inversion Hnd as [|? ? Hx Hnd']; subst.
  destruct (str_eqb (documents.id x) (documents.id d)) eqn:E.
  - destruct Hin as [-> | Hin]; [reflexivity|].
    apply str_eqb_eq in E. exfalso. apply Hx. rewrite E.
    now apply in_map.
  - destruct Hin as [-> | Hin]; [now rewrite str_eqb_refl in E|].
    now apply IH.
Qed.

Lemma get_control_by_id_Some (cs : list controls.Control) (i : str) :
  (exists c, In c cs /\ controls.id c = i) <->
  (exists c, controls.get_control_by_id cs i = Some c /\ controls.id c = i).
Proof.
  induction cs as [|x cs IH]; simpl.
  - split; [intros (c & [] & _) | intros (c & H & _); discriminate].
  - destruct (str_eqb (controls.id x) i) eqn:E.
    + apply str_eqb_eq in E. split; intros _; exists x; auto.
    + apply str_eqb_neq in E. rewrite <- IH. split.
      * intros (c & [<- | Hc] & Hid); [contradiction | now exists c].
      * intros (c & Hc & Hid). exists c. auto.
Qed.

(** The documents come out in ascending order of the integer of the id. *)
Lemma load_documents_sorted (fs : FS.filesystem) (dir : str)
  (out : list str) (docs : list documents.Document) :
  documents.load_documents fs dir = (out, Return docs) ->
  StronglySorted
    (fun a b => int_le (documents.id a) (documents.id b)) docs.
Proof.
  unfold documents.load_documents. destruct (fs dir) as [entries|];
    [|discriminate].
  destruct (fold_left documents.loop_body (FS.glob_md entries) ([], []))
    as [rs out'].
  intros [= _ H].
  apply (sort_Return_sorted _ _ Z.ltb Zltb_asym Zlek_trans) in H.
  apply (StronglySorted_impl _ _ _
           (fun a b Hk => key_le_int_le (documents.id a) (documents.id b) Hk)).
  exact H.
Qed.

End CatalogFacts.

(** X1.  When [load_documents] returns, the documents are in ascending
    order of the integer value of their ids, and every id is a non-empty
    run of digits. *)
Theorem X1_documents_sorted_by_integer_id (fs : FS.filesystem) (dir : str)
  (out : list str) (docs : list documents.Document) :
  documents.load_documents fs dir = (out, Return docs) ->
  StronglySorted
    (fun a b => int_le (documents.id a) (documents.id b)) docs
  /\ Forall (fun d => documents.id d <> []
                      /\ forallb isdigit (documents.id d) = true) docs.
Proof.
  intro Hload. split; [now apply (CatalogFacts.load_documents_sorted fs dir out)|].
  destruct (CatalogFacts.load_documents_Return fs dir out docs Hload)
    as (entries & _ & _ & _ & Hfrom).
  apply Forall_forall. intros d Hd.
  destruct (Hfrom d Hd) as (f & _ & _ & Hm & _).
  apply PatternFacts.document_match_shape in Hm as (Hn & Hdig & _).
  now split.
Qed.

Lemma X1_documents_sorted_by_integer_id_witness :
  StronglySorted
    (fun a b => int_le (documents.id a) (documents.id b))
    [documents.Build_Document (py "7") (py "Seven") (py "# Seven");
     documents.Build_Document (py "12") (py "12") (py "")].
Proof.
  exact (proj1 (X1_documents_sorted_by_integer_id
                  (Examples.tree []
                     [Examples.file "12.md" ""; Examples.file "7.md" "# Seven"]
                     [])
                  presenter.DOCUMENTS_DIR [] _ eq_refl)).
Defined.

Module LookupFacts.
Import CatalogFacts.

(** With distinct entry names the loaded ids are distinct and each
    document is the record of its file. *)
Lemma load_documents_records (fs : FS.filesystem) (dir : str)
  (entries : list FS.file) (out : list str)
  (docs : list documents.Document) :
  fs dir = Some entries ->
  NoDup (map FS.name entries) ->
  documents.load_documents fs dir = (out, Return docs) ->
  NoDup (map documents.id docs)
  /\ (forall d, In d docs ->
        In (FS.Build_file (documents.id d ++ py ".md")
              (FS.Content (documents.content d))) entries
        /\ documents.name d
           = documents.document_name (documents.content d) (documents.id d)).
Proof.
  intros Hdir Hnd Hload.
  destruct (load_documents_Return fs dir out docs Hload)
    as (entries' & Hdir' & Hlen & Hin & Hfrom).
  rewrite Hdir in Hdir'. injection Hdir' as <-.
  assert (Hfile : forall d, In d docs ->
            In (FS.Build_file (documents.id d ++ py ".md")
                  (FS.Content (documents.content d))) entries
            /\ documents.name d
               = documents.document_name (documents.content d)
                   (documents.id d)).
  { intros d Hd. destruct (Hfrom d Hd) as (f & Hf & _ & Hy).
    apply glob_md_In in Hf as [Hf Hglob].
    destruct (yields_document_name f d Hglob Hy) as (<- & _).
    split; [assumption | apply Hy]. }
  split; [|exact Hfile].
  apply (NoDup_map_inv (fun i => i ++ py ".md")). rewrite map_map.
  apply (NoDup_incl_NoDup
           (l := map FS.name
                   (filter (valid documents.pattern) (FS.glob_md entries)))).
  - apply NoDup_map_filter.
    unfold FS.glob_md. now apply NoDup_map_filter.
  - rewrite !length_map. lia.
  - intros n Hn. apply in_map_iff in Hn as (f & <- & Hf).
    apply filter_In in Hf as [Hf Hv].
    destruct (Hin f Hf Hv) as (d & Hd & Hy).
    apply glob_md_In in Hf as [_ Hglob].
    destruct (yields_document_name f d Hglob Hy) as (-> & _).
    apply in_map_iff. now exists d.
Qed.

End LookupFacts.

(** X2.  When the entries of the directory have distinct names, the ids
    of the loaded documents are distinct, and every loaded document is the
    record of the file named "<id>.md", with that file's text as content. *)
Theorem X2_document_ids_unique (fs : FS.filesystem) (dir : str)
  (entries : list FS.file) (out : list str)
  (docs : list documents.Document) :
  fs dir = Some entries ->
  NoDup (map FS.name entries) ->
  documents.load_documents fs dir = (out, Return docs) ->
  NoDup (map documents.id docs)
  /\ (forall d, In d docs ->
        In (FS.Build_file (documents.id d ++ py ".md")
              (FS.Content (documents.content d))) entries
        /\ documents.name d
           = documents.document_name (documents.content d) (documents.id d)).
Proof. apply LookupFacts.load_documents_records. Qed.

Lemma X2_document_ids_unique_witness :
  NoDup [py "7"; py "007"].
Proof.
  exact (proj1 (X2_document_ids_unique Examples.padded_tree
                  presenter.DOCUMENTS_DIR
                  [Examples.file "7.md" "# Seven";
                   Examples.file "007.md" "# Padded seven"] []
                  [documents.Build_Document (py "7") (py "Seven")
                     (py "# Seven");
                   documents.Build_Document (py "007") (py "Padded seven")
                     (py "# Padded seven")]
                  eq_refl
                  ltac:(repeat constructor; simpl; intuition discriminate)
                  eq_refl)).
Defined.

Module GraphFacts.
Import CatalogFacts ExtractFacts.

(** What every loaded selection record carries. *)
Lemma selected_invariant (set_iter : list str -> list str)
  (Hset : set_order set_iter) (fs : FS.filesystem) (dir : str)
  (docs : list documents.Document) (out : list str)
  (ss : list selected_documents.SelectedControl) :
  selected_documents.load_selected_controls set_iter fs dir docs
    = (out, Return ss) ->
  forall s, In s ss ->
    NoDup (selected_documents.relevant_document_ids s)
    /\ StronglySorted int_le (selected_documents.relevant_document_ids s)
    /\ (forall x, In x (selected_documents.relevant_document_ids s) ->
                  exists d, In d docs /\ documents.id d = x).
Proof.
  intros Hload s Hs.
  destruct (load_selected_Return set_iter Hset fs dir docs out ss Hload s Hs)
    as (f & _ & text & _ & He).
  destruct (extract_Return set_iter Hset text (map documents.id docs) _ He)
    as (Hnd & Hsorted & Hin).
  repeat split; try assumption.
  intros x Hx. apply Hin in Hx as [Hx _].
  apply in_map_iff in Hx as (d & Hid & Hd). now exists d.
Qed.

Lemma lower_t_not_digit (c : ascii) :
  lower_char c = "t"%char -> isdigit c = false.
Proof.
  destruct c as [[] [] [] [] [] [] [] []]; vm_compute; congruence.
Qed.

(** A name that lower-cases to the template name does not start with a
    digit, so the filename pattern rejects it. *)
Lemma template_not_well_named (name : str) :
  lower name = py "template.md" ->
  Re.re_match controls.pattern name = None.
Proof.
  intro H. destruct name as [|c r]; [discriminate|].
  injection H as Hc _. apply lower_t_not_digit in Hc.
  unfold Re.re_match, Re.first_match, controls.pattern, Re.bind,
    Re.plus_greedy. now rewrite Hc.
Qed.

End GraphFacts.

(** X3.  Look-up after load, documents.  When the entries of the
    directory have distinct names, [get_document_by_id] on the loaded
    catalog returns, for the id of every readable file "<digits>.md", the
    record built from that very file, and [None] for an id that no entry
    "<id>.md" carries. *)
Theorem X3_document_lookup_after_load (fs : FS.filesystem) (dir : str)
  (entries : list FS.file) (out : list str)
  (docs : list documents.Document) (i t : str) :
  fs dir = Some entries ->
  NoDup (map FS.name entries) ->
  documents.load_documents fs dir = (out, Return docs) ->
  (i <> [] -> forallb isdigit i = true ->
   In (FS.Build_file (i ++ py ".md") (FS.Content t)) entries ->
   documents.get_document_by_id docs i
   = Some (documents.Build_Document i (documents.document_name t i) t))
  /\ ((forall f, In f entries -> FS.name f <> i ++ py ".md") ->
      documents.get_document_by_id docs i = None).
Proof.
  intros Hdir Hnd Hload.
  destruct (LookupFacts.load_documents_records fs dir entries out docs
              Hdir Hnd Hload) as [Hids Hfile].
  split.
  - intros Hn Hd Hf.
    destruct (CatalogFacts.load_documents_Return fs dir out docs Hload)
      as (entries' & Hdir' & _ & Hin & _).
    rewrite Hdir in Hdir'. injection Hdir' as <-.
    set (f := FS.Build_file (i ++ py ".md") (FS.Content t)) in *.
    assert (Hm : Re.re_match documents.pattern (FS.name f) = Some i)
      by (apply CatalogFacts.document_pattern_complete; assumption).
    destruct (Hin f) as (d & Hdin & Hm' & Hread & Hname).
    + apply CatalogFacts.glob_md_In. split; [assumption|].
      apply endswith_spec. now exists i.
    + unfold valid, well_named, readable. now rewrite Hm.
    + rewrite Hm in Hm'. injection Hm' as Hid.
      simpl in Hread. injection Hread as Hcontent.
      destruct d as [di dn dc]. simpl in *. subst di dc dn.
      apply (CatalogFacts.get_document_by_id_NoDup docs
               (documents.Build_Document i (documents.document_name t i) t)
               Hids Hdin).
  - intro Hnone.
    destruct (documents.get_document_by_id docs i) as [d|] eqn:E;
      [|reflexivity].
    apply CatalogFacts.get_document_by_id_In in E as [Hd Hid].
    destruct (Hfile d Hd) as [Hf _]. subst i.
    now destruct (Hnone _ Hf).
Qed.

Lemma X3_document_lookup_after_load_witness :
  documents.get_document_by_id
    [documents.Build_Document (py "7") (py "Seven") (py "# Seven");
     documents.Build_Document (py "007") (py "Padded seven")
       (py "# Padded seven")]
    (py "007")
  = Some (documents.Build_Document (py "007")
            (documents.document_name (py "# Padded seven") (py "007"))
            (py "# Padded seven")).
Proof.
  apply (proj1 (X3_document_lookup_after_load Examples.padded_tree
                  presenter.DOCUMENTS_DIR
                  [Examples.file "7.md" "# Seven";
                   Examples.file "007.md" "# Padded seven"] []
                  [documents.Build_Document (py "7") (py "Seven")
                     (py "# Seven");
                   documents.Build_Document (py "007") (py "Padded seven")
                     (py "# Padded seven")]
                  (py "007") (py "# Padded seven")
                  eq_refl
                  ltac:(repeat constructor; simpl; intuition discriminate)
                  eq_refl)).
  - discriminate.
  - reflexivity.
  - right. now left.
Defined.

(** X4.  Look-up after load, controls.  On the loaded catalog
    [get_control_by_id] finds a control with the requested id exactly when
    some readable file that the glob yields has a name that the control
    pattern parses to that id. *)
Theorem X4_control_lookup_after_load (fs : FS.filesystem) (dir : str)
  (out : list str) (cs : list controls.Control) (i : str) :
  controls.load_controls fs dir = (out, Return cs) ->
  ((exists c, controls.get_control_by_id cs i = Some c /\ controls.id c = i)
   <->
   (exists entries f n text,
      fs dir = Some entries /\ In f entries
      /\ endswith (FS.name f) (py ".md") = true
      /\ Re.re_match controls.pattern (FS.name f) = Some (i, n)
      /\ FS.read f = FS.Content text)).
Proof.
  intro Hload.
  destruct (CatalogFacts.load_controls_Return fs dir out cs Hload)
    as (entries & Hdir & Hin & Hfrom).
  rewrite <- CatalogFacts.get_control_by_id_Some. split.
  - intros (c & Hc & <-). destruct (Hfrom c Hc) as (f & Hf & _ & Hm & Hread).
    apply CatalogFacts.glob_md_In in Hf as [Hf Hglob].
    now exists entries, f, (controls.name c), (controls.content c).
  - intros (entries' & f & n & text & Hdir' & Hf & Hglob & Hm & Hread).
    rewrite Hdir in Hdir'. injection Hdir' as <-.
    destruct (Hin f) as (c & Hc & Hm' & _).
    + now apply CatalogFacts.glob_md_In.
    + unfold valid, well_named, readable. now rewrite Hm, Hread.
    + rewrite Hm in Hm'. injection Hm' as Hid _. now exists c.
Qed.

Lemma X4_control_lookup_after_load_witness :
  exists c,
    controls.get_control_by_id
      [controls.Build_Control (py "5.1") (py "Policies") (py "a");
       controls.Build_Control (py "5.2") (py "Roles") (py "b");
       controls.Build_Control (py "5.10") (py "Threat intelligence") (py "c")]
      (py "5.10") = Some c
    /\ controls.id c = py "5.10".
Proof.
  refine (proj2 (X4_control_lookup_after_load
                   (Examples.tree Examples.controls_dir [] [])
                   presenter.CONTROLS_DIR
                   (fst (controls.load_controls
                           (Examples.tree Examples.controls_dir [] [])
                           presenter.CONTROLS_DIR))
                   _ (py "5.10") _) _);
    [vm_compute; reflexivity|].
  exists Examples.controls_dir,
    (Examples.file "5.10 Threat intelligence.md" "c"),
    (py "Threat intelligence"), (py "c").
  repeat split; try reflexivity. now left.
Defined.

(** X5.  For every record that [load_selected_controls] returns, the list
    of relevant document ids has no duplicates, is in ascending order of
    integer value, and holds only ids of the documents it was given. *)
Theorem X5_relevant_ids_invariant (set_iter : list str -> list str)
  (fs : FS.filesystem) (dir : str) (docs : list documents.Document)
  (out : list str) (ss : list selected_documents.SelectedControl) :
  set_order set_iter ->
  selected_documents.load_selected_controls set_iter fs dir docs
    = (out, Return ss) ->
  Forall
    (fun s =>
       NoDup (selected_documents.relevant_document_ids s)
       /\ StronglySorted int_le (selected_documents.relevant_document_ids s)
       /\ (forall x, In x (selected_documents.relevant_document_ids s) ->
                     exists d, In d docs /\ documents.id d = x))
    ss.
Proof.
  intros Hset Hload. apply Forall_forall.
  apply (GraphFacts.selected_invariant set_iter Hset fs dir docs out ss Hload).
Qed.

Lemma X5_relevant_ids_invariant_witness :
  Forall
    (fun s =>
       NoDup (selected_documents.relevant_document_ids s)
       /\ StronglySorted int_le (selected_documents.relevant_document_ids s)
       /\ (forall x, In x (selected_documents.relevant_document_ids s) ->
                     exists d,
                       In d Examples.three_documents
                       /\ documents.id d = x))
    [selected_documents.Build_SelectedControl (py "5.1") (py "Policies")
       [py "7"; py "100"];
     selected_documents.Build_SelectedControl (py "5.2") (py "Roles")
       [py "12"];
     selected_documents.Build_SelectedControl (py "5.10")
       (py "Threat intelligence") [py "7"; py "12"; py "100"]].
Proof.
  refine (X5_relevant_ids_invariant (nodup str_eq_dec)
            (Examples.tree [] [] Examples.three_reports)
            presenter.SELECTED_DOCUMENTS_DIR Examples.three_documents
            [] _ ExtractFacts.set_order_nodup _).
  vm_compute. reflexivity.
Defined.

(** X6.  In the element list that [main] hands on, the target of every
    edge is the id of a document node of the same list: no edge points to
    a document that was not loaded. *)
Theorem X6_edge_targets_are_document_nodes
  (set_iter : list str -> list str) (fs : FS.filesystem)
  (out : list str) (elements : list pyval) (source target : str) :
  set_order set_iter ->
  presenter.main set_iter fs = (out, Return elements) ->
  In (edge source target) elements ->
  exists d, documents.id d = target /\ In (document_node d) elements.
Proof.
  intros Hset Hmain Hedge. unfold presenter.main in Hmain.
  destruct (controls.load_controls fs presenter.CONTROLS_DIR)
    as [out1 [e|ctrls]]; [discriminate|].
  destruct (index ctrls 0); [discriminate|].
  destruct (documents.load_documents fs presenter.DOCUMENTS_DIR)
    as [out2 [e|docs]]; [discriminate|].
  destruct (index docs 0); [discriminate|].
  destruct (selected_documents.load_selected_controls set_iter fs
              presenter.SELECTED_DOCUMENTS_DIR docs)
    as [out3 [e|sel]] eqn:Es; [discriminate|].
  destruct (index sel 2); [discriminate|].
  injection Hmain as _ <-.
  rewrite AssembleFacts.create_elements_segments in *.
  apply in_app_or in Hedge as [Hc | Hedge].
  { apply in_map_iff in Hc as (c & Hc & _).
    cbv [control_node edge py list_ascii_of_string] in Hc. discriminate Hc. }
  apply in_app_or in Hedge as [Hd | Hedge].
  { apply in_map_iff in Hd as (d & Hd & _).
    cbv [document_node edge] in Hd. discriminate Hd. }
  apply in_flat_map in Hedge as (s & Hs & Hedge).
  apply in_map_iff in Hedge as (x & Hx & Hxin).
  injection Hx as _ ->.
  destruct (GraphFacts.selected_invariant set_iter Hset fs
              presenter.SELECTED_DOCUMENTS_DIR docs out3 sel Es s Hs)
    as (_ & _ & Hknown).
  destruct (Hknown target Hxin) as (d & Hd & Hid).
  exists d. split; [assumption|].
  apply in_or_app. right. apply in_or_app. left. now apply in_map.
Qed.

Lemma X6_edge_targets_are_document_nodes_witness :
  exists d,
    documents.id d = py "007"
    /\ In (document_node d)
         (presenter.create_elements
            [controls.Build_Control (py "5.1") (py "Policies") (py "a")]
            [documents.Build_Document (py "7") (py "Seven") (py "# Seven");
             documents.Build_Document (py "007") (py "Padded seven")
               (py "# Padded seven")]
            [selected_documents.Build_SelectedControl (py "5.1")
               (py "Policies") [py "7"; py "007"];
             selected_documents.Build_SelectedControl (py "5.2")
               (py "Roles") [];
             selected_documents.Build_SelectedControl (py "5.3")
               (py "Duties") []]).
Proof.
  apply (X6_edge_targets_are_document_nodes (nodup str_eq_dec)
           Examples.padded_tree [] _ (py "5.1") (py "007")
           ExtractFacts.set_order_nodup eq_refl).
  vm_compute. right. right. right. right. now left.
Defined.

Module TemplateFacts.
Import LoadFacts.

(** What is printed stays printed, and the control loop prints the
    mismatch warning for every file that the pattern does not parse. *)
Lemma controls_loop_keeps (files : list FS.file) :
  forall st w,
    In w (snd st) -> In w (snd (fold_left controls.loop_body files st)).
Proof.
  induction files as [|f files IH]; intros [rs out] w Hw; [assumption|].
  cbn [fold_left]. apply IH.
  destruct (controls_step rs out f)
    as [(_ & _ & r & _ & ->) | [(_ & _ & w' & ->) | (_ & _ & ->)]];
    cbn [snd] in *; try assumption.
  apply in_or_app. now left.
Qed.

Lemma controls_loop_warns (files : list FS.file) (f : FS.file) :
  In f files -> Re.re_match controls.pattern (FS.name f) = None ->
  forall st,
    In (mismatch_warning (FS.name f))
      (snd (fold_left controls.loop_body files st)).
Proof.
  intros Hf Hm. induction files as [|g files IH]; [destruct Hf|].
  intros [rs out]. cbn [fold_left]. destruct Hf as [-> | Hf].
  - apply controls_loop_keeps. unfold controls.loop_body. rewrite Hm.
    cbn [snd]. apply in_or_app. right. now left.
  - now apply IH.
Qed.

Lemma mismatch_warning_inj (a b : str) :
  mismatch_warning a = mismatch_warning b -> a = b.
Proof.
  unfold mismatch_warning. intro H. apply app_inv_head in H.
  now apply app_inv_tail in H.
Qed.

Lemma read_warning_differs (a e b : str) :
  py "Warning: Could not read file " ++ a ++ py ": " ++ e
  <> mismatch_warning b.
Proof. unfold mismatch_warning. intro H. discriminate H. Qed.

(** The selection loop never prints the mismatch warning for a template
    name. *)
Lemma selected_loop_silent (set_iter : list str -> list str)
  (available : list str) (name : str) (files : list FS.file) :
  lower name = py "template.md" ->
  forall st,
    ~ In (mismatch_warning name) (snd st) ->
    ~ In (mismatch_warning name)
        (snd (fold_left (selected_documents.loop_body set_iter available)
                files st)).
Proof.
  intro Hname. induction files as [|f files IH]; intros [rs out] Hout;
    [assumption|].
  cbn [fold_left]. apply IH. cbn [snd] in Hout.
  unfold selected_documents.loop_body.
  destruct (str_eqb (lower (FS.name f)) (py "template.md")) eqn:Et;
    [assumption|].
  destruct (Re.re_match selected_documents.filename_pattern (FS.name f))
    as [[i n]|].
  - destruct (FS.read f) as [e|t].
    + cbn [snd]. intro H. apply in_app_or in H as [H | [H | []]];
        [contradiction|]. now apply read_warning_differs in H.
    + destruct (selected_documents.extract_document_ids_from_content
                  set_iter t available) as [e|ids]; [|assumption].
      cbn [snd]. intro H. apply in_app_or in H as [H | [H | []]];
        [contradiction|]. now apply read_warning_differs in H.
  - cbn [negb snd]. intro H. apply in_app_or in H as [H | [H | []]];
      [contradiction|].
    apply mismatch_warning_inj in H. rewrite H, Hname in Et.
    discriminate Et.
Qed.

End TemplateFacts.

(** X7.  A file whose name lower-cases to "template.md" never matches the
    control / selection filename pattern, so neither loader builds a
    record from it.  When such a file is in the directory and the glob
    "*.md" yields it, the control loader, which has no guard for it,
    prints the mismatch warning for it, and the selection loader prints
    no such warning. *)
Theorem X7_template_is_never_a_record (set_iter : list str -> list str)
  (fs : FS.filesystem) (dir : str) (entries : list FS.file)
  (docs : list documents.Document) (f : FS.file) :
  fs dir = Some entries -> In f entries ->
  endswith (FS.name f) (py ".md") = true ->
  is_template f = true ->
  Re.re_match controls.pattern (FS.name f) = None
  /\ Re.re_match selected_documents.filename_pattern (FS.name f) = None
  /\ In (mismatch_warning (FS.name f)) (fst (controls.load_controls fs dir))
  /\ ~ In (mismatch_warning (FS.name f))
        (fst (selected_documents.load_selected_controls
                set_iter fs dir docs)).
Proof.
  intros Hdir Hf Hglob Ht. unfold is_template in Ht.
  apply str_eqb_eq in Ht.
  pose proof (GraphFacts.template_not_well_named (FS.name f) Ht) as Hm.
  split; [exact Hm|]. split; [exact Hm|].
  assert (Hin : In f (FS.glob_md entries))
    by now apply CatalogFacts.glob_md_In.
  split.
  - unfold controls.load_controls. rewrite Hdir.
    pose proof (TemplateFacts.controls_loop_warns _ f Hin Hm ([], []))
      as Hw.
    destruct (fold_left controls.loop_body (FS.glob_md entries) ([], []))
      as [rs out]. exact Hw.
  - unfold selected_documents.load_selected_controls. rewrite Hdir.
    pose proof (TemplateFacts.selected_loop_silent set_iter
                  (map documents.id docs) (FS.name f)
                  (FS.glob_md entries) Ht ([], [])
                  (fun H : In _ [] => H)) as Hs.
    destruct (fold_left
                (selected_documents.loop_body set_iter
                   (map documents.id docs))
                (FS.glob_md entries) ([], [])) as [rs out]. exact Hs.
Qed.

Lemma X7_template_is_never_a_record_witness :
  In (mismatch_warning (py "Template.md"))
    (fst (controls.load_controls
            (Examples.tree Examples.with_template [] [])
            presenter.CONTROLS_DIR))
  /\ ~ In (mismatch_warning (py "Template.md"))
        (fst (selected_documents.load_selected_controls (nodup str_eq_dec)
                (Examples.tree Examples.with_template [] [])
                presenter.CONTROLS_DIR [])).
Proof.
  exact (proj2 (proj2
           (X7_template_is_never_a_record (nodup str_eq_dec)
              (Examples.tree Examples.with_template [] [])
              presenter.CONTROLS_DIR Examples.with_template []
              (Examples.file "Template.md" "# Control")
              eq_refl (or_introl eq_refl) eq_refl eq_refl))).
Defined.

(* ================================================================== *)
(** * Paths and document metadata *)
(* ================================================================== *)

Module PathFacts.
Import document_selector_utils.

Lemma rfind_from_app (c : ascii) (a b : str) (i last : Z) :
  rfind_from c (a ++ b) i last
  = rfind_from c b (i + Z.of_nat (length a))%Z (rfind_from c a i last).
Proof.
  revert i last. induction a as [|x a IH]; intros i last.
  - cbn [app rfind_from length]. f_equal. lia.
  - cbn [app rfind_from length]. rewrite IH. f_equal. lia.
Qed.

Lemma rfind_from_absent (c : ascii) (s : str) (i last : Z) :
  Forall (fun x => x <> c) s -> rfind_from c s i last = last.
Proof.
  intro H. revert i last. induction H as [|x s Hx _ IH]; intros i last.
  - reflexivity.
  - cbn [rfind_from]. apply chr_eqb_neq in Hx. rewrite Hx. apply IH.
Qed.


(** The last occurrence of [c] when nothing after it is [c]. *)
Lemma rfind_last (c : ascii) (a b : str) :
  Forall (fun x => x <> c) b ->
  rfind c (a ++ c :: b) = Z.of_nat (length a).
Proof.
  intro Hb. unfold rfind. rewrite rfind_from_app. cbn [rfind_from].
  rewrite chr_eqb_refl. now rewrite rfind_from_absent.
Qed.

Lemma rfind_absent (c : ascii) (s : str) :
  Forall (fun x => x <> c) s -> rfind c s = (-1)%Z.
Proof. intro H. unfold rfind. now apply rfind_from_absent. Qed.

(** [splitext] cuts the extension ".md" off a file name that has a
    character other than a dot before it. *)
Lemma splitext_root_md (body : str) :
  Forall (fun x => x <> "/"%char) body ->
  existsb (fun c => negb (chr_eqb c "."%char)) body = true ->
  splitext_root (body ++ py ".md") = body.
Proof.
  intros Hslash Hdot. unfold splitext_root.
  change (py ".md") with ("."%char :: py "md").
  rewrite (rfind_last "."%char body (py "md"))
    by (repeat constructor; discriminate).
  rewrite (rfind_absent "/"%char).
  2:{ apply Forall_app. split; [assumption|].
      repeat constructor; discriminate. }
  replace (-1 <? Z.of_nat (length body))%Z with true
    by (symmetry; apply Z.ltb_lt; lia).
  replace (Z.to_nat (Z.of_nat (length body) - (-1 + 1)))
    with (length body) by lia.
  replace (Z.to_nat (-1 + 1)) with 0 by lia.
  rewrite Nat2Z.id. cbn [skipn].
  rewrite !NameFacts.firstn_length_app. now rewrite Hdot.
Qed.


(** The base name of a file name joined to a directory is the file name. *)
Lemma basename_join (dir f : str) :
  f <> [] -> Forall (fun x => x <> "/"%char) f ->
  posixpath.basename (posixpath.join dir f) = f.
Proof.
  intros Hne Hf. unfold posixpath.join.
  assert (Hstart : startswith f (py "/") = false).
  { destruct f as [|c f]; [congruence|]. inversion Hf as [|? ? Hc _]; subst.
    cbn [py list_ascii_of_string startswith].
    destruct (chr_eqb "/" c) eqn:E; [|reflexivity].
    apply chr_eqb_eq in E. congruence. }
  rewrite Hstart.
  assert (Hplain : posixpath.basename f = f).
  { unfold posixpath.basename. now rewrite (rfind_absent "/"%char f Hf). }
  assert (Hslash : forall a, posixpath.basename (a ++ py "/" ++ f) = f).
  { intro a. unfold posixpath.basename.
    change (py "/" ++ f) with ("/"%char :: f).
    rewrite (rfind_last "/"%char a f Hf).
    replace (Z.to_nat (Z.of_nat (length a) + 1)) with (length (a ++ ["/"%char]))
      by (rewrite length_app; simpl; lia).
    change (a ++ "/"%char :: f) with (a ++ ["/"%char] ++ f).
    rewrite app_assoc. apply skipn_len_app. }
  destruct dir as [|d dir]; [exact Hplain|].
  destruct (endswith (d :: dir) (py "/")) eqn:E; [|apply Hslash].
  apply endswith_spec in E as [q ->].
  rewrite <- app_assoc. apply Hslash.
Qed.

Lemma isdigit_not_slash' (c : ascii) : isdigit c = true -> c <> "/"%char.
Proof. intros H ->. vm_compute in H. discriminate. Qed.

Lemma strip_drop_space (c : ascii) (s : str) :
  isspace c = true -> strip (c :: s) = strip s.
Proof. intro H. unfold strip. cbn [lstrip_class]. now rewrite H. Qed.

End PathFacts.



(** X9.  For a reference document "<id>.md" whose first line, stripped,
    starts with "# ", the name that [load_documents] gives the document and
    the title that [extract_document_metadata] gives it are the same. *)
Theorem X9_name_and_title_agree (text i : str) :
  i <> [] -> forallb isdigit i = true ->
  startswith (strip (hd [] (split newline text))) (py "# ") = true ->
  dict_get
    (document_selector_utils.extract_document_metadata text (i ++ py ".md"))
    (py "title")
  = Some (documents.document_name text i).
Proof.
  intros Hn Hd Hstart.
  assert (Hroot : document_selector_utils.splitext_root (i ++ py ".md") = i).
  { apply PathFacts.splitext_root_md.
    - rewrite forallb_forall in Hd. apply Forall_forall. intros c Hc.
      apply PathFacts.isdigit_not_slash'. now apply Hd.
    - destruct i as [|c i]; [congruence|]. cbn [existsb forallb] in *.
      apply andb_true_iff in Hd as [Hc _].
      destruct (chr_eqb c ".") eqn:E; [|reflexivity].
      apply chr_eqb_eq in E. subst c. discriminate Hc. }
  unfold document_selector_utils.extract_document_metadata,
    documents.document_name. cbv zeta. rewrite Hroot.
  destruct (split newline text) as [|line0 rest]; [discriminate|].
  cbn [hd] in Hstart. cbn [document_selector_utils.first_heading].
  rewrite Hstart.
  apply startswith_spec in Hstart. change (len (py "# ")) with 2 in Hstart.
  remember (strip line0) as first eqn:Hfirst.
  remember (skipn 2 first) as r eqn:Hr.
  rewrite Hstart.
  change (startswith (py "# " ++ r) (py "#")) with true. cbv iota.
  unfold lstrip_chars. cbn [py list_ascii_of_string app lstrip_class existsb].
  change (chr_eqb "#" "#") with true. change (chr_eqb " " "#") with false.
  cbn [orb]. rewrite (PathFacts.strip_drop_space " "%char r eq_refl).
  destruct (strip r); reflexivity.
Qed.

Lemma X9_name_and_title_agree_witness :
  dict_get
    (document_selector_utils.extract_document_metadata
       (py "#  Access policy" ++ newline :: py "Body") (py "12" ++ py ".md"))
    (py "title")
  = Some (documents.document_name
            (py "#  Access policy" ++ newline :: py "Body") (py "12")).
Proof.
  apply X9_name_and_title_agree; [discriminate | reflexivity | reflexivity].
Defined.

(* ================================================================== *)
(** * Numeric order of the loaded lists *)
(* ================================================================== *)

Module NumericOrderFacts.

Lemma load_selected_controls_sorted_exact (set_iter : list str -> list str)
  (fs : FS.filesystem) (dir : str) (docs : list documents.Document)
  (out : list str) (ss : list selected_documents.SelectedControl) :
  selected_documents.load_selected_controls set_iter fs dir docs
    = (out, Return ss) ->
  Forall (fun s => exact_id (selected_documents.id s)) ss ->
  StronglySorted
    (fun a b => id_le (selected_documents.id a) (selected_documents.id b)) ss.
Proof.
  intros Hl Hex. apply OrderFacts.load_selected_controls_sorted in Hl.
  apply (OrderFacts.StronglySorted_impl_In _ _ _ (fun a b Ha Hb Hk =>
           OrderFacts.key_le_exact _ _
             (proj1 (Forall_forall _ _) Hex a Ha)
             (proj1 (Forall_forall _ _) Hex b Hb) Hk)).
  exact Hl.
Qed.

Lemma exact_id_small (x : str) (m n : Z) :
  id_pair x = Some (m, n) -> (m < 2 ^ 53)%Z -> (n < 2 ^ 53)%Z -> exact_id x.
Proof. intros H Hm Hn. now exists m, n. Qed.

End NumericOrderFacts.

(** X10.  When every loaded control id is "<major>.<minor>" with both
    numbers below 2^53, the list that [load_controls] returns is in
    ascending order of the pair of integers (major, minor). *)
Theorem X10_controls_in_numeric_order (fs : FS.filesystem) (dir : str)
  (out : list str) (cs : list controls.Control) :
  controls.load_controls fs dir = (out, Return cs) ->
  Forall (fun c => exact_id (controls.id c)) cs ->
  StronglySorted (fun a b => id_le (controls.id a) (controls.id b)) cs.
Proof. apply OrderFacts.load_controls_sorted_exact. Qed.

Lemma X10_controls_in_numeric_order_witness :
  StronglySorted (fun a b => id_le (controls.id a) (controls.id b))
    [controls.Build_Control (py "5.1") (py "Policies") (py "a");
     controls.Build_Control (py "5.2") (py "Roles") (py "b");
     controls.Build_Control (py "5.10") (py "Threat intelligence") (py "c")].
Proof.
  refine (X10_controls_in_numeric_order
            (Examples.tree Examples.controls_dir [] [])
            presenter.CONTROLS_DIR
            (fst (controls.load_controls
                    (Examples.tree Examples.controls_dir [] [])
                    presenter.CONTROLS_DIR))
            _ _ _); [vm_compute; reflexivity|].
  repeat constructor.
  - apply (NumericOrderFacts.exact_id_small (py "5.1") 5 1 eq_refl);
      reflexivity.
  - apply (NumericOrderFacts.exact_id_small (py "5.2") 5 2 eq_refl);
      reflexivity.
  - apply (NumericOrderFacts.exact_id_small (py "5.10") 5 10 eq_refl);
      reflexivity.
Defined.

(** X11.  When every loaded selection record has an id "<major>.<minor>"
    with both numbers below 2^53, the list that [load_selected_controls]
    returns is in ascending order of the pair of integers (major, minor),
    whatever the iteration order of the set of found ids. *)
Theorem X11_selected_in_numeric_order (set_iter : list str -> list str)
  (fs : FS.filesystem) (dir : str) (docs : list documents.Document)
  (out : list str) (ss : list selected_documents.SelectedControl) :
  selected_documents.load_selected_controls set_iter fs dir docs
    = (out, Return ss) ->
  Forall (fun s => exact_id (selected_documents.id s)) ss ->
  StronglySorted
    (fun a b => id_le (selected_documents.id a) (selected_documents.id b)) ss.
Proof. apply NumericOrderFacts.load_selected_controls_sorted_exact. Qed.

Lemma X11_selected_in_numeric_order_witness :
  StronglySorted
    (fun a b => id_le (selected_documents.id a) (selected_documents.id b))
    [selected_documents.Build_SelectedControl (py "5.1") (py "Policies")
       [py "7"; py "100"];
     selected_documents.Build_SelectedControl (py "5.2") (py "Roles")
       [py "12"];
     selected_documents.Build_SelectedControl (py "5.10")
       (py "Threat intelligence") [py "7"; py "12"; py "100"]].
Proof.
  refine (X11_selected_in_numeric_order (nodup str_eq_dec)
            (Examples.tree [] [] Examples.three_reports)
            presenter.SELECTED_DOCUMENTS_DIR Examples.three_documents
            [] _ _ _); [vm_compute; reflexivity|].
  repeat constructor.
  - apply (NumericOrderFacts.exact_id_small (py "5.1") 5 1 eq_refl);
      reflexivity.
  - apply (NumericOrderFacts.exact_id_small (py "5.2") 5 2 eq_refl);
      reflexivity.
  - apply (NumericOrderFacts.exact_id_small (py "5.10") 5 10 eq_refl);
      reflexivity.
Defined.

(** X12.  When no two loaded documents have ids of the same integer value,
    the whole output of [main] (the printed lines and the graph elements or
    the exception) is the same for every iteration order of the set of
    found ids. *)
Theorem X12_main_independent_of_set_order (o1 o2 : list str -> list str)
  (fs : FS.filesystem) :
  set_order o1 -> set_order o2 ->
  (forall out docs,
     documents.load_documents fs presenter.DOCUMENTS_DIR
       = (out, Return docs) ->
     int_injective (map documents.id docs)) ->
  presenter.main o1 fs = presenter.main o2 fs.
Proof. apply SetOrderFacts.main_order_independent. Qed.

Lemma X12_main_independent_of_set_order_witness :
  presenter.main (nodup str_eq_dec) Examples.full_tree
  = presenter.main Examples.reversed_order Examples.full_tree
  /\ match snd (presenter.main Examples.reversed_order Examples.full_tree)
     with
     | Return elements => length elements = 12
     | Raise _ => False
     end
  /\ nodup str_eq_dec [py "100"; py "7"; py "100"; py "999"; py "12"]
     <> Examples.reversed_order
          [py "100"; py "7"; py "100"; py "999"; py "12"].
Proof.
  split; [|split].
  - apply (X12_main_independent_of_set_order (nodup str_eq_dec)
             Examples.reversed_order _ ExtractFacts.set_order_nodup
             SetOrderFacts.set_order_reversed).
    intros out docs H. vm_compute in H. injection H as _ <-.
    intros a b [<- | [<- | [<- | []]]] [<- | [<- | [<- | []]]] H;
      first [reflexivity | vm_compute in H; discriminate H].
  - vm_compute. reflexivity.
  - vm_compute. discriminate.
Defined.

(* ================================================================== *)
(** * Finding the file of a control and naming its selection *)
(* ================================================================== *)

Module FindFacts.
Import execute_control.

(** The loop that collects the matching paths is a filter. *)
Lemma collect_filter {A : Type} (p : A -> bool) (l acc : list A) :
  fold_left (fun acc x => if p x then acc ++ [x] else acc) l acc
  = acc ++ filter p l.
Proof.
  revert acc. induction l as [|x l IH]; intro acc; cbn [fold_left filter].
  - now rewrite app_nil_r.
  - rewrite IH. destruct (p x); [|reflexivity].
    now rewrite <- app_assoc.
Qed.

Lemma find_control_file_filter (glob_glob : str -> list str)
  (list_repr : list str -> str) (control_id controls_dir : str) :
  find_control_file glob_glob list_repr control_id controls_dir
  = match filter (matches_id control_id)
            (glob_glob (posixpath.join controls_dir (py "*.md"))) with
    | [] =>
        Env.Raised
          (Env.Build_exception (py "FileNotFoundError")
             (py "No control file found matching ID '" ++ control_id
                ++ py "' in " ++ controls_dir ++ py "/"))
    | [control_path] => Env.Returned control_path
    | matching_files =>
        Env.Raised
          (Env.Build_exception (py "ValueError")
             (py "Multiple control files found matching ID '" ++ control_id
                ++ py "': " ++ list_repr matching_files))
    end.
Proof.
  unfold find_control_file. cbv zeta. rewrite collect_filter. cbn [app].
  now destruct (filter _ _) as [|p [|q l]].
Qed.

Lemma find_control_file_matches (glob_glob : str -> list str)
  (list_repr : list str -> str) (control_id controls_dir p : str) :
  find_control_file glob_glob list_repr control_id controls_dir
    = Env.Returned p ->
  In p (glob_glob (posixpath.join controls_dir (py "*.md")))
  /\ matches_id control_id p = true.
Proof.
  rewrite find_control_file_filter.
  destruct (filter _ _) as [|q [|q' l]] eqn:E; try discriminate.
  intros [= ->]. apply filter_In. rewrite E. now left.
Qed.

(** A name that the control pattern parses has white space right after
    its id. *)
Lemma control_name_spans (f i n : str) :
  Re.re_match controls.pattern f = Some (i, n) ->
  exists w r, isspace w = true /\ f = i ++ w :: r
              /\ forallb notspace i = true.
Proof.
  intro H. apply PatternFacts.control_match_shape in H
    as (Hid & ws & tail & Hws & Hsp & _ & _ & -> & _).
  destruct ws as [|w ws]; [congruence|].
  cbn [forallb] in Hsp. apply andb_true_iff in Hsp as [Hw _].
  exists w, (ws ++ n ++ py ".md" ++ tail).
  split; [assumption|]. split; [reflexivity|].
  now apply NameFacts.control_id_notspace.
Qed.

Lemma matches_id_parsed (control_id p i n : str) :
  forallb notspace control_id = true ->
  matches_id control_id p = true ->
  Re.re_match controls.pattern (posixpath.basename p) = Some (i, n) ->
  i = control_id.
Proof.
  intros Hns Hm Hp. unfold matches_id in Hm. cbv zeta in Hm.
  destruct (control_name_spans _ _ _ Hp) as (w & r & Hw & Hf & Hi).
  assert (Hspan : span notspace (posixpath.basename p) = (i, w :: r)).
  { rewrite Hf. apply span_unique; [assumption|].
    cbn [stops]. unfold notspace. now rewrite Hw. }
  apply orb_true_iff in Hm as [Hm | Hm].
  - apply startswith_inv in Hm as [r' Hr'].
    rewrite <- app_assoc in Hr'. cbn [py list_ascii_of_string app] in Hr'.
    rewrite Hr' in Hspan.
    rewrite (span_unique notspace control_id (" "%char :: r') Hns eq_refl)
      in Hspan.
    now injection Hspan as <- _.
  - apply str_eqb_eq in Hm.
    assert (Hall : forallb notspace (posixpath.basename p) = true).
    { rewrite Hm, forallb_app, Hns. reflexivity. }
    rewrite Hf, forallb_app in Hall. apply andb_true_iff in Hall as [_ Hall].
    cbn [forallb] in Hall. apply andb_true_iff in Hall as [Hall _].
    unfold notspace in Hall. rewrite Hw in Hall. discriminate.
Qed.

(** The parts of a globbed control filename. *)
Lemma control_filename_body (f i n : str) :
  endswith f (py ".md") = true ->
  Re.re_match controls.pattern f = Some (i, n) ->
  exists body c, f = (c :: body) ++ py ".md" /\ isdigit c = true.
Proof.
  intros Hend Hm.
  destruct (NameFacts.control_parse f i n Hend Hm)
    as (_ & (ws & _ & _ & Hf) & _).
  apply PatternFacts.control_match_shape in Hm
    as ((major & minor & -> & Hmaj & Hdig & _) & _).
  destruct major as [|c major]; [congruence|].
  cbn [forallb] in Hdig. apply andb_true_iff in Hdig as [Hc _].
  exists (major ++ py "." ++ minor ++ ws ++ n), c. split; [|assumption].
  rewrite Hf. cbn [app]. now rewrite <- !app_assoc.
Qed.

Lemma output_filename_join (dir f i n : str) :
  Forall (fun x => x <> "/"%char) f ->
  endswith f (py ".md") = true ->
  Re.re_match controls.pattern f = Some (i, n) ->
  output_filename (posixpath.join dir f) = f.
Proof.
  intros Hslash Hend Hm.
  destruct (control_filename_body f i n Hend Hm) as (body & c & Hf & Hc).
  unfold output_filename, document_selector_utils.get_control_name_from_path.
  rewrite PathFacts.basename_join; [|rewrite Hf; discriminate|assumption].
  rewrite Hf at 1. rewrite PathFacts.splitext_root_md.
  - now symmetry.
  - rewrite Hf in Hslash. now apply Forall_app in Hslash as [H _].
  - cbn [existsb]. destruct (chr_eqb c ".") eqn:E; [|reflexivity].
    apply chr_eqb_eq in E. subst c. discriminate Hc.
Qed.

End FindFacts.


(** X14.  The file that [find_control_file] returns for an id without white
    space is a file of that very id: when the control pattern of
    [load_controls] parses its base name, the parsed id is the requested
    one, so that "5.2" never selects "5.20 Addressing.md". *)
Theorem X14_found_file_has_requested_id (glob_glob : str -> list str)
  (list_repr : list str -> str) (control_id controls_dir p i n : str) :
  forallb notspace control_id = true ->
  execute_control.find_control_file glob_glob list_repr control_id
    controls_dir = Env.Returned p ->
  Re.re_match controls.pattern (posixpath.basename p) = Some (i, n) ->
  i = control_id.
Proof.
  intros Hns Hfound Hparse.
  apply FindFacts.find_control_file_matches in Hfound as [_ Hm].
  exact (FindFacts.matches_id_parsed control_id p i n Hns Hm Hparse).
Qed.

Lemma X14_found_file_has_requested_id_witness : py "5.2" = py "5.2".
Proof.
  apply (X14_found_file_has_requested_id
           (fun _ => [py "controls/5.20 Addressing.md";
                      py "controls/5.2 Roles.md"])
           (fun _ => []) (py "5.2") (py "controls")
           (py "controls/5.2 Roles.md") (py "5.2") (py "Roles"));
    reflexivity.
Defined.

(** X15.  The selection of a control is saved under the name of the
    control's file: for a file name without "/" that ends in ".md" and
    that the control pattern parses, the output file name computed from
    the joined path is that file name again, so that
    [load_selected_controls] reads back the id and the name that
    [load_controls] read. *)
Theorem X15_selection_keeps_control_filename (dir f i n : str) :
  Forall (fun x => x <> "/"%char) f ->
  endswith f (py ".md") = true ->
  Re.re_match controls.pattern f = Some (i, n) ->
  execute_control.output_filename (posixpath.join dir f) = f
  /\ Re.re_match selected_documents.filename_pattern
       (execute_control.output_filename (posixpath.join dir f))
     = Some (i, n).
Proof.
  intros Hslash Hend Hm.
  rewrite (FindFacts.output_filename_join dir f i n Hslash Hend Hm).
  split; [reflexivity|].
  now rewrite PatternFacts.selected_pattern_same.
Qed.

Lemma X15_selection_keeps_control_filename_witness :
  execute_control.output_filename
    (posixpath.join (py "controls") (py "5.18 Access rights.md"))
  = py "5.18 Access rights.md"
  /\ Re.re_match selected_documents.filename_pattern
       (execute_control.output_filename
          (posixpath.join (py "controls") (py "5.18 Access rights.md")))
     = Some (py "5.18", py "Access rights").
Proof.
  apply X15_selection_keeps_control_filename.
  - repeat constructor; discriminate.
  - reflexivity.
  - reflexivity.
Defined.

(* ================================================================== *)
(** * Reading the documents for the selector *)
(* ================================================================== *)

Module ReadFacts.
Import document_selector_utils SelectorSpec.

(** The loop over the files in terms of the files that can be read. *)
Lemma read_documents_loop_spec (os : Env.os) (dir : str) (files : list str)
  (acc : list (list (str * str))) :
  fold_left
    (fun documents filename =>
       match Env.read_text os (posixpath.join dir filename) with
       | Env.Returned text =>
           documents ++ [extract_document_metadata text filename]
       | Env.Raised _ => documents
       end)
    files acc
  = acc
    ++ flat_map
         (fun filename =>
            match Env.read_text os (posixpath.join dir filename) with
            | Env.Returned text => [extract_document_metadata text filename]
            | Env.Raised _ => []
            end)
         files.
Proof.
  revert acc. induction files as [|f files IH]; intro acc;
    cbn [fold_left flat_map].
  - now rewrite app_nil_r.
  - rewrite IH. destruct (Env.read_text os (posixpath.join dir f)).
    + reflexivity.
    + now rewrite <- app_assoc.
Qed.

Lemma loop_filenames (os : Env.os) (dir : str) (files : list str) :
  map (fun d => dict_get d (py "filename"))
    (read_documents_loop os dir files)
  = map Some (filter (fun f => opens os (posixpath.join dir f)) files).
Proof.
  unfold read_documents_loop. cbv zeta.
  rewrite read_documents_loop_spec. cbn [app].
  induction files as [|f files IH]; [reflexivity|].
  cbn [flat_map filter]. unfold opens at 1.
  destruct (Env.read_text os (posixpath.join dir f)).
  - exact IH.
  - cbn [app map]. now rewrite IH.
Qed.

Lemma loop_members (os : Env.os) (dir : str) (files : list str)
  (d : list (str * str)) :
  In d (read_documents_loop os dir files) <->
  exists f text,
    In f files /\ Env.read_text os (posixpath.join dir f) = Env.Returned text
    /\ d = extract_document_metadata text f.
Proof.
  unfold read_documents_loop. cbv zeta.
  rewrite read_documents_loop_spec. cbn [app]. rewrite in_flat_map. split.
  - intros (f & Hf & Hd). exists f.
    destruct (Env.read_text os (posixpath.join dir f)) as [e|text];
      [destruct Hd|].
    destruct Hd as [<- | []]. now exists text.
  - intros (f & text & Hf & Hread & ->). exists f. split; [assumption|].
    rewrite Hread. now left.
Qed.

Lemma filter_filter {A : Type} (p q : A -> bool) (l : list A) :
  filter q (filter p l) = filter (fun x => p x && q x) l.
Proof.
  induction l as [|x l IH]; [reflexivity|]. cbn [filter].
  destruct (p x); cbn [filter andb]; [|exact IH].
  destruct (q x); now rewrite IH.
Qed.

(** What [read_all_documents] returns once the directory is listed. *)
Lemma read_all_documents_listed (os : Env.os) (dir : str)
  (names : list str) :
  Env.path_exists os dir = true -> Env.path_isdir os dir = true ->
  Env.listdir os dir = Env.Returned names ->
  read_all_documents os dir
  = Env.Returned
      (read_documents_loop os dir
         (filter
            (fun f =>
               endswith f (py ".md")
               && Env.path_isfile os (posixpath.join dir f))
            names)).
Proof.
  intros He Hd Hl. unfold read_all_documents. rewrite He, Hd, Hl.
  cbn [negb]. cbv zeta. now destruct (filter _ names).
Qed.

(** The summary of a document with the four keys. *)
Lemma summary_of_metadata (i : nat) (text filename : str) :
  exists s,
    DocumentSelector_class.summary i
      (extract_document_metadata text filename) = Env.Returned s.
Proof.
  unfold extract_document_metadata. cbv zeta. eexists. reflexivity.
Qed.

Lemma summaries_of_metadata (docs : list (list (str * str))) :
  Forall (fun d => exists text f, d = extract_document_metadata text f)
    docs ->
  forall i, exists l,
    DocumentSelector_class.summaries i docs = Env.Returned l
    /\ length l = length docs.
Proof.
  induction 1 as [|d docs (text & f & ->) _ IH]; intro i.
  - now exists [].
  - cbn [DocumentSelector_class.summaries].
    destruct (summary_of_metadata i text f) as [s ->].
    destruct (IH (S i)) as (l & -> & Hlen).
    exists (s :: l). split; [reflexivity|]. cbn [length]. now rewrite Hlen.
Qed.

End ReadFacts.

(** X16.  Once the directory is listed, [read_all_documents] returns one
    metadata record for each listed name that ends in ".md", is a regular
    file and can be read, in the order of the listing; a file that cannot
    be read is left out and does not make the call fail. *)
Theorem X16_read_all_documents_listed (os : Env.os) (dir : str)
  (names : list str) :
  Env.path_exists os dir = true -> Env.path_isdir os dir = true ->
  Env.listdir os dir = Env.Returned names ->
  exists docs,
    document_selector_utils.read_all_documents os dir = Env.Returned docs
    /\ map (fun d => dict_get d (py "filename")) docs
       = map Some (filter (SelectorSpec.picked os dir) names)
    /\ Forall
         (fun d =>
            exists f text,
              In f names
              /\ Env.read_text os (posixpath.join dir f) = Env.Returned text
              /\ d = document_selector_utils.extract_document_metadata text f)
         docs.
Proof.
  intros He Hd Hl. eexists. split; [|split].
  - exact (ReadFacts.read_all_documents_listed os dir names He Hd Hl).
  - rewrite ReadFacts.loop_filenames, ReadFacts.filter_filter. reflexivity.
  - apply Forall_forall. intros d Hin.
    apply ReadFacts.loop_members in Hin as (f & text & Hf & Hread & ->).
    apply filter_In in Hf as [Hf _]. now exists f, text.
Qed.

Lemma X16_read_all_documents_listed_witness :
  exists docs,
    document_selector_utils.read_all_documents SelectorExamples.disk
      (py "documents") = Env.Returned docs
    /\ map (fun d => dict_get d (py "filename")) docs
       = map Some
           (filter (SelectorSpec.picked SelectorExamples.disk (py "documents"))
              [py "old.md"; py "8.md"; py "notes.txt"; py "7.md"])
    /\ Forall
         (fun d =>
            exists f text,
              In f [py "old.md"; py "8.md"; py "notes.txt"; py "7.md"]
              /\ Env.read_text SelectorExamples.disk
                   (posixpath.join (py "documents") f) = Env.Returned text
              /\ d = document_selector_utils.extract_document_metadata text f)
         docs.
Proof.
  apply X16_read_all_documents_listed; reflexivity.
Defined.

(** X17.  [read_all_documents] raises in three cases only: the path does
    not exist (FileNotFoundError), it exists and is not a directory
    (ValueError), or listing the directory raises (that exception). *)
Theorem X17_read_all_documents_raises (os : Env.os) (dir : str)
  (e : Env.exception) :
  document_selector_utils.read_all_documents os dir = Env.Raised e
  <->
  (Env.path_exists os dir = false
   /\ e = Env.Build_exception (py "FileNotFoundError")
            (py "Documents directory not found: " ++ dir))
  \/ (Env.path_exists os dir = true /\ Env.path_isdir os dir = false
      /\ e = Env.Build_exception (py "ValueError")
               (py "Path is not a directory: " ++ dir))
  \/ (Env.path_exists os dir = true /\ Env.path_isdir os dir = true
      /\ Env.listdir os dir = Env.Raised e).
Proof.
  unfold document_selector_utils.read_all_documents.
  destruct (Env.path_exists os dir); cbn [negb].
  - destruct (Env.path_isdir os dir); cbn [negb].
    + destruct (Env.listdir os dir) as [e'|names].
      * split.
        -- intros [= ->]. right. right. now repeat split.
        -- intros [[[=] _] | [(_ & [=] & _) | (_ & _ & [= ->])]].
           reflexivity.
      * cbv zeta. split.
        -- destruct (filter _ names); discriminate.
        -- intros [[[=] _] | [(_ & [=] & _) | (_ & _ & [=])]].
    + split.
      * intros [= <-]. right. left. now repeat split.
      * intros [[[=] _] | [(_ & _ & ->) | (_ & [=] & _)]]. reflexivity.
  - split.
    + intros [= <-]. left. now split.
    + intros [[_ ->] | [([=] & _) | ([=] & _)]]. reflexivity.
Qed.

(** X18.  The documents that [read_all_documents] returns have the keys
    that the summaries of [select_documents] look up: preparing the
    summaries of such a list raises no KeyError and gives one summary for
    each document. *)
Theorem X18_summaries_of_read_documents (os : Env.os) (dir : str)
  (docs : list (list (str * str))) (i : nat) :
  document_selector_utils.read_all_documents os dir = Env.Returned docs ->
  exists l,
    DocumentSelector_class.summaries i docs = Env.Returned l
    /\ length l = length docs.
Proof.
  intro H. apply ReadFacts.summaries_of_metadata.
  unfold document_selector_utils.read_all_documents in H.
  destruct (negb (Env.path_exists os dir)); [discriminate|].
  destruct (negb (Env.path_isdir os dir)); [discriminate|].
  destruct (Env.listdir os dir) as [e|names]; [discriminate|].
  cbv zeta in H.
  assert (Hdocs : docs = document_selector_utils.read_documents_loop os dir
            (filter
               (fun f =>
                  endswith f (py ".md")
                  && Env.path_isfile os (posixpath.join dir f))
               names)).
  { destruct (filter _ names); now injection H as <-. }
  rewrite Hdocs. apply Forall_forall. intros d Hd.
  apply ReadFacts.loop_members in Hd as (f & text & _ & _ & ->).
  now exists text, f.
Qed.

Lemma X18_summaries_of_read_documents_witness :
  exists l,
    DocumentSelector_class.summaries 1
      [document_selector_utils.extract_document_metadata
         (py Examples.marked_text) (py "7.md")]
    = Env.Returned l
    /\ length l = 1.
Proof.
  exact (X18_summaries_of_read_documents SelectorExamples.disk
           (py "documents") _ 1 eq_refl).
Defined.

(* ================================================================== *)
(** * Occurrences, replacement and code fences *)
(* ================================================================== *)

Module TextFacts.
Import PyText SelectorSpec.

Lemma contains_spec (s sub : str) :
  contains s sub = true <-> exists a b, s = a ++ sub ++ b.
Proof.
  induction s as [|c s IH]; cbn [contains].
  - rewrite orb_false_r. split.
    + intro H. apply startswith_inv in H as [r ->]. now exists [], r.
    + intros (a & b & H). symmetry in H.
      apply app_eq_nil in H as [-> H]. apply app_eq_nil in H as [-> _].
      reflexivity.
  - rewrite orb_true_iff, IH. split.
    + intros [H | (a & b & ->)].
      * apply startswith_inv in H as [r ->]. now exists [], r.
      * now exists (c :: a), b.
    + intros ([|x a] & b & H).
      * left. cbn [app] in H. rewrite H. apply startswith_app.
      * right. injection H as _ ->. now exists a, b.
Qed.

(** A text without an occurrence has none in any part of it. *)
Lemma contains_part (s a m b sub : str) :
  s = a ++ m ++ b -> contains s sub = false -> contains m sub = false.
Proof.
  intros -> H. destruct (contains m sub) eqn:E; [|reflexivity].
  apply contains_spec in E as (a' & b' & ->).
  assert (Hc : contains (a ++ (a' ++ sub ++ b') ++ b) sub = true).
  { apply contains_spec. exists (a ++ a'), (b' ++ b).
    now rewrite <- !app_assoc. }
  congruence.
Qed.

Lemma lstrip_part (cls : ascii -> bool) (s : str) :
  exists a, s = a ++ lstrip_class cls s.
Proof.
  induction s as [|c s [a IH]]; [now exists []|]. cbn [lstrip_class].
  destruct (cls c).
  - exists (c :: a). cbn [app]. now f_equal.
  - now exists [].
Qed.

Lemma rstrip_part (cls : ascii -> bool) (s : str) :
  exists b, s = rstrip_class cls s ++ b.
Proof.
  unfold rstrip_class. destruct (lstrip_part cls (rev s)) as [a H].
  exists (rev a). rewrite <- rev_app_distr, <- H. now rewrite rev_involutive.
Qed.

Lemma strip_part (s : str) : exists a b, s = a ++ strip s ++ b.
Proof.
  unfold strip. destruct (lstrip_part isspace s) as [a Ha].
  destruct (rstrip_part isspace (lstrip_class isspace s)) as [b Hb].
  exists a, b. now rewrite <- Hb.
Qed.

Lemma contains_strip (s sub : str) :
  contains s sub = false -> contains (strip s) sub = false.
Proof.
  destruct (strip_part s) as (a & b & H). now apply contains_part with a b.
Qed.

Lemma contains_skipn (k : nat) (s sub : str) :
  contains s sub = false -> contains (skipn k s) sub = false.
Proof.
  apply contains_part with (firstn k s) [].
  now rewrite app_nil_r, firstn_skipn.
Qed.

Lemma contains_firstn (k : nat) (s sub : str) :
  contains s sub = false -> contains (firstn k s) sub = false.
Proof.
  apply contains_part with [] (skipn k s). cbn [app].
  now rewrite firstn_skipn.
Qed.

(** A text without an occurrence is left as it is. *)
Lemma replace_absent (old new s : str) :
  contains s old = false -> replace s old new = s.
Proof.
  unfold replace. induction s as [|c s IH]; [reflexivity|].
  cbn [contains replace_from]. intro H.
  apply orb_false_iff in H as [Hs Hc].
  change (match s with [] => false | _ :: s' => contains s' old end
          || startswith s old) with (contains s old) in *.
  rewrite Hs. f_equal. apply IH.
  destruct s; exact Hc.
Qed.

(** Induction along the way [replace] walks over a text. *)
Lemma fence_ind (P : str -> Prop) :
  P [] ->
  (forall r, P r -> P ("`"%char :: "`"%char :: "`"%char :: r)) ->
  (forall c s, startswith (c :: s) fence = false -> P s -> P (c :: s)) ->
  forall s, P s.
Proof.
  intros H0 H3 H1 s.
  assert (H : forall n s, length s <= n -> P s).
  { clear s. induction n as [|n IH]; intros [|c s] Hlen;
      cbn [length] in Hlen; try assumption; try lia.
    destruct (startswith (c :: s) fence) eqn:E.
    - apply startswith_inv in E as [r E].
      change (fence ++ r) with ("`"%char :: "`"%char :: "`"%char :: r) in E.
      rewrite E. apply H3, IH.
      injection E as _ ->. cbn [length] in Hlen. lia.
    - apply H1; [assumption|]. apply IH. lia. }
  now apply (H (length s)).
Qed.

Lemma remove_fence (r : str) :
  replace ("`"%char :: "`"%char :: "`"%char :: r) fence [] = replace r fence [].
Proof. reflexivity. Qed.

Lemma remove_other (c : ascii) (s : str) :
  startswith (c :: s) fence = false ->
  replace (c :: s) fence [] = c :: replace s fence [].
Proof. intro H. unfold replace. cbn [replace_from]. now rewrite H. Qed.

Lemma ticks_two (s : str) :
  2 <= ticks s -> exists r, s = "`"%char :: "`"%char :: r.
Proof.
  destruct s as [|a [|b r]]; cbn [ticks].
  - lia.
  - destruct (chr_eqb "`" a); lia.
  - destruct (chr_eqb "`" a) eqn:Ea; [|lia].
    destruct (chr_eqb "`" b) eqn:Eb; [|lia].
    apply chr_eqb_eq in Ea, Eb. subst. intros _. now exists r.
Qed.

Lemma fence_ticks (s : str) : startswith s fence = true -> 3 <= ticks s.
Proof.
  intro H. apply startswith_inv in H as [r ->].
  change (3 <= S (S (S (ticks r)))). lia.
Qed.

(** Removing the fences leaves fewer than three backticks at the start. *)
Lemma ticks_replace (s : str) : ticks (replace s fence []) = ticks s mod 3.
Proof.
  induction s as [| r IH | c s Hs IH] using fence_ind.
  - reflexivity.
  - rewrite remove_fence, IH.
    change (ticks ("`"%char :: "`"%char :: "`"%char :: r))
      with (3 + ticks r).
    replace (3 + ticks r) with (ticks r + 1 * 3) by lia.
    now rewrite Nat.Div0.mod_add.
  - rewrite (remove_other c s Hs). cbn [ticks].
    destruct (chr_eqb "`" c) eqn:Ec; [|reflexivity].
    assert (Hlt : ticks s < 2).
    { destruct (Nat.lt_ge_cases (ticks s) 2) as [Hlt | Hge]; [assumption|].
      apply ticks_two in Hge as [r ->]. apply chr_eqb_eq in Ec. subst c.
      discriminate Hs. }
    rewrite IH, (Nat.mod_small (ticks s)) by lia.
    rewrite Nat.mod_small by lia. reflexivity.
Qed.

(** After [replace(fence, "")] no fence is left. *)
Lemma replace_fence_free (s : str) :
  contains (replace s fence []) fence = false.
Proof.
  induction s as [| r IH | c s Hs IH] using fence_ind.
  - reflexivity.
  - now rewrite remove_fence.
  - pose proof (ticks_replace (c :: s)) as Ht.
    rewrite (remove_other c s Hs) in *. cbn [contains].
    rewrite IH, orb_false_r.
    destruct (startswith (c :: replace s fence []) fence) eqn:E;
      [|reflexivity].
    apply fence_ticks in E. rewrite Ht in E.
    pose proof (Nat.mod_upper_bound (ticks (c :: s)) 3). lia.
Qed.

Lemma contains_cons (c : ascii) (s sub : str) :
  contains (c :: s) sub = startswith (c :: s) sub || contains s sub.
Proof. reflexivity. Qed.

(** Characters that are no backticks do not begin a fence. *)
Lemma contains_clean_prefix (a b : str) :
  forallb (fun c => negb (chr_eqb "`"%char c)) a = true ->
  contains (a ++ b) fence = contains b fence.
Proof.
  induction a as [|x a IH]; [reflexivity|]. cbn [forallb app].
  intro H. apply andb_true_iff in H as [Hx Ha].
  rewrite contains_cons, (IH Ha).
  apply negb_true_iff in Hx. unfold fence.
  cbn [py list_ascii_of_string startswith]. now rewrite Hx.
Qed.

(** A fence does not reach across a character that is no backtick. *)
Lemma contains_across (a b : str) (c : ascii) :
  chr_eqb "`"%char c = false ->
  contains a fence = false -> contains b fence = false ->
  contains (a ++ c :: b) fence = false.
Proof.
  intros Hc Ha Hb. induction a as [|x a IH].
  - cbn [app]. rewrite contains_cons, Hb, orb_false_r. unfold fence.
    cbn [py list_ascii_of_string startswith]. now rewrite Hc.
  - rewrite contains_cons in Ha. apply orb_false_iff in Ha as [Hx Ha].
    cbn [app]. rewrite contains_cons, (IH Ha), orb_false_r.
    unfold fence in *. cbn [py list_ascii_of_string] in *.
    destruct a as [|y [|z a]]; cbn [app startswith] in *;
      rewrite ?Hc, ?andb_false_r; try reflexivity.
    exact Hx.
Qed.

(** Every occurrence of a text that begins with a fence is an occurrence
    of a fence. *)
Lemma contains_longer (s tail : str) :
  contains s fence = false -> contains s (fence ++ tail) = false.
Proof.
  intro H. destruct (contains s (fence ++ tail)) eqn:E; [|reflexivity].
  apply contains_spec in E as (a & b & ->).
  assert (Hc : contains (a ++ (fence ++ tail) ++ b) fence = true).
  { apply contains_spec. exists a, (tail ++ b). now rewrite <- app_assoc. }
  congruence.
Qed.



End TextFacts.

(* ================================================================== *)
(** * The selector and the keyword generator *)
(* ================================================================== *)

Module SelectFacts.
Import PyText SelectorSpec DocumentSelector_class.

(** What the cleaning of the agent's answer leaves before the header is
    looked at. *)
Lemma cleaned_fence_free (raw : str) :
  contains
    (strip (replace (replace (replace (strip raw) (py "```markdown") [])
                       (py "```md") [])
              fence []))
    fence = false.
Proof. apply TextFacts.contains_strip, TextFacts.replace_fence_free. Qed.

Lemma pure_agent_response_fence_free (raw control_name : str) :
  contains control_name fence = false ->
  contains (pure_agent_response raw control_name) fence = false.
Proof.
  intro Hname. unfold pure_agent_response. cbv zeta.
  change (py "```") with fence.
  pose proof (cleaned_fence_free raw) as Hr.
  remember (strip (replace (replace (replace (strip raw) (py "```markdown") [])
                              (py "```md") []) fence [])) as r eqn:Er.
  clear Er.
  destruct (negb (startswith r (py "# Selected Documents")));
    [|assumption].
  destruct (contains r (py "Selected Documents")).
  - destruct (0 <=? find "#" r)%Z; [|assumption].
    now apply TextFacts.contains_strip, TextFacts.contains_skipn.
  - rewrite TextFacts.contains_clean_prefix by reflexivity.
    change (py "

" ++ r) with (newline :: [newline] ++ r).
    apply TextFacts.contains_across; [reflexivity | assumption |].
    now rewrite TextFacts.contains_clean_prefix by reflexivity.
Qed.


(** Every value that [select_documents] returns is the cleaned answer of
    the agent. *)
Lemma select_documents_returned (os : Env.os)
  (initialize_agent : Env.result Env.agent) (self self' : DocumentSelector)
  (control_content control_name control_path : option str)
  (documents : option (list (list (str * str)))) (r : str) :
  select_documents os initialize_agent self control_content control_name
    control_path documents = (Env.Returned r, self') ->
  exists raw,
    r = pure_agent_response raw
          (name_in_use control_content control_name control_path).
Proof.
  unfold select_documents, name_in_use.
  destruct (match _agent self with
            | Some a => Env.Returned a
            | None => initialize_agent
            end) as [e|agent]; [discriminate|].
  cbv zeta.
  destruct (truthy control_path && negb (truthy control_content)) eqn:Epath.
  - destruct (document_selector_utils.read_control_file os
                (text control_path)) as [e|content]; [discriminate|].
    destruct (negb (truthy (Some content))); [discriminate|].
    destruct (negb (truthy control_name)) eqn:En; cbn [andb].
    + cbn [truthy negb].
      destruct (document_selector_utils.get_control_name_from_path
                  (text control_path)) as [|c t] eqn:Ename;
        [discriminate|].
      cbn [negb].
      destruct (match documents with
                | Some l => Env.Returned l
                | None => _
                end) as [e|[|d l]]; try discriminate.
      destruct (summaries 1 (d :: l)); [discriminate|].
      destruct (agent _) as [e|raw]; [discriminate|].
      intros [= <- _]. now exists raw.
    + destruct (negb (truthy control_name)); [discriminate|].
      destruct (match documents with
                | Some l => Env.Returned l
                | None => _
                end) as [e|[|d l]]; try discriminate.
      destruct (summaries 1 (d :: l)); [discriminate|].
      destruct (agent _) as [e|raw]; [discriminate|].
      intros [= <- _]. now exists raw.
  - cbn [andb].
    destruct (negb (truthy control_content)); [discriminate|].
    destruct (negb (truthy control_name)); [discriminate|].
    destruct (match documents with
              | Some l => Env.Returned l
              | None => _
              end) as [e|[|d l]]; try discriminate.
    destruct (summaries 1 (d :: l)); [discriminate|].
    destruct (agent _) as [e|raw]; [discriminate|].
    intros [= <- _]. now exists raw.
Qed.

End SelectFacts.



(** X20.  When the control name in use holds no code fence, the text that
    [select_documents] returns holds none: the fences of the agent's
    answer are removed, and neither the later cut at the first "#" nor the
    added header brings one back. *)
Theorem X20_selection_has_no_code_fence (os : Env.os)
  (initialize_agent : Env.result Env.agent)
  (self self' : DocumentSelector_class.DocumentSelector)
  (control_content control_name control_path : option str)
  (documents : option (list (list (str * str)))) (r : str) :
  PyText.contains
    (SelectorSpec.name_in_use control_content control_name control_path)
    SelectorSpec.fence = false ->
  DocumentSelector_class.select_documents os initialize_agent self
    control_content control_name control_path documents
    = (Env.Returned r, self') ->
  PyText.contains r SelectorSpec.fence = false.
Proof.
  intros Hname Hsel.
  apply SelectFacts.select_documents_returned in Hsel as [raw ->].
  now apply SelectFacts.pure_agent_response_fence_free.
Qed.

Lemma X20_selection_has_no_code_fence_witness :
  PyText.contains
    (py "# Selected Documents for ISO 27001 Control 5.1 Policies")
    SelectorSpec.fence = false.
Proof.
  refine (X20_selection_has_no_code_fence SelectorExamples.disk
            (Env.Raised SelectorExamples.io_error) SelectorExamples.selector
            SelectorExamples.selector
            (Some (py "Policies for information security"))
            (Some (py "5.1 Policies")) None
            (Some [document_selector_utils.extract_document_metadata
                     (py Examples.marked_text) (py "7.md")])
            _ _ _).
  - reflexivity.
  - vm_compute. reflexivity.
Defined.



(** X22.  [generate_keywords] raises what the agent raises; what it
    returns holds no code fence, and it is the stripped answer of the
    agent when that answer holds none. *)
Theorem X22_keywords_have_no_code_fence (agent : Env.agent)
  (document : str) :
  match DocumentKeywordsGenerator_class.generate_keywords agent document with
  | Env.Returned r =>
      exists raw,
        agent (DocumentKeywordsGenerator_class.prompt document)
          = Env.Returned raw
        /\ PyText.contains r SelectorSpec.fence = false
        /\ (PyText.contains raw SelectorSpec.fence = false -> r = strip raw)
  | Env.Raised e =>
      agent (DocumentKeywordsGenerator_class.prompt document) = Env.Raised e
  end.
Proof.
  unfold DocumentKeywordsGenerator_class.generate_keywords.
  destruct (agent _) as [e|raw]; [reflexivity|].
  exists raw. split; [reflexivity|].
  change (py "```") with SelectorSpec.fence. split.
  - apply TextFacts.replace_fence_free.
  - intro Hraw. apply TextFacts.contains_strip in Hraw.
    rewrite (TextFacts.replace_absent (py "```json") [] (strip raw)).
    + now apply TextFacts.replace_absent.
    + exact (TextFacts.contains_longer (strip raw) (py "json") Hraw).
Qed.

(* ================================================================== *)
(** * The tools of the agent and the documents read for the prompt *)
(* ================================================================== *)

Module ToolFacts.
Import document_selector_utils SelectorSpec.

(** A successful [read_all_documents] names the listing it worked on. *)
Lemma read_all_documents_Returned (os : Env.os) (dir : str)
  (docs : list (list (str * str))) :
  read_all_documents os dir = Env.Returned docs ->
  exists names,
    Env.path_exists os dir = true
    /\ Env.listdir os dir = Env.Returned names
    /\ docs
       = read_documents_loop os dir
           (filter
              (fun f =>
                 endswith f (py ".md")
                 && Env.path_isfile os (posixpath.join dir f))
              names).
Proof.
  unfold read_all_documents.
  destruct (Env.path_exists os dir); [|discriminate]. cbn [negb].
  destruct (Env.path_isdir os dir); [|discriminate]. cbn [negb].
  destruct (Env.listdir os dir) as [e|names]; [discriminate|].
  cbv zeta. intro H. exists names. split; [reflexivity|].
  split; [reflexivity|].
  destruct (filter _ names); now injection H as <-.
Qed.

End ToolFacts.

(** X23.  The documents that [read_all_documents] puts before the agent
    are among those that the agent's tool [_list_documents_tool] lists:
    their filenames are the listed names that can be read, in the same
    order. *)
Theorem X23_read_documents_are_listed (os : Env.os)
  (self : DocumentSelector_class.DocumentSelector)
  (docs : list (list (str * str))) :
  document_selector_utils.read_all_documents os
    (DocumentSelector_class.documents_dir self) = Env.Returned docs ->
  map (fun d => dict_get d (py "filename")) docs
  = map Some
      (filter
         (fun f =>
            SelectorSpec.opens os
              (posixpath.join (DocumentSelector_class.documents_dir self) f))
         (DocumentSelector_class._list_documents_tool os self)).
Proof.
  intro H.
  apply ToolFacts.read_all_documents_Returned in H
    as (names & He & Hl & ->).
  unfold DocumentSelector_class._list_documents_tool. rewrite He, Hl.
  cbn [negb]. apply ReadFacts.loop_filenames.
Qed.

Lemma X23_read_documents_are_listed_witness :
  map (fun d => dict_get d (py "filename"))
    [document_selector_utils.extract_document_metadata
       (py Examples.marked_text) (py "7.md")]
  = map Some
      (filter
         (fun f =>
            SelectorSpec.opens SelectorExamples.disk
              (posixpath.join
                 (DocumentSelector_class.documents_dir
                    SelectorExamples.selector) f))
         (DocumentSelector_class._list_documents_tool SelectorExamples.disk
            SelectorExamples.selector)).
Proof.
  refine (X23_read_documents_are_listed SelectorExamples.disk
            SelectorExamples.selector _ _).
  vm_compute. reflexivity.
Defined.

(** X24.  What the agent reads with [_read_document_tool] is what the
    prompt was built from: every record that [read_all_documents]
    returns carries its filename, and the tool called with that filename
    returns the same record whenever the path of the file exists. *)
Theorem X24_tool_agrees_with_read_documents (os : Env.os)
  (self : DocumentSelector_class.DocumentSelector)
  (docs : list (list (str * str))) (d : list (str * str)) :
  document_selector_utils.read_all_documents os
    (DocumentSelector_class.documents_dir self) = Env.Returned docs ->
  In d docs ->
  exists f,
    dict_get d (py "filename") = Some f
    /\ (Env.path_exists os
          (posixpath.join (DocumentSelector_class.documents_dir self) f)
        = true ->
        DocumentSelector_class._read_document_tool os self f = d).
Proof.
  intros H Hd.
  apply ToolFacts.read_all_documents_Returned in H as (names & _ & _ & ->).
  apply ReadFacts.loop_members in Hd as (f & text & _ & Hread & ->).
  exists f. split; [reflexivity|]. intro He.
  unfold DocumentSelector_class._read_document_tool. cbv zeta.
  now rewrite He, Hread.
Qed.

Lemma X24_tool_agrees_with_read_documents_witness :
  exists f,
    dict_get
      (document_selector_utils.extract_document_metadata
         (py Examples.marked_text) (py "7.md"))
      (py "filename") = Some f
    /\ (Env.path_exists SelectorExamples.disk
          (posixpath.join
             (DocumentSelector_class.documents_dir SelectorExamples.selector)
             f)
        = true ->
        DocumentSelector_class._read_document_tool SelectorExamples.disk
          SelectorExamples.selector f
        = document_selector_utils.extract_document_metadata
            (py Examples.marked_text) (py "7.md")).
Proof.
  refine (X24_tool_agrees_with_read_documents SelectorExamples.disk
            SelectorExamples.selector
            [document_selector_utils.extract_document_metadata
               (py Examples.marked_text) (py "7.md")]
            _ _ _).
  - vm_compute. reflexivity.
  - left. reflexivity.
Defined.
